(** * smart_downloader: validation, existence probing and pool accounting

    A shallow embedding of [ants/scripts/smart_downloader.py].  The file
    follows the script from its leaves upwards: the FASTQ validator, the
    clean-up and existence probe, the layout resolver, the download
    strategies, the per-item worker and the coordinator loop of [main].
    The checks of [amalgkit/sanity.py] that stand on their own
    ([list_duplicates], [parse_metadata], [check_quant_output]) follow in
    the module [Sanity].

    Conventions.
    - Python exceptions are values of [pyclass]; [isinstance] follows the
      class hierarchy of the interpreter, so [except Exception] does not
      catch [KeyboardInterrupt] while a bare [except:] does.
    - A file is modelled by what the interpreter's I/O layer reports for
      it (size, decoded header, the stream of [readline()] results).  The
      codecs and the gzip reader are outside the repository.
    - Directories are always writable: [os.remove] of an existing file and
      [open(..., 'w')] inside an existing directory succeed.
    - A path to a file is a directory path and an entry name; entry names
      are taken to hold no path separator, as accession IDs do not.
    - Logging and terminal output carry no state and are left out, except
      that every [safe_log]/[return False] site of the validator is kept
      as a [reason]. *)

From Stdlib Require Import String Ascii List ZArith Bool Lia Permutation.
From stdpp Require Import base option gmap strings list pretty relations sorting.

Local Open Scope string_scope.
Local Open Scope list_scope.

(** ** Python strings *)

Module Py.

(** [c.lower()] on one ASCII character; bytes outside [A-Z] are kept. *)
Definition lower_ascii (c : ascii) : ascii :=
  let n := nat_of_ascii c in
  if (65 <=? n)%nat && (n <=? 90)%nat then ascii_of_nat (n + 32) else c.

(** [s.lower()] *)
Fixpoint lower (s : string) : string :=
  match s with
  | EmptyString => EmptyString
  | String c s' => String (lower_ascii c) (lower s')
  end.

(** [s.startswith(p)] *)
Definition startswith (s p : string) : bool := String.prefix p s.

(** [s.endswith(p)] *)
Definition endswith (s p : string) : bool :=
  String.prefix (String.rev p) (String.rev s).

(** [p in s] for strings *)
Fixpoint contains (p s : string) : bool :=
  String.prefix p s ||
  match s with
  | EmptyString => false
  | String _ s' => contains p s'
  end.

(** [s[:n]] *)
Definition take (n : nat) (s : string) : string := String.substring 0 n s.

(** [s[-n:]] for [0 < n]; the whole string when it is shorter than [n]. *)
Definition last_n (n : nat) (s : string) : string :=
  String.substring (String.length s - n) n s.

(** [os.path.join(a, b)]: an absolute [b] discards [a]; no separator is
    added to an empty [a] or after a trailing one. *)
Definition path_join (a b : string) : string :=
  if startswith b "/" then b
  else match a with
       | EmptyString => b
       | _ => if endswith a "/" then a +:+ b else a +:+ "/" +:+ b
       end.

End Py.

(** ** Exceptions *)

(** The exception classes the script can meet.  [IOError] is an alias of
    [OSError] in Python 3. *)
Inductive pyclass : Type :=
| BaseException
| KeyboardInterrupt
| Exception
| OSError
| FileNotFoundError
| PermissionError
| BadGzipFile
| EOFError
| ZlibError
| ValueError
| UnicodeDecodeError
| TypeError
| ZeroDivisionError
| AttributeError
| CalledProcessError.

Global Instance pyclass_eq_dec : EqDecision pyclass.
Proof. solve_decision. Defined.

Abbreviation IOError := OSError.

(** The proper ancestors of a class, nearest first. *)
Definition bases (c : pyclass) : list pyclass :=
  match c with
  | BaseException => []
  | KeyboardInterrupt => [BaseException]
  | Exception => [BaseException]
  | OSError => [Exception; BaseException]
  | FileNotFoundError => [OSError; Exception; BaseException]
  | PermissionError => [OSError; Exception; BaseException]
  | BadGzipFile => [OSError; Exception; BaseException]
  | EOFError => [Exception; BaseException]
  | ZlibError => [Exception; BaseException]
  | ValueError => [Exception; BaseException]
  | UnicodeDecodeError => [ValueError; Exception; BaseException]
  | TypeError => [Exception; BaseException]
  | ZeroDivisionError => [Exception; BaseException]
  | AttributeError => [Exception; BaseException]
  | CalledProcessError => [Exception; BaseException]
  end.

(** [isinstance(e, c)] for an exception [e] of class [e]. *)
Definition isinstance (e c : pyclass) : bool :=
  bool_decide (e = c) || existsb (fun b => bool_decide (b = c)) (bases e).

(** [except (c1, c2, ...)] *)
Definition caught_by (cs : list pyclass) (e : pyclass) : bool :=
  existsb (isinstance e) cs.

(** A computation that returns or raises, without state. *)
Inductive result (A : Type) : Type :=
| Ok (a : A)
| Exc (e : pyclass).
Arguments Ok {A} a.
Arguments Exc {A} e.

Definition rbind {A B} (m : result A) (k : A -> result B) : result B :=
  match m with
  | Ok a => k a
  | Exc e => Exc e
  end.

(** [try: m except cs: h] *)
Definition rcatch {A} (m : result A) (cs : list pyclass) (h : pyclass -> result A)
  : result A :=
  match m with
  | Ok a => Ok a
  | Exc e => if caught_by cs e then h e else Exc e
  end.

(** ** Files and the file system *)

(** One [readline()] call on an open text stream. *)
Inductive read_event : Type :=
| Line (s : string)          (* the line, with its newline; the empty string is end of file *)
| ReadError (e : pyclass).   (* the call raised *)

(** What the I/O layer reports for a regular file.  For a name ending in
    [.gz] the text stream is the one of [gzip.open(p, 'rt',
    errors='ignore')], otherwise of [open(p, 'rt', errors='ignore')]. *)
Record file : Type := mkFile {
  st_size : nat;                 (* os.path.getsize(p) *)
  file_header : result string;   (* open(p,'rb') ... f.read(200).decode('utf-8', errors='ignore') *)
  text_open : option pyclass;    (* the exception raised on opening the text stream, if any *)
  text : list read_event         (* successive readline() results; end of file afterwards *)
}.

(** A directory maps entry names to files; the file system maps directory
    paths to directories. *)
Abbreviation directory := (gmap string file).
Abbreviation filesystem := (gmap string directory).

(** A path is kept as the directory and the entry name that
    [os.path.join] put together. *)
Definition path : Type := string * string.

Definition lookup_path (fs : filesystem) (p : path) : option file :=
  d ← fs !! p.1; d !! p.2.

(** [os.path.exists(p)] for a path to a directory entry. *)
Definition exists_file (fs : filesystem) (p : path) : bool :=
  bool_decide (is_Some (lookup_path fs p)).

(** [os.path.exists(d)] for a directory path. *)
Definition exists_dir (fs : filesystem) (d : string) : bool :=
  bool_decide (is_Some (fs !! d)).

(** [os.path.getsize(p)]; a missing path raises. *)
Definition getsize (fs : filesystem) (p : path) : result nat :=
  match lookup_path fs p with
  | Some f => Ok (st_size f)
  | None => Exc FileNotFoundError
  end.

(** ** The validator: [is_valid_fastq_file] *)

(** Every [return] site of [is_valid_fastq_file], named after the message
    it logs. *)
Inductive reason : Type :=
| ErrorPage          (* "is an HTML error page, not a FASTQ file" *)
| HeaderUnreadable   (* "Error reading file header" *)
| LineUnreadable     (* "Error reading line from (gzipped) file" *)
| Truncated          (* "has fewer than 4 lines, not a valid FASTQ" *)
| NoRecordStart      (* "does not start with @ character" *)
| NoSeparator        (* "does not have the + character" *)
| StreamUnreadable   (* "is not a valid gzip file or has encoding issues" /
                        "Could not read file ... or has encoding issues" *)
| ValidationFault    (* "Error validating FASTQ file" *)
| WellFormed.        (* return True *)

Global Instance reason_eq_dec : EqDecision reason.
Proof. solve_decision. Defined.

(** The boolean the Python function returns. *)
Definition accepted (r : reason) : bool := bool_decide (r = WellFormed).

Definition error_markers : list string :=
  ["<!doctype html"; "<html"; "error"; "not found"; "404"].

Definition has_error_marker (header : string) : bool :=
  existsb (fun error_marker => Py.contains error_marker header) error_markers.

(** Lines 119-127: the look at the first 200 bytes of a small file.
    [None] means that the function goes on to the structural check. *)
Definition sniff_header (f : file) : result (option reason) :=
  rcatch
    (rbind (file_header f) (fun h =>
       let header := Py.lower h in
       if has_error_marker header then Ok (Some ErrorPage) else Ok None))
    [Exception]
    (fun _ => Ok (Some HeaderUnreadable)).

(** The loop [for _ in range(4)]: the lines read, or the exception a
    [readline()] raised. *)
Fixpoint read_lines (n : nat) (stream : list read_event) (lines : list string)
  : list string + pyclass :=
  match n with
  | O => inl lines
  | S n' =>
      match stream with
      | [] => inl lines                           (* readline() at end of file: break *)
      | Line EmptyString :: _ => inl lines        (* if not line: break *)
      | Line line :: stream' => read_lines n' stream' (lines ++ [line])
      | ReadError e :: _ => inr e
      end
  end.

(** The three tests on the lines read. *)
Definition check_lines (lines : list string) : reason :=
  if (length lines <? 4)%nat then Truncated
  else if negb (Py.startswith (nth 0 lines EmptyString) "@") then NoRecordStart
  else if negb (Py.startswith (nth 2 lines EmptyString) "+") then NoSeparator
  else WellFormed.

(** The body of either [with ... as f:] block. *)
Definition read_record (f : file) : result reason :=
  match text_open f with
  | Some e => Exc e
  | None =>
      match read_lines 4 (text f) [] with
      | inr e =>
          (* the inner [except Exception] around [f.readline()] *)
          if isinstance e Exception then Ok LineUnreadable else Exc e
      | inl lines => Ok (check_lines lines)
      end
  end.

(** [validate(path)] of the specification: the verdict with its reason. *)
Definition validate (fs : filesystem) (file_path : path) : result reason :=
  rcatch
    (rbind (getsize fs file_path) (fun file_size =>
     match lookup_path fs file_path with
     | None => Exc FileNotFoundError
     | Some f =>
         rbind (if (file_size <? 1024)%nat then sniff_header f else Ok None)
           (fun early =>
            match early with
            | Some r => Ok r
            | None =>
                if Py.endswith file_path.2 ".gz"
                then rcatch (read_record f)
                       [BadGzipFile; IOError; UnicodeDecodeError]
                       (fun _ => Ok StreamUnreadable)
                else rcatch (read_record f)
                       [IOError; UnicodeDecodeError]
                       (fun _ => Ok StreamUnreadable)
            end)
     end))
    [Exception]
    (fun _ => Ok ValidationFault).

Definition is_valid_fastq_file (fs : filesystem) (file_path : path) : result bool :=
  rbind (validate fs file_path) (fun r => Ok (accepted r)).

(** ** The world and its monad *)

(** A subprocess command line. *)
Definition command : Type := list string.

(** The state the script acts on: the files, and the subprocesses it has
    started so far (oldest first). *)
Record world : Type := mkWorld {
  fs : filesystem;
  trace : list command
}.

Inductive outcome (A : Type) : Type :=
| Done (a : A) (w : world)
| Raised (e : pyclass) (w : world).
Arguments Done {A} a w.
Arguments Raised {A} e w.

(** A statement of the script: it returns or raises, and leaves a world. *)
Definition M (A : Type) : Type := world -> outcome A.

Global Instance M_ret : MRet M := fun A a w => Done a w.

Global Instance M_bind : MBind M := fun A B k m w =>
  match m w with
  | Done a w' => k a w'
  | Raised e w' => Raised e w'
  end.

Definition raise {A} (e : pyclass) : M A := fun w => Raised e w.

(** [try: m except (cs): h] *)
Definition try_except {A} (m : M A) (cs : list pyclass) (h : pyclass -> M A) : M A :=
  fun w =>
    match m w with
    | Done a w' => Done a w'
    | Raised e w' => if caught_by cs e then h e w' else Raised e w'
    end.

(** [try: m except: h], the bare form, which catches every exception. *)
Definition try_bare {A} (m : M A) (h : M A) : M A :=
  try_except m [BaseException] (fun _ => h).

(** [try: m finally: f] *)
Definition try_finally {A} (m : M A) (f : M unit) : M A :=
  fun w =>
    match m w with
    | Done a w' =>
        match f w' with Done _ w'' => Done a w'' | Raised e w'' => Raised e w'' end
    | Raised e w' =>
        match f w' with Done _ w'' => Raised e w'' | Raised e' w'' => Raised e' w'' end
    end.

(** A read-only look at the files. *)
Definition observe {A} (r : filesystem -> result A) : M A :=
  fun w => match r (fs w) with Ok a => Done a w | Exc e => Raised e w end.

(** [a and b] with the right operand evaluated only when needed. *)
Definition and_then (a b : M bool) : M bool :=
  x ← a; if x : bool then b else mret false.

Definition os_path_exists (p : path) : M bool :=
  observe (fun fs => Ok (exists_file fs p)).

Definition os_path_exists_dir (d : string) : M bool :=
  observe (fun fs => Ok (exists_dir fs d)).

Definition os_path_getsize (p : path) : M nat := observe (fun fs => getsize fs p).

(** [os.remove(p)] *)
Definition os_remove (p : path) : M unit :=
  fun w =>
    match fs w !! p.1 with
    | Some d =>
        match d !! p.2 with
        | Some _ => Done tt (mkWorld (<[p.1 := delete p.2 d]> (fs w)) (trace w))
        | None => Raised FileNotFoundError w
        end
    | None => Raised FileNotFoundError w
    end.

(** [with open(p, 'w') as f: f.write(...)], leaving the file [f]. *)
Definition write_file (p : path) (f : file) : M unit :=
  fun w =>
    match fs w !! p.1 with
    | Some d => Done tt (mkWorld (<[p.1 := <[p.2 := f]> d]> (fs w)) (trace w))
    | None => Raised FileNotFoundError w
    end.

(** [os.makedirs(d, exist_ok=True)] *)
Definition os_makedirs (d : string) : M unit :=
  fun w =>
    match fs w !! d with
    | Some _ => Done tt w
    | None => Done tt (mkWorld (<[d := ∅]> (fs w)) (trace w))
    end.

(** [os.listdir(d)] *)
Definition os_listdir (d : string) : M (list string) :=
  observe (fun fs =>
    match fs !! d with
    | Some dir => Ok (map fst (map_to_list dir))
    | None => Exc FileNotFoundError
    end).

(** [os.rename(src, dst)] and [shutil.move(src, dst)] for regular files. *)
Definition os_rename (src dst : path) : M unit :=
  fun w =>
    match lookup_path (fs w) src with
    | Some f => (os_remove src;; write_file dst f) w
    | None => Raised FileNotFoundError w
    end.

Definition is_valid (file_path : path) : M bool :=
  observe (fun fs => is_valid_fastq_file fs file_path).

(** Python truthiness of [True], [False] and [None]. *)
Definition truthy (b : option bool) : bool :=
  match b with Some true => true | _ => false end.

(** A text file just written by the script, holding [lines]. *)
Definition text_file (lines : list string) : file :=
  let content := foldr String.append EmptyString lines in
  mkFile (String.length content) (Ok (Py.take 200 content)) None (map Line lines).

(** The completion marker written by [f.write(f"Downloaded and verified on
    {datetime.now().isoformat()}")]; the time stamp is not modelled. *)
Definition completion_marker : file :=
  text_file ["Downloaded and verified on <now>"].

Definition marker_path (fastq_dir srr_id : string) : path :=
  (fastq_dir, srr_id +:+ ".completed").

(** ** File-name conventions *)

Definition paired_patterns (srr_id : string) : list (string * string) :=
  [ (srr_id +:+ "_1.fastq.gz", srr_id +:+ "_2.fastq.gz");
    (srr_id +:+ "_1.fastq", srr_id +:+ "_2.fastq");
    (srr_id +:+ ".1.fastq.gz", srr_id +:+ ".2.fastq.gz");
    (srr_id +:+ ".1.fastq", srr_id +:+ ".2.fastq");
    (srr_id +:+ "_1.fq.gz", srr_id +:+ "_2.fq.gz");
    (srr_id +:+ "_1.fq", srr_id +:+ "_2.fq") ].

Definition single_patterns (srr_id : string) : list string :=
  [ srr_id +:+ ".fastq.gz";
    srr_id +:+ ".fastq";
    srr_id +:+ ".fq.gz";
    srr_id +:+ ".fq" ].

(** ** [verify_and_clean_downloads] *)

(** [try: os.remove(p) except Exception as e: safe_log(...)] *)
Definition remove_logged (p : path) : M unit :=
  try_except (os_remove p) [Exception] (fun _ => mret tt).

(** The loop over [file_pairs]; the result is [valid_files_found]. *)
Fixpoint verify_pairs (fastq_dir : string) (file_pairs : list (string * string))
  : M bool :=
  match file_pairs with
  | [] => mret false
  | file_pair :: rest =>
      let file1_path := (fastq_dir, file_pair.1) in
      let file2_path := (fastq_dir, file_pair.2) in
      present ← and_then (os_path_exists file1_path) (os_path_exists file2_path);
      if present : bool then
        valid1 ← is_valid file1_path;
        valid2 ← is_valid file2_path;
        if valid1 && valid2 then mret true                       (* break *)
        else if negb valid1 then
          remove_logged file1_path;; verify_pairs fastq_dir rest
        else if negb valid2 then
          remove_logged file2_path;; verify_pairs fastq_dir rest
        else verify_pairs fastq_dir rest
      else verify_pairs fastq_dir rest
  end.

(** The loop over [single_files]. *)
Fixpoint verify_singles (fastq_dir : string) (single_files : list string) : M bool :=
  match single_files with
  | [] => mret false
  | file_name :: rest =>
      let file_path := (fastq_dir, file_name) in
      present ← os_path_exists file_path;
      if present : bool then
        valid ← is_valid file_path;
        if valid : bool then mret true                           (* break *)
        else remove_logged file_path;; verify_singles fastq_dir rest
      else verify_singles fastq_dir rest
  end.

Definition verify_and_clean_downloads (fastq_dir srr_id : string)
  (is_paired : option bool) : M bool :=
  valid_files_found ←
    (if truthy is_paired
     then verify_pairs fastq_dir (paired_patterns srr_id)
     else verify_singles fastq_dir (single_patterns srr_id));
  (if negb valid_files_found then
     let marker_file := marker_path fastq_dir srr_id in
     present ← os_path_exists marker_file;
     if present : bool then remove_logged marker_file else mret tt
   else mret tt);;
  mret valid_files_found.

(** ** [check_existing_files] *)

(** [try: os.remove(p) except: pass] *)
Definition remove_quiet (p : path) : M unit :=
  try_bare (os_remove p) (mret tt).

(** [os.path.exists(p) and os.path.getsize(p) > 0] *)
Definition exists_nonempty (p : path) : M bool :=
  and_then (os_path_exists p) (size ← os_path_getsize p; mret (0 <? size)%nat).

(** The loop over the paired [patterns] of the probe. *)
Fixpoint probe_pairs (fastq_dir : string) (marker_file : path)
  (patterns : list (string * string)) : M bool :=
  match patterns with
  | [] => mret false
  | pattern_pair :: rest =>
      let file1_path := (fastq_dir, pattern_pair.1) in
      let file2_path := (fastq_dir, pattern_pair.2) in
      present ← and_then (exists_nonempty file1_path) (exists_nonempty file2_path);
      if present : bool then
        valid ← and_then (is_valid file1_path) (is_valid file2_path);
        if valid : bool then
          write_file marker_file completion_marker;; mret true     (* return True *)
        else
          valid1 ← is_valid file1_path;
          (if negb valid1 then remove_quiet file1_path else mret tt);;
          valid2 ← is_valid file2_path;
          (if negb valid2 then remove_quiet file2_path else mret tt);;
          probe_pairs fastq_dir marker_file rest
      else probe_pairs fastq_dir marker_file rest
  end.

(** The loop over the single-end [patterns] of the probe. *)
Fixpoint probe_singles (fastq_dir : string) (marker_file : path)
  (patterns : list string) : M bool :=
  match patterns with
  | [] => mret false
  | pattern :: rest =>
      let file_path := (fastq_dir, pattern) in
      present ← exists_nonempty file_path;
      if present : bool then
        valid ← is_valid file_path;
        if valid : bool then
          write_file marker_file completion_marker;; mret true     (* return True *)
        else
          remove_quiet file_path;; probe_singles fastq_dir marker_file rest
      else probe_singles fastq_dir marker_file rest
  end.

Definition check_existing_files (srr_id out_dir : string) (paired : option bool)
  : M bool :=
  let fastq_dir := Py.path_join out_dir srr_id in
  let marker_file := marker_path fastq_dir srr_id in
  marked ← os_path_exists marker_file;
  if marked : bool then
    verified ← verify_and_clean_downloads fastq_dir srr_id paired;
    if verified : bool then mret true
    else remove_quiet marker_file;; mret false
  else
    present ← os_path_exists_dir fastq_dir;
    if present : bool then
      if truthy paired
      then probe_pairs fastq_dir marker_file (paired_patterns srr_id)
      else probe_singles fastq_dir marker_file (single_patterns srr_id)
    else mret false.

(** ** The layout resolver: [get_layout_from_metadata] *)

(** A cell of the metadata frame: a string, or a value without [.lower()]
    (a missing value, a number). *)
Inductive cell : Type :=
| Str (s : string)
| NotStr.

Global Instance cell_eq_dec : EqDecision cell.
Proof. solve_decision. Defined.

(** The frame [pd.read_csv(metadata_file, sep='\t')] gives: the column
    names and the rows, each row aligned with the columns. *)
Record table : Type := mkTable {
  columns : list string;
  rows : list (list cell)
}.

(** [name in metadata.columns] *)
Definition has_column (t : table) (name : string) : bool :=
  bool_decide (name ∈ columns t).

Fixpoint column_index (cols : list string) (name : string) : option nat :=
  match cols with
  | [] => None
  | c :: cols' => if bool_decide (c = name) then Some 0 else S <$> column_index cols' name
  end.

(** [row[name]]; a cell missing from a short row reads as a missing value. *)
Definition cell_at (t : table) (row : list cell) (name : string) : cell :=
  match column_index (columns t) name with
  | Some i => nth i row NotStr
  | None => NotStr
  end.

(** [metadata[metadata[key] == srr_id]] *)
Definition select (t : table) (key srr_id : string) : list (list cell) :=
  List.filter (fun row => bool_decide (cell_at t row key = Str srr_id)) (rows t).

(** [layout.lower() == 'paired'] *)
Definition is_paired_layout (layout : cell) : result bool :=
  match layout with
  | Str s => Ok (bool_decide (Py.lower s = "paired"))
  | NotStr => Exc AttributeError
  end.

(** The layout: [Some true] paired, [Some false] single, [None] unknown.
    The first argument is what reading [metadata_file] gives. *)
Definition get_layout_from_metadata (metadata_file : result table) (srr_id : string)
  : result (option bool) :=
  rcatch
    (rbind metadata_file (fun metadata =>
       if negb (has_column metadata "run_accession") then
         if has_column metadata "run" then
           match select metadata "run" srr_id with
           | row :: _ =>
               if has_column metadata "lib_layout"
               then rbind (is_paired_layout (cell_at metadata row "lib_layout"))
                      (fun b => Ok (Some b))
               else Ok None
           | [] => Ok None
           end
         else Ok None
       else
         match select metadata "run_accession" srr_id with
         | row :: _ =>
             if has_column metadata "library_layout"
             then rbind (is_paired_layout (cell_at metadata row "library_layout"))
                    (fun b => Ok (Some b))
             else Ok None
         | [] => Ok None
         end))
    [Exception]
    (fun _ => Ok None).

(** ** The environment of the script *)

(** Why a program could not be started: [subprocess.run] raises
    [FileNotFoundError] when it is not found, [PermissionError] when it
    may not be executed, and another [OSError] otherwise. *)
Inductive spawn_error : Type :=
| NotFound
| NotPermitted
| OtherOSError.

Definition spawn_class (e : spawn_error) : pyclass :=
  match e with
  | NotFound => FileNotFoundError
  | NotPermitted => PermissionError
  | OtherOSError => OSError
  end.

(** What running a command does: the program is not started; or it runs
    and exits with a status, leaving files; or it does so with output
    that is not valid text, which a call with [text=True] cannot decode. *)
Inductive process : Type :=
| NotStarted (e : spawn_error)
| Exited (returncode : Z) (fs' : filesystem)
| Garbled (returncode : Z) (fs' : filesystem).

(** What lies outside the script: the programs it starts, the archive
    readers, and two values fixed when the module is loaded.

    [subprocess cmd w] is what running [cmd] in world [w] does.
    [zip_members f] is [Ok None] when [f] is not a ZIP archive,
    [Ok (Some d)] when it is one holding the entries [d], and [Exc e]
    when reading it raises; [tar_members] likewise. *)
Record environment : Type := mkEnv {
  subprocess : command -> world -> process;
  zip_members : file -> result (option directory);
  tar_members : file -> result (option directory);
  workspace_root : string;
  terminal_width : nat
}.

Definition path_str (p : path) : string := Py.path_join p.1 p.2.

Definition user_agent : string :=
  "Mozilla/5.0 Amalgkit/1.0 (SRA Download Tool; https://github.com/amalgkit; Please contact your@email.com if download issues)".

Definition newline : string := String "010" EmptyString.

Definition id_file (srr_id : string) : file := text_file [srr_id +:+ newline].

Section Strategies.

Context (env : environment).

(** [subprocess.run(cmd, ..., check=False).returncode]; [text] says
    whether the call captures the output with [text=True].  A program
    that is not started leaves no entry in the trace. *)
Definition subprocess_run (text : bool) (cmd : command) : M Z :=
  fun w =>
    match subprocess env cmd w with
    | NotStarted e => Raised (spawn_class e) w
    | Exited returncode fs' => Done returncode (mkWorld fs' (trace w ++ [cmd]))
    | Garbled returncode fs' =>
        let w' := mkWorld fs' (trace w ++ [cmd]) in
        if text then Raised UnicodeDecodeError w' else Done returncode w'
    end.

(** [subprocess.run(cmd, check=True, stdout=PIPE, stderr=PIPE)] *)
Definition subprocess_check (cmd : command) : M unit :=
  returncode ← subprocess_run false cmd;
  if bool_decide (returncode = 0%Z) then mret tt else raise CalledProcessError.

Definition fix_directory_permissions (directory : string) : M bool :=
  try_except (os_makedirs directory;; mret true) [Exception] (fun _ => mret false).

(** [for file in files: if file.endswith('.fastq'): subprocess.run(["gzip", ...])] *)
Fixpoint gzip_each (fastq_dir : string) (files : list string) : M unit :=
  match files with
  | [] => mret tt
  | file :: rest =>
      (if Py.endswith file ".fastq"
       then subprocess_run false ["gzip"; Py.path_join fastq_dir file];; mret tt
       else mret tt);;
      gzip_each fastq_dir rest
  end.

Definition download_sra_directly (srr_id out_dir : string) (threads : nat) : M bool :=
  try_except
    (let fastq_dir := Py.path_join out_dir srr_id in
     os_makedirs fastq_dir;;
     fix_directory_permissions fastq_dir;;
     prefetch ← subprocess_run true ["prefetch"; srr_id; "--progress"; "--max-size"; "50G"];
     if negb (bool_decide (prefetch = 0%Z)) then mret false else
     fasterq ← subprocess_run true
       ["fasterq-dump"; srr_id; "--outdir"; fastq_dir; "--threads"; pretty threads;
        "--progress"; "--split-files"];
     if negb (bool_decide (fasterq = 0%Z)) then mret false else
     files ← os_listdir fastq_dir;
     gzip_each fastq_dir files;;
     files' ← os_listdir fastq_dir;
     let is_paired :=
       (1 <? length (List.filter (fun f => Py.endswith f "_1.fastq.gz"
                                     || Py.endswith f "_2.fastq.gz") files'))%nat in
     verified ← verify_and_clean_downloads fastq_dir srr_id (Some is_paired);
     if verified : bool then mret true else mret false)
    [Exception]
    (fun _ => mret false).

(** *** The EBI mirrors: [try_download_with_curl] *)

Definition curl_file_names (srr_id : string) (is_paired : option bool) : list string :=
  if truthy is_paired
  then [srr_id +:+ "_1.fastq.gz"; srr_id +:+ "_2.fastq.gz"]
  else [srr_id +:+ ".fastq.gz"].

Definition curl_cmd (output url max_time : string) : command :=
  ["curl"; "-L"; "-o"; output; url; "-f"; "--connect-timeout"; "30";
   "--max-time"; max_time; "-A"; user_agent].

(** The loop [for file_name in file_names] of one URL layout; the result
    is [(curl_success, downloaded_files)]. *)
Fixpoint curl_fetch (url_path fastq_dir : string) (file_names : list string)
  (downloaded_files : list path) : M (bool * list path) :=
  match file_names with
  | [] => mret (true, downloaded_files)
  | file_name :: rest =>
      let url := url_path +:+ "/" +:+ file_name in
      let output_path := (fastq_dir, file_name) in
      let downloaded_files := downloaded_files ++ [output_path] in
      returncode ← subprocess_run true (curl_cmd (path_str output_path) url "300");
      arrived ← and_then (os_path_exists output_path)
                  (size ← os_path_getsize output_path; mret (negb (size =? 0)%nat));
      if negb (bool_decide (returncode = 0%Z)) || negb arrived
      then mret (false, downloaded_files)                        (* break *)
      else
        valid ← is_valid output_path;
        if negb valid then mret (false, downloaded_files)        (* break *)
        else curl_fetch url_path fastq_dir rest downloaded_files
  end.

(** [for file_path in downloaded_files: if exists: try remove except: pass] *)
Fixpoint remove_partial (downloaded_files : list path) : M unit :=
  match downloaded_files with
  | [] => mret tt
  | file_path :: rest =>
      present ← os_path_exists file_path;
      (if present : bool then remove_quiet file_path else mret tt);;
      remove_partial rest
  end.

(** One URL layout, from [file_names = ...] to the clean-up.  The script
    spells this block out three times; the result is [true] where the
    script returns [True] and [false] where it falls through to the next
    layout (also after a caught exception). *)
Definition curl_layout (url_path fastq_dir srr_id : string) (is_paired : option bool)
  : M bool :=
  let file_names := curl_file_names srr_id is_paired in
  '(curl_success, downloaded_files) ← curl_fetch url_path fastq_dir file_names [];
  if curl_success : bool then
    write_file (marker_path fastq_dir srr_id) completion_marker;; mret true
  else
    remove_partial downloaded_files;; mret false.

Definition ebi_url_1 (srr_id : string) : string :=
  let base_url := "https://ftp.sra.ebi.ac.uk/vol1/fastq" in
  let srr_prefix := Py.take 6 srr_id in
  let remaining_digits := (String.length srr_id - 6)%nat in
  let additional_path :=
    if (0 <? remaining_digits)%nat then
      if (remaining_digits <=? 2)%nat
      then "00" +:+ Py.last_n remaining_digits srr_id
      else "0" +:+ Py.last_n 3 srr_id
    else "00" in
  base_url +:+ "/" +:+ srr_prefix +:+ "/" +:+ additional_path +:+ "/" +:+ srr_id.

Definition ebi_url_2 (srr_id : string) : string :=
  "https://ftp.sra.ebi.ac.uk/vol1/fastq" +:+ "/" +:+ srr_id.

Definition ebi_url_era (srr_id : string) : string :=
  "https://ftp.sra.ebi.ac.uk/vol1/ERA" +:+ "/" +:+ Py.take 6 srr_id +:+ "/" +:+ srr_id.

Definition try_download_with_curl (srr_id out_dir : string) (threads : nat)
  (is_paired : option bool) : M bool :=
  try_except
    (let fastq_dir := Py.path_join out_dir srr_id in
     os_makedirs fastq_dir;;
     fix_directory_permissions fastq_dir;;
     done1 ← try_except (curl_layout (ebi_url_1 srr_id) fastq_dir srr_id is_paired)
               [Exception] (fun _ => mret false);
     if done1 : bool then mret true else
     done2 ← try_except (curl_layout (ebi_url_2 srr_id) fastq_dir srr_id is_paired)
               [Exception] (fun _ => mret false);
     if done2 : bool then mret true else
     done3 ← try_except
               (if Py.startswith srr_id "ERR"
                then curl_layout (ebi_url_era srr_id) fastq_dir srr_id is_paired
                else mret false)
               [Exception] (fun _ => mret false);
     if done3 : bool then mret true else mret false)
    [Exception]
    (fun _ => mret false).

(** *** The legacy dump tool: [download_with_fastq_dump] *)

Definition download_with_fastq_dump (srr_id out_dir : string) (threads : nat)
  : M bool :=
  try_except
    (let fastq_dir := Py.path_join out_dir srr_id in
     os_makedirs fastq_dir;;
     fix_directory_permissions fastq_dir;;
     split ← subprocess_run true
       ["fastq-dump"; srr_id; "--outdir"; fastq_dir; "--gzip"; "--split-files"];
     returncode ←
       (if negb (bool_decide (split = 0%Z))
        then subprocess_run true ["fastq-dump"; srr_id; "--outdir"; fastq_dir; "--gzip"]
        else mret split);
     if bool_decide (returncode = 0%Z) then
       listing ← os_listdir fastq_dir;
       let files := List.filter (fun f => Py.endswith f ".fastq.gz"
                                    || Py.endswith f ".fastq") listing in
       match files with
       | _ :: _ =>
           write_file (marker_path fastq_dir srr_id) completion_marker;;
           mret true
       | [] => mret false
       end
     else mret false)
    [Exception]
    (fun _ => mret false).

(** *** The NCBI endpoints: [try_ncbi_download] *)

Definition read_file (p : path) : M file :=
  observe (fun fs =>
    match lookup_path fs p with
    | Some f => Ok f
    | None => Exc FileNotFoundError
    end).

(** [archive.extractall(fastq_dir)] *)
Definition extractall (members : directory) (fastq_dir : string) : M unit :=
  fun w =>
    let d := default ∅ (fs w !! fastq_dir) in
    Done tt (mkWorld (<[fastq_dir := members ∪ d]> (fs w)) (trace w)).

(** [try: if is_archive(temp_file): extractall(...); extract_success = True
    except Exception: safe_log(...)]; the result is [extract_success]. *)
Definition try_archive (members : file -> result (option directory))
  (temp_file : path) (fastq_dir : string) : M bool :=
  try_except
    (f ← read_file temp_file;
     found ← observe (fun _ => members f);
     match found with
     | Some d => extractall d fastq_dir;; mret true
     | None => mret false
     end)
    [Exception]
    (fun _ => mret false).

Definition remove_if_exists (p : path) : M unit :=
  present ← os_path_exists p;
  if present : bool then os_remove p else mret tt.

(** [returncode == 0 and os.path.exists(p) and os.path.getsize(p) > 1024] *)
Definition fetched (returncode : Z) (p : path) : M bool :=
  and_then (mret (bool_decide (returncode = 0%Z)))
    (and_then (os_path_exists p)
       (size ← os_path_getsize p; mret (1024 <? size)%nat)).

(** Pattern 1.  [Some b] where the script returns [b], [None] where it
    goes on to pattern 2. *)
Definition ncbi_pattern_1 (srr_id fastq_dir : string) (is_paired : option bool)
  : M (option bool) :=
  try_except
    (let base_url := "https://trace.ncbi.nlm.nih.gov/Traces/sra-reads-be/fastq" in
     let url := base_url +:+ "?acc=" +:+ srr_id in
     let temp_file := (fastq_dir, srr_id +:+ ".temp") in
     returncode ← subprocess_run true (curl_cmd (path_str temp_file) url "600");
     ok ← fetched returncode temp_file;
     if ok : bool then
       zipped ← try_archive (zip_members env) temp_file fastq_dir;
       extract_success ←
         (if negb zipped then try_archive (tar_members env) temp_file fastq_dir
          else mret true);
       (* [inl b]: return b; [inr s]: go on with extract_success = s *)
       step ←
         (if negb extract_success then
            valid ← is_valid temp_file;
            if valid : bool then
              if truthy is_paired then
                os_remove temp_file;; mret (inl false)
              else
                let fastq_file := (fastq_dir, srr_id +:+ ".fastq") in
                os_rename temp_file fastq_file;;
                subprocess_run false ["gzip"; path_str fastq_file];;
                mret (inr true)
            else os_remove temp_file;; mret (inr false)
          else mret (inr true));
       match step with
       | inl b => mret (Some b)
       | inr extract_success =>
           remove_if_exists temp_file;;
           verified ← and_then (mret extract_success)
                        (verify_and_clean_downloads fastq_dir srr_id is_paired);
           if verified : bool then
             write_file (marker_path fastq_dir srr_id) completion_marker;;
             mret (Some true)
           else mret None
       end
     else remove_if_exists temp_file;; mret None)
    [Exception]
    (fun _ => mret None).

(** Pattern 2.  [true] where the script returns [True]. *)
Definition ncbi_pattern_2 (srr_id fastq_dir : string) (is_paired : option bool)
  : M bool :=
  try_except
    (let base_url := "https://sra-pub-run-odp.s3.amazonaws.com/sra" in
     let url := base_url +:+ "/" +:+ srr_id +:+ "/" +:+ srr_id in
     let temp_file := (fastq_dir, srr_id +:+ ".sra") in
     returncode ← subprocess_run true (curl_cmd (path_str temp_file) url "600");
     ok ← fetched returncode temp_file;
     if ok : bool then
       converted ←
         try_except
           (subprocess_check ["which"; "fastq-dump"];;
            let extract_cmd :=
              ["fastq-dump"; "--outdir"; fastq_dir; "--gzip"]
              ++ (if truthy is_paired then ["--split-files"] else [])
              ++ [path_str temp_file] in
            extracted ← subprocess_run true extract_cmd;
            if bool_decide (extracted = 0%Z) then
              verified ← verify_and_clean_downloads fastq_dir srr_id is_paired;
              if verified : bool then
                write_file (marker_path fastq_dir srr_id) completion_marker;;
                remove_if_exists temp_file;;
                mret true
              else mret false
            else mret false)
           [Exception]
           (fun _ => mret false);
       if converted : bool then mret true
       else remove_if_exists temp_file;; mret false
     else remove_if_exists temp_file;; mret false)
    [Exception]
    (fun _ => mret false).

Definition try_ncbi_download (srr_id out_dir : string) (threads : nat)
  (is_paired : option bool) : M bool :=
  let fastq_dir := Py.path_join out_dir srr_id in
  try_except
    (os_makedirs fastq_dir;;
     fix_directory_permissions fastq_dir;;
     first ← ncbi_pattern_1 srr_id fastq_dir is_paired;
     match first with
     | Some b => mret b
     | None =>
         second ← ncbi_pattern_2 srr_id fastq_dir is_paired;
         if second : bool then mret true else mret false
     end)
    [Exception]
    (fun _ => remove_if_exists (fastq_dir, srr_id +:+ ".temp");; mret false).

(** *** The worker's chain: [download_single_sra] *)

(** The metadata file: its path, and what reading it as a frame gives. *)
Record metadata_source : Type := mkMeta {
  metadata_path : string;
  metadata_read : result table
}.

Definition is_fastq_name (f : string) : bool :=
  Py.endswith f ".fastq.gz" || Py.endswith f ".fastq"
  || Py.endswith f ".fq.gz" || Py.endswith f ".fq".

(** [for file in fastq_files: shutil.move(src, dst)] *)
Fixpoint move_each (check_dir fastq_dir : string) (fastq_files : list string)
  : M unit :=
  match fastq_files with
  | [] => mret tt
  | file :: rest =>
      os_rename (check_dir, file) (fastq_dir, file);;
      move_each check_dir fastq_dir rest
  end.

(** The loop [for check_dir in potential_directories]; [true] where the
    script returns [True]. *)
Fixpoint scan_directories (fastq_dir srr_id : string) (is_paired : option bool)
  (potential_directories : list string) : M bool :=
  match potential_directories with
  | [] => mret false
  | check_dir :: rest =>
      present ← os_path_exists_dir check_dir;
      if present : bool then
        files ← os_listdir check_dir;
        let fastq_files := List.filter is_fastq_name files in
        match fastq_files with
        | _ :: _ =>
            (if negb (bool_decide (check_dir = fastq_dir)) then
               os_makedirs fastq_dir;; move_each check_dir fastq_dir fastq_files
             else mret tt);;
            write_file (marker_path fastq_dir srr_id) completion_marker;;
            verified ← verify_and_clean_downloads fastq_dir srr_id is_paired;
            if verified : bool then mret true
            else scan_directories fastq_dir srr_id is_paired rest
        | [] => scan_directories fastq_dir srr_id is_paired rest
        end
      else scan_directories fastq_dir srr_id is_paired rest
  end.

Definition download_single_sra (srr_id out_dir : string) (threads : nat)
  (amalgkit_path : string) (metadata_file : metadata_source) : M bool :=
  let fastq_dir := Py.path_join out_dir srr_id in
  os_makedirs fastq_dir;;
  fix_directory_permissions fastq_dir;;
  is_paired ← observe (fun _ =>
    get_layout_from_metadata (metadata_read metadata_file) srr_id);
  found ← check_existing_files srr_id out_dir is_paired;
  if found : bool then mret true else
  direct ← try_except
             (subprocess_check ["which"; "prefetch"];;
              download_sra_directly srr_id out_dir threads)
             [Exception] (fun _ => mret false);
  if direct : bool then mret true else
  ebi ← try_except (try_download_with_curl srr_id out_dir threads is_paired)
          [Exception] (fun _ => mret false);
  if ebi : bool then mret true else
  ncbi ← try_except (try_ncbi_download srr_id out_dir threads is_paired)
           [Exception] (fun _ => mret false);
  if ncbi : bool then mret true else
  let temp_id_file := (fastq_dir, srr_id +:+ ".id") in
  write_file temp_id_file (id_file srr_id);;
  let cmd :=
    [amalgkit_path; "getfastq"; "--id_list"; path_str temp_id_file;
     "--out_dir"; out_dir; "--threads"; pretty threads;
     "--metadata"; metadata_path metadata_file; "--pfd"; "no"; "--fastp"; "no"] in
  try_finally
    (try_except
       (returncode ← subprocess_run true cmd;
        if bool_decide (returncode = 0%Z) then
          let potential_directories :=
            [ fastq_dir;
              Py.path_join (Py.path_join out_dir "getfastq") srr_id;
              Py.path_join (Py.path_join (Py.path_join (workspace_root env) "data")
                              "fastq") srr_id;
              Py.path_join (Py.path_join (Py.path_join (workspace_root env) "data")
                              "getfastq") srr_id ] in
          moved ← scan_directories fastq_dir srr_id is_paired potential_directories;
          if moved : bool then mret true else
          dumped ← download_with_fastq_dump srr_id out_dir threads;
          if dumped : bool then mret true
          else os_listdir fastq_dir;; mret false
        else
          dumped ← download_with_fastq_dump srr_id out_dir threads;
          if dumped : bool then mret true else mret false)
       [Exception]
       (fun _ => mret false))
    (present ← os_path_exists temp_id_file;
     if present : bool then remove_quiet temp_id_file else mret tt).

(** *** The item worker: [download_worker] *)

Definition download_worker (srr_id out_dir : string) (threads : nat)
  (amalgkit_path : string) (metadata_file : metadata_source) (force : bool)
  : M (string * string) :=
  existing ← and_then (mret (negb force))
               (check_existing_files srr_id out_dir (Some false));
  if existing : bool then mret (srr_id, "skipped") else
  success ← download_single_sra srr_id out_dir threads amalgkit_path metadata_file;
  if success : bool then mret (srr_id, "success") else mret (srr_id, "failed").

(** ** The coordinator: [main] *)

Definition ensure_sra_toolkit : M bool :=
  try_except
    (subprocess_check ["which"; "prefetch"];; mret true)
    [CalledProcessError]
    (fun _ =>
       conda ← try_except
                 (subprocess_check ["which"; "conda"];;
                  installed ← subprocess_run true
                    ["conda"; "install"; "-c"; "bioconda"; "-y"; "sra-tools"];
                  mret (bool_decide (installed = 0%Z)))
                 [CalledProcessError] (fun _ => mret false);
       if conda : bool then mret true else
       apt ← try_except
               (subprocess_check ["which"; "apt-get"];;
                subprocess_run false ["sudo"; "apt-get"; "update"];;
                installed ← subprocess_run true
                  ["sudo"; "apt-get"; "install"; "-y"; "sra-toolkit"];
                mret (bool_decide (installed = 0%Z)))
               [CalledProcessError] (fun _ => mret false);
       if apt : bool then mret true else mret false).

Definition urls_to_check : list string :=
  [ "https://ftp.sra.ebi.ac.uk/vol1/fastq";
    "https://era-fasp.sra.ebi.ac.uk";
    "https://trace.ncbi.nlm.nih.gov/Traces/sra-reads-be/fastq";
    "https://sra-pub-run-odp.s3.amazonaws.com/sra" ].

(** The probes of [check_network_connectivity]; what they print is not
    kept. *)
Fixpoint check_network_connectivity (urls : list string) : M unit :=
  match urls with
  | [] => mret tt
  | url :: rest =>
      try_except
        (subprocess_run true ["curl"; "-I"; "-s"; "--connect-timeout"; "10"; url];; mret tt)
        [Exception] (fun _ => mret tt);;
      check_network_connectivity rest
  end.

(** [a // b] on non-negative integers *)
Definition floordiv (a b : nat) : M nat :=
  if (b =? 0)%nat then raise ZeroDivisionError else mret (a / b)%nat.

(** [display_emoji_progress_bar]: the bar is printed, not kept; the
    divisions by [total] and [completed] for the percentage and the
    remaining time are guarded in the script, the one for the bar is not. *)
Definition display_emoji_progress_bar (completed total successful skipped failed : nat)
  : M unit :=
  let text_space := 40%nat in
  let bar_width := Nat.max 10 (terminal_width env - text_space) in
  filled_length ← floordiv (bar_width * completed) total;
  let empty_length := (bar_width - filled_length)%nat in
  mret tt.

(** The result counters of [main]. *)
Record counters : Type := mkCounters {
  successful : nat;
  skipped : nat;
  failed : nat;
  completed : nat
}.

(** [completed += 1] and the [if result == ...] chain. *)
Definition count_result (c : counters) (result : string) : counters :=
  let completed' := S (completed c) in
  if bool_decide (result = "success")
  then mkCounters (S (successful c)) (skipped c) (failed c) completed'
  else if bool_decide (result = "skipped")
  then mkCounters (successful c) (S (skipped c)) (failed c) completed'
  else mkCounters (successful c) (skipped c) (S (failed c)) completed'.

(** The [except Exception] branch of the loop body. *)
Definition count_error (total_ids : nat) (c : counters) : M counters :=
  let c' := mkCounters (successful c) (skipped c) (S (failed c)) (S (completed c)) in
  display_emoji_progress_bar (completed c') total_ids
    (successful c') (skipped c') (failed c');;
  mret c'.

(** One turn of [for future in as_completed(...)]: [future] is the
    worker whose result is taken by [future.result()]. *)
Definition on_completion (total_ids : nat) (c : counters)
  (future : M (string * string)) : M counters :=
  fun w =>
    match future w with
    | Raised e w' =>
        if caught_by [Exception] e then count_error total_ids c w' else Raised e w'
    | Done (_, result) w' =>
        let c' := count_result c result in
        try_except
          (display_emoji_progress_bar (completed c') total_ids
             (successful c') (skipped c') (failed c');;
           (* progress_pct = (completed / total_ids) * 100 *)
           (if (total_ids =? 0)%nat then raise ZeroDivisionError else mret tt);;
           mret c')
          [Exception]
          (fun _ => count_error total_ids c')
          w'
    end.

(** The command line, after [parse_args]. *)
Record arguments : Type := mkArgs {
  args_id_list : string;
  args_out_dir : string;
  args_threads : nat;
  args_max_concurrent : Z;
  args_metadata : string;
  args_force : bool;
  args_amalgkit_path : string;
  args_test : bool
}.

(** The two input files as [main] finds them: [None] when the path does
    not exist; else the stripped non-blank lines of the ID list, and what
    reading the metadata table gives. *)
Record inputs : Type := mkInputs {
  id_list_file : option (list string);
  metadata_file : option (result table)
}.

(** The loop over the completed futures.  The pool is modelled by the
    order in which the workers complete, each worker running in one
    piece when its turn comes. *)
Fixpoint as_completed_loop (args : arguments) (meta : metadata_source)
  (total_ids : nat) (order : list string) (c : counters) : M counters :=
  match order with
  | [] => mret c
  | srr_id :: rest =>
      c' ← on_completion total_ids c
             (download_worker srr_id (args_out_dir args) (args_threads args)
                (args_amalgkit_path args) meta (args_force args));
      as_completed_loop args meta total_ids rest c'
  end.

Definition summary_file (total_ids : nat) (c : counters) : file :=
  text_file
    [ "Download completed on <now>" +:+ newline;
      "Total SRA entries: " +:+ pretty total_ids +:+ newline;
      "Successfully downloaded: " +:+ pretty (successful c) +:+ newline;
      "Skipped (already exists): " +:+ pretty (skipped c) +:+ newline;
      "Failed: " +:+ pretty (failed c) +:+ newline;
      "Total time: <minutes> minutes" +:+ newline ].

(** The part of [main] after the inputs are found: from
    [os.makedirs(args.out_dir, exist_ok=True)] to the final [sys.exit].
    The read of the metadata columns for the log sits in a
    [try]/[except Exception] of its own and leaves nothing behind.
    [ThreadPoolExecutor(max_workers=n)] raises [ValueError] unless
    [0 < n]. *)
Definition run_downloads (args : arguments) (srr_ids : list string)
  (table_read : result table) (order : list string) : M nat :=
  os_makedirs (args_out_dir args);;
  fix_directory_permissions (args_out_dir args);;
  let total_ids := length srr_ids in
  let meta := mkMeta (args_metadata args) table_read in
  (if (args_max_concurrent args <=? 0)%Z then raise ValueError else mret tt);;
  display_emoji_progress_bar 0 total_ids 0 0 0;;
  c ← as_completed_loop args meta total_ids order (mkCounters 0 0 0 0);
  write_file (args_out_dir args, "download_summary.txt") (summary_file total_ids c);;
  if (0 <? failed c)%nat then mret 1%nat else mret 0%nat.

(** [main]; the result is the status given to [sys.exit], or [0] where
    the function returns.  [order] is the completion order chosen by the
    pool, a permutation of the IDs read.  [configure_proxy] only prints. *)
Definition main (args : arguments) (inp : inputs) (order : list string) : M nat :=
  sra_installed ← ensure_sra_toolkit;
  connectivity ← check_network_connectivity urls_to_check;
  if args_test args then mret 0%nat else                           (* return *)
  match id_list_file inp with
  | None => mret 1%nat                                             (* sys.exit(1) *)
  | Some srr_ids =>
      match metadata_file inp with
      | None => mret 1%nat                                         (* sys.exit(1) *)
      | Some table_read => run_downloads args srr_ids table_read order
      end
  end.

End Strategies.

(** The exit status of the process: the one [main] chose, or [1] when an
    exception leaves [main] and the interpreter prints its traceback. *)
Definition exit_status (o : outcome nat) : nat :=
  match o with
  | Done status _ => status
  | Raised _ _ => 1%nat
  end.

(** ** Observations used in the statements *)

Definition world_of {A} (o : outcome A) : world :=
  match o with
  | Done _ w => w
  | Raised _ w => w
  end.

(** A small file goes on to the structural check when its header can be
    read and shows no error marker; a larger file always does. *)
Definition reaches_structural_check (f : file) : Prop :=
  (st_size f < 1024)%nat ->
  exists h, file_header f = Ok h /\ has_error_marker (Py.lower h) = false.

(** The text stream of [f] fails with [e] while the validator reads it:
    on opening, or in one of the [readline()] calls it makes. *)
Definition stream_fails (f : file) (e : pyclass) : Prop :=
  text_open f = Some e \/
  (text_open f = None /\ read_lines 4 (text f) [] = inr e).

(** The content of [f] fails to decompress or decode somewhere: on
    opening the text stream, or at some [readline()] call. *)
Definition fails_to_decompress (f : file) : Prop :=
  is_Some (text_open f) \/ exists e, ReadError e ∈ text f.

(** The layout of [srr_id] cannot be read from the metadata. *)
Inductive undetermined (srr_id : string) : result table -> Prop :=
| parsing_error e :
    isinstance e Exception = true -> undetermined srr_id (Exc e)
| no_key_column t :
    has_column t "run_accession" = false -> has_column t "run" = false ->
    undetermined srr_id (Ok t)
| lookup_miss_run t :
    has_column t "run_accession" = false -> select t "run" srr_id = [] ->
    undetermined srr_id (Ok t)
| lookup_miss_run_accession t :
    has_column t "run_accession" = true -> select t "run_accession" srr_id = [] ->
    undetermined srr_id (Ok t)
| no_lib_layout t :
    has_column t "run_accession" = false -> has_column t "lib_layout" = false ->
    undetermined srr_id (Ok t)
| no_library_layout t :
    has_column t "run_accession" = true -> has_column t "library_layout" = false ->
    undetermined srr_id (Ok t)
| lib_layout_not_text t row rest :
    has_column t "run_accession" = false ->
    select t "run" srr_id = row :: rest ->
    cell_at t row "lib_layout" = NotStr ->
    undetermined srr_id (Ok t)
| library_layout_not_text t row rest :
    has_column t "run_accession" = true ->
    select t "run_accession" srr_id = row :: rest ->
    cell_at t row "library_layout" = NotStr ->
    undetermined srr_id (Ok t).

(** The workers of a run, one after the other in completion order, each
    starting from the world the one before has left. *)
Fixpoint item_outcomes (env : environment) (args : arguments) (meta : metadata_source)
  (order : list string) (w : world) : list (outcome (string * string)) :=
  match order with
  | [] => []
  | srr_id :: rest =>
      let o := download_worker env srr_id (args_out_dir args) (args_threads args)
                 (args_amalgkit_path args) meta (args_force args) w in
      o :: item_outcomes env args meta rest (world_of o)
  end.

(** The world the last worker leaves. *)
Definition after_items (w : world) (outcomes : list (outcome (string * string)))
  : world :=
  List.last (map world_of outcomes) w.

(** The item ended [skipped] (already present) or [success]. *)
Definition ended_well (o : outcome (string * string)) : bool :=
  match o with
  | Done (_, tag) _ => bool_decide (tag = "success") || bool_decide (tag = "skipped")
  | Raised _ _ => false
  end.

(** The worker returned, or raised something [except Exception] takes. *)
Definition ordinary (o : outcome (string * string)) : bool :=
  match o with
  | Done _ _ => true
  | Raised e _ => isinstance e Exception
  end.

(** What one completed worker adds to the counters. *)
Definition count_outcome (c : counters) (o : outcome (string * string)) : counters :=
  match o with
  | Done (_, result) _ => count_result c result
  | Raised _ _ =>
      mkCounters (successful c) (skipped c) (S (failed c)) (S (completed c))
  end.

Definition tally (c : counters) (outcomes : list (outcome (string * string)))
  : counters :=
  fold_left count_outcome outcomes c.

(** The start of [main], up to the test-mode gate. *)
Definition startup (env : environment) : M unit :=
  ensure_sra_toolkit env;; check_network_connectivity env urls_to_check.

(** A statement that starts no subprocess. *)
Definition quiet {A} (m : M A) : Prop :=
  forall w, trace (world_of (m w)) = trace w.

(** [completed = successful + skipped + failed] *)
Definition balanced (c : counters) : Prop :=
  completed c = (successful c + skipped c + failed c)%nat.

(** ** Sample files, worlds and environments *)

Module Samples.

(** Four lines of read data. *)
Definition fastq_record : file :=
  text_file [ "@SRR1.1 1 length=4" +:+ newline; "ACGT" +:+ newline;
              "+" +:+ newline; "IIII" +:+ newline ].

(** Two lines only. *)
Definition cut_short : file :=
  text_file [ "@SRR1.1 1 length=4" +:+ newline; "ACGT" +:+ newline ].

(** The body of an HTTP error answer, saved under a data file's name. *)
Definition error_page : file := text_file ["<html>404 Not Found</html>"].

(** The same page under a name ending in [.gz]: the gzip reader rejects
    it at the first [readline()]. *)
Definition error_page_gz : file :=
  mkFile 26 (Ok "<html>404 Not Found</html>") None [ReadError BadGzipFile].

(** A large compressed file whose stream is damaged. *)
Definition corrupt_gz : file :=
  mkFile 4096 (Ok "[gzip bytes]") None [ReadError BadGzipFile].

Definition item_dir : string := "out/SRR1".

Definition one_dir (d : directory) : world := mkWorld {[ item_dir := d ]} [].

(** A valid single-end file, no marker. *)
Definition single_world : world := one_dir {[ "SRR1.fastq" := fastq_record ]}.

(** A valid pair with its marker. *)
Definition paired_world : world :=
  one_dir {[ "SRR1_1.fastq" := fastq_record; "SRR1_2.fastq" := fastq_record;
             "SRR1.completed" := completion_marker ]}.

(** A valid pair, no marker. *)
Definition paired_unmarked : world :=
  one_dir {[ "SRR1_1.fastq" := fastq_record; "SRR1_2.fastq" := fastq_record ]}.

(** A marker over a pair of error pages. *)
Definition bad_pair_world : world :=
  one_dir {[ "SRR1_1.fastq" := error_page; "SRR1_2.fastq" := error_page;
             "SRR1.completed" := completion_marker ]}.

(** The same pair of error pages, no marker. *)
Definition bad_pair_unmarked : world :=
  one_dir {[ "SRR1_1.fastq" := error_page; "SRR1_2.fastq" := error_page ]}.

Definition empty_world : world := mkWorld ∅ [].

(** A damaged compressed file alone in the item directory. *)
Definition corrupt_world : world := one_dir {[ "SRR1.fastq.gz" := corrupt_gz ]}.

(** A file of two lines alone in the item directory. *)
Definition cut_short_world : world := one_dir {[ "SRR1.fastq" := cut_short ]}.

(** Metadata naming SRR1 as a paired run, and as a single run. *)
Definition paired_table : table :=
  mkTable ["run"; "lib_layout"] [[Str "SRR1"; Str "PAIRED"]].

Definition single_table : table :=
  mkTable ["run"; "lib_layout"] [[Str "SRR1"; Str "single"]].

(** Metadata without a row for SRR1, and without a layout column. *)
Definition other_table : table :=
  mkTable ["run"; "lib_layout"] [[Str "SRR2"; Str "paired"]].

Definition bare_table : table := mkTable ["run"] [[Str "SRR1"]].

Definition meta_of (t : table) : metadata_source := mkMeta "meta.tsv" (Ok t).

(** No program does anything: each exits with status 1. *)
Definition no_tools : environment :=
  mkEnv (fun _ w => Exited 1 (fs w)) (fun _ => Ok None) (fun _ => Ok None) "/work" 80.

(** [fastq-dump] exits with status 0 and leaves [f] as
    [SRR1_1.fastq.gz]; every other program exits with status 1. *)
Definition dump_leaves (f : file) : environment :=
  mkEnv
    (fun cmd w =>
       if bool_decide (head cmd = Some "fastq-dump")
       then Exited 0 (<[item_dir := <["SRR1_1.fastq.gz" := f]>
                                       (default ∅ (fs w !! item_dir))]> (fs w))
       else Exited 1 (fs w))
    (fun _ => Ok None) (fun _ => Ok None) "/work" 80.

(** [which], [prefetch] and [fasterq-dump] exit with status 0, the last
    leaving [f] as [SRR1.fastq]; every other program exits with status 1. *)
Definition toolkit_leaves (f : file) : environment :=
  mkEnv
    (fun cmd w =>
       if bool_decide (head cmd = Some "fasterq-dump")
       then Exited 0 (<[item_dir := <["SRR1.fastq" := f]>
                                       (default ∅ (fs w !! item_dir))]> (fs w))
       else if bool_decide (head cmd = Some "which")
               || bool_decide (head cmd = Some "prefetch")
       then Exited 0 (fs w)
       else Exited 1 (fs w))
    (fun _ => Ok None) (fun _ => Ok None) "/work" 80.

Definition run_args (force test : bool) : arguments :=
  mkArgs "ids.txt" "out" 2 6%Z "meta.tsv" force "amalgkit" test.

End Samples.

(** ** Observations on the rest of the code *)

(** One change the probe and the clean-up make to the files: an existing
    file among [R] is removed, or the completion marker is written at a
    path among [W], inside an existing directory. *)
Inductive fs_step (R W : path -> Prop) : filesystem -> filesystem -> Prop :=
| step_remove fs p dir f :
    R p -> fs !! p.1 = Some dir -> dir !! p.2 = Some f ->
    fs_step R W fs (<[p.1 := delete p.2 dir]> fs)
| step_mark fs p dir :
    W p -> fs !! p.1 = Some dir ->
    fs_step R W fs (<[p.1 := <[p.2 := completion_marker]> dir]> fs).

(** A statement whose only effects are such changes. *)
Definition tidies {A} (R W : path -> Prop) (m : M A) : Prop :=
  forall w, rtc (fs_step R W) (fs w) (fs (world_of (m w))).

(** The validator returns for every path. *)
Definition calm (fs : filesystem) : Prop :=
  forall p, exists b, is_valid_fastq_file fs p = Ok b.

(** The data-file names the probe and the clean-up look at for a layout. *)
Definition item_names (srr_id : string) (paired : option bool) : list string :=
  if truthy paired
  then flat_map (fun q => [q.1; q.2]) (paired_patterns srr_id)
  else single_patterns srr_id.

(** A path to one of these names in the item's directory. *)
Definition item_data (srr_id out_dir : string) (paired : option bool) (p : path) : Prop :=
  p.1 = Py.path_join out_dir srr_id /\ p.2 ∈ item_names srr_id paired.

(** The path of the item's completion marker. *)
Definition item_marker (srr_id out_dir : string) : path :=
  marker_path (Py.path_join out_dir srr_id) srr_id.

(** A complete valid file set for the layout: one valid single-end file,
    or both halves of one paired naming convention valid. *)
Definition valid_set (fs : filesystem) (fastq_dir srr_id : string)
  (paired : option bool) : Prop :=
  if truthy paired
  then exists q, q ∈ paired_patterns srr_id /\
                 is_valid_fastq_file fs (fastq_dir, q.1) = Ok true /\
                 is_valid_fastq_file fs (fastq_dir, q.2) = Ok true
  else exists n, n ∈ single_patterns srr_id /\
                 is_valid_fastq_file fs (fastq_dir, n) = Ok true.

(** No file set of the layout is left: no single-end file, or no paired
    convention with both halves on disk. *)
Definition no_set_left (fs : filesystem) (fastq_dir srr_id : string)
  (paired : option bool) : Prop :=
  if truthy paired
  then forall q, q ∈ paired_patterns srr_id ->
                 lookup_path fs (fastq_dir, q.1) = None \/
                 lookup_path fs (fastq_dir, q.2) = None
  else forall n, n ∈ single_patterns srr_id -> lookup_path fs (fastq_dir, n) = None.

(** Nothing to inspect at a path: no file, or an empty one. *)
Definition blank (fs : filesystem) (p : path) : Prop :=
  match lookup_path fs p with
  | Some f => st_size f = 0%nat
  | None => True
  end.

(** No candidate of the layout is there to inspect. *)
Definition nothing_to_probe (fs : filesystem) (fastq_dir srr_id : string)
  (paired : option bool) : Prop :=
  if truthy paired
  then forall q, q ∈ paired_patterns srr_id ->
                 blank fs (fastq_dir, q.1) \/ blank fs (fastq_dir, q.2)
  else forall n, n ∈ single_patterns srr_id -> blank fs (fastq_dir, n).

(** What a statement answers: the value it returns or the exception it
    raises. *)
Definition answer {A} (o : outcome A) : result A :=
  match o with
  | Done a _ => Ok a
  | Raised e _ => Exc e
  end.

(** The paths the probe of a layout looks at in the item directory: the
    marker and the data-file names of the layout. *)
Definition watched (srr_id out_dir : string) (paired : option bool) (p : path)
  : Prop :=
  p = item_marker srr_id out_dir \/ item_data srr_id out_dir paired p.

(** Two file systems look the same to the probe of a layout: the item
    directory is in both or in neither, and the marker and the data-file
    names of the layout hold the same files in both. *)
Definition same_for_probe (srr_id out_dir : string) (paired : option bool)
  (fs1 fs2 : filesystem) : Prop :=
  (is_Some (fs1 !! Py.path_join out_dir srr_id)
   <-> is_Some (fs2 !! Py.path_join out_dir srr_id)) /\
  forall p, watched srr_id out_dir paired p ->
            lookup_path fs1 p = lookup_path fs2 p.

(** A statement whose answer and effect on these files depend on nothing
    else. *)
Definition reads_only (srr_id out_dir : string) (paired : option bool) {A}
  (m : M A) : Prop :=
  forall w1 w2,
    same_for_probe srr_id out_dir paired (fs w1) (fs w2) ->
    answer (m w1) = answer (m w2) /\
    same_for_probe srr_id out_dir paired (fs (world_of (m w1))) (fs (world_of (m w2))).

(** A statement that starts only programs satisfying [P]. *)
Definition starts_only {A} (P : command -> Prop) (m : M A) : Prop :=
  forall w, exists l, trace (world_of (m w)) = trace w ++ l /\ Forall P l.

(** The command asks for split output. *)
Definition asks_split (cmd : command) : Prop := "--split-files" ∈ cmd.

(** What [subprocess.run] raises by itself: the class of a program that
    could not be started, or [UnicodeDecodeError] for output that is not
    text. *)
Definition run_failure (e : pyclass) : Prop :=
  (exists x, e = spawn_class x) \/ e = UnicodeDecodeError.

(** A statement that raises nothing but exceptions satisfying [P]. *)
Definition raises_only {A} (P : pyclass -> Prop) (m : M A) : Prop :=
  forall w e w', m w = Raised e w' -> P e.


Definition dump_split_cmd (srr_id fastq_dir : string) : command :=
  ["fastq-dump"; srr_id; "--outdir"; fastq_dir; "--gzip"; "--split-files"].

Definition dump_plain_cmd (srr_id fastq_dir : string) : command :=
  ["fastq-dump"; srr_id; "--outdir"; fastq_dir; "--gzip"].

(** The number of workers that returned the tag [tag]. *)
Definition count_tag (tag : string) (outcomes : list (outcome (string * string)))
  : nat :=
  length (List.filter
            (fun o => match o with
                      | Done (_, t) _ => bool_decide (t = tag)
                      | Raised _ _ => false
                      end) outcomes).

(** The number of workers that did not end [skipped] or [success]. *)
Definition count_failed (outcomes : list (outcome (string * string))) : nat :=
  length (List.filter (fun o => negb (ended_well o)) outcomes).

(** Reading the file raises nothing outside [Exception]: no interrupt
    arrives while its header or its first lines are read. *)
Definition ordinary_io (f : file) : Prop :=
  (forall e, file_header f = Exc e -> isinstance e Exception = true) /\
  (forall e, text_open f = Some e -> isinstance e Exception = true) /\
  (forall e, read_lines 4 (text f) [] = inr e -> isinstance e Exception = true).

(** The key column and the layout column the resolver reads. *)
Definition key_column (t : table) : string :=
  if has_column t "run_accession" then "run_accession" else "run".

Definition layout_column (t : table) : string :=
  if has_column t "run_accession" then "library_layout" else "lib_layout".

(** The file the EBI strategy fetches last for a layout. *)
Definition last_curl_file (srr_id : string) (is_paired : option bool) : string :=
  if truthy is_paired then srr_id +:+ "_2.fastq.gz" else srr_id +:+ ".fastq.gz".

(** ** [amalgkit/sanity.py] *)

Module Sanity.

(** The generator of [list_duplicates]: an element is kept when it is
    already in [seen], and put into [seen] otherwise. *)
Fixpoint seen_twice (seq : list string) (seen twice : gset string) : gset string :=
  match seq with
  | [] => twice
  | x :: rest =>
      if bool_decide (x ∈ seen)
      then seen_twice rest seen ({[x]} ∪ twice)
      else seen_twice rest ({[x]} ∪ seen) twice
  end.

(** [list_duplicates(seq)]; the order of [list(a_set)] is the set's own. *)
Definition list_duplicates (seq : list string) : list string :=
  elements (seen_twice seq ∅ ∅).

(** A cell of a text column as pandas reads it: text, or the missing
    value, a float [NaN]. *)
Inductive value : Type :=
| Text (s : string)
| NaN.

Global Instance value_eq_dec : EqDecision value.
Proof. solve_decision. Defined.

Definition text_of (v : value) : option string :=
  match v with
  | Text s => Some s
  | NaN => None
  end.

(** [np.unique(values)] on such a column.  Text alone comes back distinct
    and sorted.  Missing values alone are floats: they come back as one
    [NaN] when NumPy takes them as equal ([equal_nan], its default from
    version 1.21 on) and as they are otherwise.  Sorting text against a
    float raises [TypeError]. *)
Definition np_unique (equal_nan : bool) (values : list value) : result (list value) :=
  let texts := omap text_of values in
  if (length texts =? length values)%nat
  then Ok (Text <$> merge_sort String.le (remove_dups texts))
  else if (length texts =? 0)%nat
  then Ok (if equal_nan then [NaN] else values)
  else Exc TypeError.

(** [parse_metadata], on the columns [scientific_name] and [run] of the
    metadata frame. *)
Definition parse_metadata (equal_nan : bool) (species sra_ids : list value)
  : result (list value * list value) :=
  rbind (np_unique equal_nan species) (fun uni_species =>
    if negb (length uni_species =? 0)%nat then
      if negb (length sra_ids =? 0)%nat then
        (* print(len(np.unique(sra_ids)), ...) *)
        rbind (np_unique equal_nan sra_ids) (fun uni_ids =>
          if (length uni_ids <? length sra_ids)%nat
          then Exc ValueError
          else Ok (uni_species, sra_ids))
      else Exc ValueError
    else Exc ValueError).



End Sanity.


(** The column holds both text and a missing value. *)
Definition mixed (l : list Sanity.value) : Prop :=
  Sanity.NaN ∈ l /\ exists s, Sanity.Text s ∈ l.

(** [np.unique] finds fewer values than the column has. *)
Definition repeated (equal_nan : bool) (l : list Sanity.value) : Prop :=
  ~ NoDup l /\ (Sanity.NaN ∈ l -> equal_nan = true).

(** The number of times [x] occurs in [l]. *)
Definition occurrences (x : string) (l : list string) : nat :=
  length (List.filter (fun y => bool_decide (y = x)) l).

(** ** Further sample worlds and environments *)

Module Runs.

(** [curl] exits with status 0 and leaves [f] under [name] in the item
    directory; every other program exits with status 1.  [archive] is
    what the ZIP reader finds in any file. *)
Definition curl_leaves (name : string) (f : file) (archive : option directory)
  : environment :=
  mkEnv
    (fun cmd w =>
       if bool_decide (head cmd = Some "curl")
       then Exited 0 (<[Samples.item_dir := <[name := f]>
                          (default ∅ (fs w !! Samples.item_dir))]> (fs w))
       else Exited 1 (fs w))
    (fun _ => Ok archive) (fun _ => Ok None) "/work" 80.

(** A downloaded archive of more than 1024 bytes. *)
Definition archive_file : file :=
  mkFile 2048 (Ok "PK") None [ReadError UnicodeDecodeError].

(** A compressed file that is cut off: four lines can be read, the next
    [readline()] raises. *)
Definition cut_off_gz : file :=
  mkFile 4096 (Ok "[gzip bytes]") None
    [ Line ("@SRR1.1 1 length=4" +:+ newline); Line ("ACGT" +:+ newline);
      Line ("+" +:+ newline); Line ("IIII" +:+ newline); ReadError EOFError ].


(** No program can be started. *)
Definition nothing_installed : environment :=
  mkEnv (fun _ _ => NotStarted NotFound) (fun _ => Ok None) (fun _ => Ok None) "/work" 80.

(** An empty item directory. *)
Definition bare_world : world := Samples.one_dir ∅.


End Runs.

(** * Properties *)

(** ** The validator *)

Section Validator.

Context (fs : filesystem) (p : path) (f : file).
Hypothesis Hfile : lookup_path fs p = Some f.

Lemma validate_unfold :
  validate fs p =
  rcatch
    (rbind (if (st_size f <? 1024)%nat then sniff_header f else Ok None)
       (fun early =>
          match early with
          | Some r => Ok r
          | None =>
              if Py.endswith p.2 ".gz"
              then rcatch (read_record f) [BadGzipFile; IOError; UnicodeDecodeError]
                     (fun _ => Ok StreamUnreadable)
              else rcatch (read_record f) [IOError; UnicodeDecodeError]
                     (fun _ => Ok StreamUnreadable)
          end))
    [Exception] (fun _ => Ok ValidationFault).
Proof. unfold validate, getsize. rewrite Hfile. reflexivity. Qed.

Lemma sniff_passes :
  reaches_structural_check f ->
  (if (st_size f <? 1024)%nat then sniff_header f else Ok None) = Ok None.
Proof.
  intros Hreach. destruct (st_size f <? 1024)%nat eqn:Hsz; [|reflexivity].
  apply Nat.ltb_lt in Hsz. destruct (Hreach Hsz) as (h & Hh & Hm).
  unfold sniff_header. rewrite Hh. simpl. rewrite Hm. reflexivity.
Qed.

Lemma validate_structural lines :
  reaches_structural_check f -> text_open f = None ->
  read_lines 4 (text f) [] = inl lines ->
  validate fs p = Ok (check_lines lines).
Proof.
  intros Hreach Hopen Hlines. rewrite validate_unfold, (sniff_passes Hreach). simpl.
  unfold read_record. rewrite Hopen, Hlines.
  destruct (Py.endswith p.2 ".gz"); reflexivity.
Qed.

End Validator.

Lemma caught_by_Exception e : caught_by [Exception] e = isinstance e Exception.
Proof. unfold caught_by. simpl. apply orb_false_r. Qed.

Lemma read_lines_short n ls acc :
  Forall (fun l => l <> EmptyString) ls -> (length ls <= n)%nat ->
  read_lines n (map Line ls) acc = inl (acc ++ ls).
Proof.
  revert ls acc. induction n as [|n IH]; intros ls acc Hne Hlen.
  - destruct ls; [|simpl in Hlen; lia]. simpl. by rewrite app_nil_r.
  - destruct ls as [|l ls]; simpl.
    + by rewrite app_nil_r.
    + inversion Hne as [|? ? Hl Hls]; subst. destruct l as [|a l]; [done|].
      rewrite IH; [|done|simpl in Hlen; lia]. by rewrite <- app_assoc.
Qed.

Lemma read_lines_four l1 l2 l3 l4 rest :
  l1 <> EmptyString -> l2 <> EmptyString -> l3 <> EmptyString -> l4 <> EmptyString ->
  read_lines 4 (Line l1 :: Line l2 :: Line l3 :: Line l4 :: rest) [] = inl [l1; l2; l3; l4].
Proof.
  intros H1 H2 H3 H4.
  destruct l1; [done|]. destruct l2; [done|]. destruct l3; [done|]. destruct l4; [done|].
  reflexivity.
Qed.

(** C5: a file shorter than 1024 bytes whose leading bytes hold an
    error-page marker is rejected by the error-page branch of the
    validator; the branch for fewer than four lines is not reached. *)
Theorem C5_small_error_page fs p f h :
  lookup_path fs p = Some f ->
  (st_size f < 1024)%nat ->
  file_header f = Ok h ->
  has_error_marker (Py.lower h) = true ->
  validate fs p = Ok ErrorPage /\
  validate fs p <> Ok Truncated /\
  is_valid_fastq_file fs p = Ok false.
Proof.
  intros Hf Hsz Hh Hm.
  assert (validate fs p = Ok ErrorPage) as Hv.
  { rewrite (validate_unfold fs p f Hf).
    apply Nat.ltb_lt in Hsz. rewrite Hsz.
    unfold sniff_header. rewrite Hh. simpl. rewrite Hm. reflexivity. }
  unfold is_valid_fastq_file. rewrite Hv. split; [reflexivity|]. split; [congruence|reflexivity].
Qed.

Lemma C5_small_error_page_witness :
  validate (fs Samples.bad_pair_unmarked) (Samples.item_dir, "SRR1_1.fastq")
    = Ok ErrorPage /\
  validate (fs Samples.bad_pair_unmarked) (Samples.item_dir, "SRR1_1.fastq")
    <> Ok Truncated /\
  is_valid_fastq_file (fs Samples.bad_pair_unmarked) (Samples.item_dir, "SRR1_1.fastq")
    = Ok false.
Proof.
  apply (C5_small_error_page _ _ Samples.error_page "<html>404 Not Found</html>").
  - vm_compute. reflexivity.
  - simpl. lia.
  - reflexivity.
  - vm_compute. reflexivity.
Defined.

(** C6, as stated, fails: a compressed file whose stream breaks after
    the fourth line does fail to decompress, yet the validator, which
    reads four lines and no more, accepts it. *)
Lemma C6_late_failure_counterexample :
  Py.endswith "SRR1.fastq.gz" ".gz" = true /\
  fails_to_decompress Runs.cut_off_gz /\
  is_valid_fastq_file
    {[ Samples.item_dir := {[ "SRR1.fastq.gz" := Runs.cut_off_gz ]} ]}
    (Samples.item_dir, "SRR1.fastq.gz") = Ok true.
Proof.
  split; [vm_compute; reflexivity|]. split; [|vm_compute; reflexivity].
  right. exists EOFError. unfold Runs.cut_off_gz. cbn [text].
  rewrite !elem_of_cons. do 4 right. by left.
Qed.

(** C6, amended: for a path ending in [.gz] whose stream fails to open,
    or fails at one of the four [readline()] calls the validator makes (a
    decompression or decoding error, or any other [Exception]), the
    validator returns [False]; it does not raise.  A failure further into
    the stream is not looked for. *)
Theorem C6_unreadable_gzip fs p f e :
  lookup_path fs p = Some f ->
  Py.endswith p.2 ".gz" = true ->
  stream_fails f e ->
  isinstance e Exception = true ->
  (forall e', file_header f = Exc e' -> isinstance e' Exception = true) ->
  is_valid_fastq_file fs p = Ok false.
Proof.
  intros Hf Hgz Hfail He Hhead.
  unfold is_valid_fastq_file. rewrite (validate_unfold fs p f Hf), Hgz.
  assert (forall r : result reason,
            (forall x, r = Ok x -> x <> WellFormed) ->
            (forall e', r = Exc e' -> isinstance e' Exception = true) ->
            rbind (rcatch r [Exception] (fun _ => Ok ValidationFault))
              (fun x => Ok (accepted x)) = Ok false) as Hout.
  { intros [x|e'] Hx He'; cbn [rbind rcatch].
    - unfold accepted. rewrite bool_decide_eq_false_2; [reflexivity|]. by apply Hx.
    - rewrite caught_by_Exception, (He' _ eq_refl). reflexivity. }
  assert (forall x, rcatch (read_record f) [BadGzipFile; IOError; UnicodeDecodeError]
                      (fun _ => Ok StreamUnreadable) = Ok x -> x <> WellFormed) as Hr1.
  { intros x. unfold read_record.
    destruct Hfail as [Hopen | [Hopen Hread]]; rewrite Hopen.
    - cbn [rcatch]. destruct (caught_by _ e); intros [=]; by subst.
    - rewrite Hread, He. cbn [rcatch]. intros [=]; by subst. }
  assert (forall e', rcatch (read_record f) [BadGzipFile; IOError; UnicodeDecodeError]
                       (fun _ => Ok StreamUnreadable) = Exc e' ->
                     isinstance e' Exception = true) as Hr2.
  { intros e'. unfold read_record.
    destruct Hfail as [Hopen | [Hopen Hread]]; rewrite Hopen.
    - cbn [rcatch]. destruct (caught_by _ e); intros [=]; by subst.
    - rewrite Hread, He. cbn [rcatch]. intros [=]. }
  apply Hout.
  - intros x Hx. destruct (st_size f <? 1024)%nat; cbn [rbind] in Hx.
    + unfold sniff_header in Hx. destruct (file_header f) as [h|e'] eqn:Hh;
        cbn [rbind rcatch] in Hx.
      * destruct (has_error_marker _); cbn [rbind rcatch] in Hx;
          [by inversion Hx|]. by apply Hr1.
      * rewrite caught_by_Exception, (Hhead _ eq_refl) in Hx.
        cbn [rbind] in Hx. by inversion Hx.
    + by apply Hr1.
  - intros e' He'. destruct (st_size f <? 1024)%nat; cbn [rbind] in He'.
    + unfold sniff_header in He'. destruct (file_header f) as [h|e''] eqn:Hh;
        cbn [rbind rcatch] in He'.
      * destruct (has_error_marker _); cbn [rbind rcatch] in He'; [done|].
        by apply Hr2.
      * rewrite caught_by_Exception, (Hhead _ eq_refl) in He'. done.
    + by apply Hr2.
Qed.

Lemma C6_unreadable_gzip_witness :
  is_valid_fastq_file (fs Samples.corrupt_world) (Samples.item_dir, "SRR1.fastq.gz")
    = Ok false.
Proof.
  apply (C6_unreadable_gzip _ _ Samples.corrupt_gz BadGzipFile).
  - vm_compute. reflexivity.
  - vm_compute. reflexivity.
  - right. split; reflexivity.
  - reflexivity.
  - intros e' He'. discriminate He'.
Defined.

(** C7: a file that opens and reaches the structural check is judged on
    its first four lines alone: with fewer than four lines it is invalid;
    with four it is valid exactly when line 1 begins with [@] and line 3
    with [+], whatever follows. *)
Theorem C7_structural_check fs p f :
  lookup_path fs p = Some f ->
  text_open f = None ->
  reaches_structural_check f ->
  (forall l1 l2 l3 l4 rest,
     text f = Line l1 :: Line l2 :: Line l3 :: Line l4 :: rest ->
     l1 <> EmptyString -> l2 <> EmptyString ->
     l3 <> EmptyString -> l4 <> EmptyString ->
     validate fs p =
       Ok (if negb (Py.startswith l1 "@") then NoRecordStart
           else if negb (Py.startswith l3 "+") then NoSeparator
           else WellFormed) /\
     is_valid_fastq_file fs p = Ok (Py.startswith l1 "@" && Py.startswith l3 "+")) /\
  (forall ls,
     text f = map Line ls ->
     Forall (fun l => l <> EmptyString) ls ->
     (length ls < 4)%nat ->
     validate fs p = Ok Truncated /\ is_valid_fastq_file fs p = Ok false).
Proof.
  intros Hf Hopen Hreach. split.
  - intros l1 l2 l3 l4 rest Htext H1 H2 H3 H4.
    assert (validate fs p = Ok (check_lines [l1; l2; l3; l4])) as Hv.
    { apply (validate_structural fs p f Hf); [done..|].
      rewrite Htext. by apply read_lines_four. }
    unfold is_valid_fastq_file. rewrite Hv. unfold check_lines. simpl.
    destruct (Py.startswith l1 "@"), (Py.startswith l3 "+"); done.
  - intros ls Htext Hne Hlen.
    assert (validate fs p = Ok (check_lines ls)) as Hv.
    { apply (validate_structural fs p f Hf); [done..|].
      rewrite Htext. rewrite read_lines_short; [done..|lia]. }
    unfold is_valid_fastq_file. rewrite Hv. unfold check_lines.
    apply Nat.ltb_lt in Hlen. rewrite Hlen. done.
Qed.

Lemma C7_structural_check_witness :
  is_valid_fastq_file (fs Samples.single_world) (Samples.item_dir, "SRR1.fastq")
    = Ok true /\
  validate (fs Samples.cut_short_world) (Samples.item_dir, "SRR1.fastq")
    = Ok Truncated.
Proof.
  split.
  - destruct (C7_structural_check (fs Samples.single_world)
                (Samples.item_dir, "SRR1.fastq") Samples.fastq_record) as [Hfour _].
    + vm_compute. reflexivity.
    + reflexivity.
    + intros _. eexists. split; [reflexivity|]. vm_compute. reflexivity.
    + destruct (Hfour ("@SRR1.1 1 length=4" +:+ newline) ("ACGT" +:+ newline)
                  ("+" +:+ newline) ("IIII" +:+ newline) []) as [_ Hvalid];
        [reflexivity | discriminate.. | exact Hvalid].
  - destruct (C7_structural_check (fs Samples.cut_short_world)
                (Samples.item_dir, "SRR1.fastq") Samples.cut_short) as [_ Hshort].
    + vm_compute. reflexivity.
    + reflexivity.
    + intros _. eexists. split; [reflexivity|]. vm_compute. reflexivity.
    + destruct (Hshort ["@SRR1.1 1 length=4" +:+ newline; "ACGT" +:+ newline])
        as [Htrunc _]; [reflexivity | repeat constructor; discriminate
                       | simpl; lia | exact Htrunc].
Defined.

(** ** Clean-up of invalid files *)

(** C8: [verify_and_clean_downloads] on a pair whose two halves are both
    invalid removes the first half only: the second half is still on disk,
    and still invalid, when the function and the probe that called it
    return.  The probe's own loop, run on the same pair without a marker,
    removes both halves. *)
Theorem C8_second_invalid_half_stays :
  let left := Samples.one_dir {[ "SRR1_2.fastq" := Samples.error_page ]} in
  verify_and_clean_downloads Samples.item_dir "SRR1" (Some true) Samples.bad_pair_world
    = Done false left /\
  check_existing_files "SRR1" "out" (Some true) Samples.bad_pair_world
    = Done false left /\
  is_valid_fastq_file (fs left) (Samples.item_dir, "SRR1_2.fastq") = Ok false /\
  check_existing_files "SRR1" "out" (Some true) Samples.bad_pair_unmarked
    = Done false (Samples.one_dir ∅).
Proof. vm_compute. repeat split; reflexivity. Qed.

(** ** The completion marker *)

(** C1: the legacy dump strategy writes the completion marker without
    validating anything.  When [fastq-dump] exits with status 0 and leaves
    an error page named [SRR1_1.fastq.gz], [download_with_fastq_dump]
    returns [True] and the marker stands next to a file the validator
    rejects; the worker then reports the item as [success]. *)
Theorem C1_dump_marks_unvalidated_files :
  let env := Samples.dump_leaves Samples.error_page_gz in
  let marked :=
    {[ Samples.item_dir := {[ "SRR1_1.fastq.gz" := Samples.error_page_gz;
                              "SRR1.completed" := completion_marker ]} ]} in
  (exists w',
     download_with_fastq_dump env "SRR1" "out" 2 Samples.empty_world = Done true w' /\
     fs w' = marked) /\
  (exists w',
     download_worker env "SRR1" "out" 2 "amalgkit"
       (Samples.meta_of Samples.single_table) false Samples.empty_world
       = Done ("SRR1", "success") w' /\
     fs w' = marked) /\
  is_valid_fastq_file marked (Samples.item_dir, "SRR1_1.fastq.gz") = Ok false.
Proof.
  vm_compute. split; [|split].
  - eexists. split; reflexivity.
  - eexists. split; reflexivity.
  - reflexivity.
Qed.

(** The direct toolkit strategy errs the other way: it validates the
    file and returns [True] without writing a marker. *)
Lemma direct_download_leaves_no_marker :
  exists w',
    download_sra_directly (Samples.toolkit_leaves Samples.fastq_record)
      "SRR1" "out" 2 Samples.empty_world = Done true w' /\
    fs w' = {[ Samples.item_dir := {[ "SRR1.fastq" := Samples.fastq_record ]} ]} /\
    exists_file (fs w') (marker_path Samples.item_dir "SRR1") = false.
Proof. vm_compute. eexists. repeat split; reflexivity. Qed.

(** ** The force flag *)

(** C2: with the force flag set and a valid single-end file on disk, the
    worker skips its own probe, but [download_single_sra] probes again and
    returns at once: whatever the programs would do, none is started, the
    file is left as it was, and the item is reported as [success]. *)
Theorem C2_force_does_not_redownload (env : environment) :
  download_worker env "SRR1" "out" 2 "amalgkit"
    (Samples.meta_of Samples.single_table) true Samples.single_world
  = Done ("SRR1", "success")
      (mkWorld {[ Samples.item_dir := {[ "SRR1.fastq" := Samples.fastq_record;
                                         "SRR1.completed" := completion_marker ]} ]}
         []).
Proof. vm_compute. reflexivity. Qed.

(** ** Re-running over valid output *)

(** C3: the worker's probe is called without the layout and looks for
    single-end names only.  For a valid pair with its marker, a run whose
    metadata says paired reports [success], not [skipped]; a run whose
    metadata does not know the item deletes the marker, starts the
    download strategies and, when they all fail, reports [failed]. *)
Theorem C3_valid_pair_is_not_skipped :
  (forall env,
     download_worker env "SRR1" "out" 2 "amalgkit"
       (Samples.meta_of Samples.paired_table) false Samples.paired_world
     = Done ("SRR1", "success") Samples.paired_world) /\
  (exists w',
     download_worker Samples.no_tools "SRR1" "out" 2 "amalgkit"
       (Samples.meta_of Samples.other_table) false Samples.paired_world
     = Done ("SRR1", "failed") w' /\
     fs w' = fs Samples.paired_unmarked /\
     head (trace w') = Some ["which"; "prefetch"] /\
     length (trace w') = 8%nat).
Proof.
  split.
  - intros env. vm_compute. reflexivity.
  - vm_compute. eexists. repeat split; reflexivity.
Qed.

(** For single-end output the worker's probe does what is asked: a valid
    file, with or without a marker, makes the item [skipped] and no
    program is started. *)
Lemma valid_single_is_skipped (env : environment) :
  download_worker env "SRR1" "out" 2 "amalgkit"
    (Samples.meta_of Samples.single_table) false Samples.single_world
  = Done ("SRR1", "skipped")
      (mkWorld {[ Samples.item_dir := {[ "SRR1.fastq" := Samples.fastq_record;
                                         "SRR1.completed" := completion_marker ]} ]}
         []).
Proof. vm_compute. reflexivity. Qed.

(** ** The layout resolver and the unknown layout *)

Lemma undetermined_is_unknown srr_id metadata_file :
  undetermined srr_id metadata_file ->
  get_layout_from_metadata metadata_file srr_id = Ok None.
Proof.
  intros H. unfold get_layout_from_metadata.
  destruct H as [e He | t Hacc Hrun | t Hacc Hsel | t Hacc Hsel | t Hacc Hcol
                | t Hacc Hcol | t row rest Hacc Hsel Hcell | t row rest Hacc Hsel Hcell];
    cbn [rbind rcatch].
  - by rewrite caught_by_Exception, He.
  - by rewrite Hacc, Hrun.
  - rewrite Hacc, Hsel. cbn [negb]. by destruct (has_column t "run").
  - by rewrite Hacc, Hsel.
  - rewrite Hacc, Hcol. cbn [negb].
    destruct (has_column t "run"); [|done]. by destruct (select t "run" srr_id).
  - rewrite Hacc, Hcol. cbn [negb]. by destruct (select t "run_accession" srr_id).
  - rewrite Hacc, Hsel, Hcell. cbn [negb].
    destruct (has_column t "run"); [|done].
    destruct (has_column t "lib_layout"); done.
  - rewrite Hacc, Hsel, Hcell. cbn [negb].
    destruct (has_column t "library_layout"); done.
Qed.

(** C4, as stated, fails: for an item whose metadata has no layout
    column the resolver gives the unknown layout, and under it the probe
    does not see a valid pair that the paired layout finds, and the EBI
    strategy asks for the single-end name only. *)
Lemma C4_unknown_layout_counterexample :
  get_layout_from_metadata (Ok Samples.bare_table) "SRR1" = Ok None /\
  check_existing_files "SRR1" "out" None Samples.paired_unmarked
    = Done false Samples.paired_unmarked /\
  check_existing_files "SRR1" "out" (Some true) Samples.paired_unmarked
    = Done true Samples.paired_world /\
  curl_file_names "SRR1" None = ["SRR1.fastq.gz"] /\
  head (curl_file_names "SRR1" None) <> head (curl_file_names "SRR1" (Some true)).
Proof. vm_compute. repeat split; try reflexivity. discriminate. Qed.

(** ** The coordinator *)

Lemma bind_Done {A B} (m : M A) (k : A -> M B) w a w' :
  m w = Done a w' -> (m ≫= k) w = k a w'.
Proof. intros H. unfold mbind, M_bind. by rewrite H. Qed.

Lemma bind_Raised {A B} (m : M A) (k : A -> M B) w e w' :
  m w = Raised e w' -> (m ≫= k) w = Raised e w'.
Proof. intros H. unfold mbind, M_bind. by rewrite H. Qed.

Section Coordinator.

Context (env : environment) (args : arguments) (meta : metadata_source).

Lemma display_returns completed total successful skipped failed w :
  (0 < total)%nat ->
  display_emoji_progress_bar env completed total successful skipped failed w
  = Done tt w.
Proof.
  intros Hpos. unfold display_emoji_progress_bar, floordiv.
  destruct (total =? 0)%nat eqn:Hz; [apply Nat.eqb_eq in Hz; lia|]. reflexivity.
Qed.

Lemma display_raises completed successful skipped failed w :
  display_emoji_progress_bar env completed 0 successful skipped failed w
  = Raised ZeroDivisionError w.
Proof. reflexivity. Qed.

Lemma on_completion_spec total c future w :
  (0 < total)%nat ->
  on_completion env total c future w =
  match future w with
  | Done r w' => Done (count_outcome c (Done r w')) w'
  | Raised e w' =>
      if isinstance e Exception then Done (count_outcome c (Raised e w')) w'
      else Raised e w'
  end.
Proof.
  intros Hpos. unfold on_completion.
  destruct (future w) as [[srr_id result] w'|e w'].
  - unfold try_except. erewrite bind_Done; [|by apply display_returns].
    destruct (total =? 0)%nat eqn:Hz; [apply Nat.eqb_eq in Hz; lia|]. reflexivity.
  - rewrite caught_by_Exception. destruct (isinstance e Exception); [|done].
    unfold count_error. erewrite bind_Done; [|by apply display_returns]. reflexivity.
Qed.

Lemma count_outcome_balanced c o : balanced c -> balanced (count_outcome c o).
Proof.
  unfold balanced. intros Hc. destruct o as [[srr_id result] w|e w]; simpl.
  - unfold count_result. repeat case_bool_decide; simpl; lia.
  - lia.
Qed.

Lemma count_outcome_completed c o : completed (count_outcome c o) = S (completed c).
Proof.
  destruct o as [[srr_id result] w|e w]; simpl; [|done].
  unfold count_result. by repeat case_bool_decide.
Qed.

Lemma count_outcome_failed c o :
  failed (count_outcome c o) = (failed c + if ended_well o then 0 else 1)%nat.
Proof.
  destruct o as [[srr_id result] w|e w]; simpl; [|lia].
  unfold count_result. repeat case_bool_decide; simpl; lia.
Qed.

Lemma tally_cons c o outcomes :
  tally c (o :: outcomes) = tally (count_outcome c o) outcomes.
Proof. reflexivity. Qed.

Lemma tally_balanced outcomes c : balanced c -> balanced (tally c outcomes).
Proof.
  revert c. induction outcomes as [|o outcomes IH]; intros c Hc; [done|].
  rewrite tally_cons. apply IH. by apply count_outcome_balanced.
Qed.

Lemma tally_completed outcomes c :
  completed (tally c outcomes) = (completed c + length outcomes)%nat.
Proof.
  revert c. induction outcomes as [|o outcomes IH]; intros c.
  - simpl. lia.
  - rewrite tally_cons, IH, count_outcome_completed. simpl. lia.
Qed.

Lemma tally_failed_well outcomes c :
  forallb ended_well outcomes = true -> failed (tally c outcomes) = failed c.
Proof.
  revert c. induction outcomes as [|o outcomes IH]; intros c; [done|].
  cbn [forallb]. intros [Ho Hrest]%andb_true_iff.
  rewrite tally_cons, IH, count_outcome_failed, Ho by done. lia.
Qed.

Lemma tally_failed_mono outcomes c : (failed c <= failed (tally c outcomes))%nat.
Proof.
  revert c. induction outcomes as [|o outcomes IH]; intros c; [simpl; lia|].
  rewrite tally_cons. etrans; [|apply IH]. rewrite count_outcome_failed. lia.
Qed.

Lemma tally_failed_bad outcomes c :
  forallb ended_well outcomes = false -> (0 < failed (tally c outcomes))%nat.
Proof.
  revert c. induction outcomes as [|o outcomes IH]; intros c; [done|].
  cbn [forallb]. rewrite tally_cons. intros [Ho|Hrest]%andb_false_iff.
  - pose proof (tally_failed_mono outcomes (count_outcome c o)) as Hm.
    rewrite count_outcome_failed, Ho in Hm. lia.
  - by apply IH.
Qed.

Lemma item_outcomes_length order w :
  length (item_outcomes env args meta order w) = length order.
Proof. revert w. induction order as [|i order IH]; intros w; simpl; [done|]. by rewrite IH. Qed.

Lemma after_items_cons w o outcomes :
  after_items w (o :: outcomes) = after_items (world_of o) outcomes.
Proof.
  unfold after_items. simpl. destruct outcomes as [|o' outcomes]; [done|].
  simpl. generalize (map world_of outcomes) as l. generalize (world_of o') as x.
  intros x l. revert x. induction l as [|y l IH]; intros x; [done|]. simpl. apply IH.
Qed.

(** The loop returns when every worker returns or raises an
    [Exception]; otherwise the exception leaves the loop. *)
Lemma loop_spec total order c w :
  (0 < total)%nat ->
  let outcomes := item_outcomes env args meta order w in
  if forallb ordinary outcomes
  then as_completed_loop env args meta total order c w
       = Done (tally c outcomes) (after_items w outcomes)
  else exists e w', as_completed_loop env args meta total order c w = Raised e w'
                    /\ forallb ended_well outcomes = false.
Proof.
  intros Hpos. revert c w. induction order as [|srr_id order IH]; intros c w; [done|].
  cbn [item_outcomes as_completed_loop forallb].
  set (future := download_worker env srr_id _ _ _ _ _).
  specialize (IH (count_outcome c (future w)) (world_of (future w))).
  unfold mbind, M_bind. rewrite on_completion_spec by done.
  destruct (future w) as [r w'|e w'] eqn:Hf; cbn [ordinary world_of andb].
  - cbn [world_of] in IH. rewrite after_items_cons. rewrite tally_cons.
    destruct (forallb ordinary _); [exact IH|].
    destruct IH as (e & w'' & -> & Hbad). exists e, w''. split; [done|].
    cbn [forallb]. rewrite Hbad. apply andb_false_r.
  - cbn [world_of] in IH. destruct (isinstance e Exception) eqn:He; cbn [andb].
    + rewrite after_items_cons. rewrite tally_cons.
      destruct (forallb ordinary _); [exact IH|].
      destruct IH as (e' & w'' & -> & Hbad). exists e', w''. split; [done|].
      cbn [forallb]. rewrite Hbad. apply andb_false_r.
    + exists e, w'. done.
Qed.

End Coordinator.

Lemma on_completion_balanced env total c future w c' w' :
  balanced c -> on_completion env total c future w = Done c' w' -> balanced c'.
Proof.
  intros Hc. destruct total as [|n].
  - unfold on_completion.
    destruct (future w) as [[srr_id result] w1|e w1].
    + unfold try_except. rewrite (bind_Raised _ _ _ ZeroDivisionError w1) by reflexivity.
      cbn. discriminate.
    + destruct (caught_by [Exception] e); [|discriminate]. cbn. discriminate.
  - rewrite on_completion_spec by lia.
    destruct (future w) as [r w1|e w1].
    + intros [= <- <-]. by apply (count_outcome_balanced c (Done r w1)).
    + destruct (isinstance e Exception); [|discriminate].
      intros [= <- <-]. by apply (count_outcome_balanced c (Raised e w1)).
Qed.

(** C10: every turn of the coordinator's loop, the exception branch
    included, keeps [completed = successful + skipped + failed]; and when
    every worker returns or raises an [Exception] the loop returns with
    [completed] equal to the number of IDs, so that the three counts of
    the summary add up to it. *)
Theorem C10_counters_balance env args meta srr_ids order w :
  (forall total c future w0 c' w',
     balanced c -> on_completion env total c future w0 = Done c' w' -> balanced c') /\
  (Permutation order srr_ids ->
   forallb ordinary (item_outcomes env args meta order w) = true ->
   exists c w',
     as_completed_loop env args meta (length srr_ids) order (mkCounters 0 0 0 0) w
       = Done c w' /\
     balanced c /\
     completed c = length srr_ids /\
     (successful c + skipped c + failed c)%nat = length srr_ids).
Proof.
  split; [intros; by eapply on_completion_balanced|].
  intros Hperm Hord.
  assert (balanced (mkCounters 0 0 0 0)) as H0 by reflexivity.
  destruct srr_ids as [|i srr_ids].
  - apply Permutation_sym, Permutation_nil in Hperm as ->. exists (mkCounters 0 0 0 0), w. done.
  - pose proof (loop_spec env args meta (length (i :: srr_ids)) order
                  (mkCounters 0 0 0 0) w) as Hloop.
    cbv zeta in Hloop. rewrite Hord in Hloop.
    eexists _, _. split; [apply Hloop; simpl; lia|].
    pose proof (tally_balanced (item_outcomes env args meta order w) _ H0) as Hb.
    pose proof (tally_completed (item_outcomes env args meta order w)
                  (mkCounters 0 0 0 0)) as Hc.
    rewrite item_outcomes_length, (Permutation_length Hperm) in Hc.
    split; [done|]. split; [done|]. unfold balanced in Hb. rewrite <- Hb. done.
Qed.

Lemma C10_counters_balance_witness :
  exists c w',
    as_completed_loop Samples.no_tools (Samples.run_args false false)
      (Samples.meta_of Samples.single_table) (length ["SRR1"; "SRR2"])
      ["SRR2"; "SRR1"] (mkCounters 0 0 0 0) Samples.single_world = Done c w' /\
    balanced c /\
    completed c = length ["SRR1"; "SRR2"] /\
    (successful c + skipped c + failed c)%nat = length ["SRR1"; "SRR2"].
Proof.
  apply (C10_counters_balance Samples.no_tools (Samples.run_args false false)
           (Samples.meta_of Samples.single_table) ["SRR1"; "SRR2"] ["SRR2"; "SRR1"]
           Samples.single_world).
  - apply perm_swap.
  - vm_compute. reflexivity.
Defined.

Lemma os_makedirs_returns d w : os_makedirs d w = Done tt (world_of (os_makedirs d w)).
Proof. unfold os_makedirs. by destruct (fs w !! d). Qed.

Lemma os_makedirs_exists d w : exists_dir (fs (world_of (os_makedirs d w))) d = true.
Proof.
  unfold os_makedirs, exists_dir. destruct (fs w !! d) eqn:Hd; cbn [world_of fs].
  - rewrite Hd. by apply bool_decide_eq_true_2.
  - rewrite lookup_insert_eq. by apply bool_decide_eq_true_2.
Qed.

Lemma os_makedirs_again d w :
  exists_dir (fs w) d = true -> os_makedirs d w = Done tt w.
Proof.
  unfold exists_dir, os_makedirs. intros [x Hx]%bool_decide_eq_true_1. by rewrite Hx.
Qed.

Lemma fix_directory_permissions_returns d w :
  exists_dir (fs w) d = true -> fix_directory_permissions d w = Done true w.
Proof.
  intros Hd. unfold fix_directory_permissions, try_except.
  by rewrite (bind_Done _ _ _ tt w) by by apply os_makedirs_again.
Qed.

Lemma main_after_startup env args inp order w :
  main env args inp order w =
  match startup env w with
  | Raised e w0 => Raised e w0
  | Done _ w0 =>
      if args_test args then Done 0%nat w0 else
      match id_list_file inp, metadata_file inp with
      | Some srr_ids, Some table_read =>
          run_downloads env args srr_ids table_read order w0
      | _, _ => Done 1%nat w0
      end
  end.
Proof.
  unfold main, startup, mbind, M_bind.
  destruct (ensure_sra_toolkit env w) as [b w1|e w1]; [|done].
  destruct (check_network_connectivity env urls_to_check w1) as [u w2|e w2]; [|done].
  destruct (args_test args); [done|].
  destruct (id_list_file inp); [|done]. by destruct (metadata_file inp).
Qed.

Lemma run_downloads_spec env args srr_ids table_read order w0 :
  srr_ids <> [] ->
  (0 < args_max_concurrent args)%Z ->
  let meta := mkMeta (args_metadata args) table_read in
  let w1 := world_of (os_makedirs (args_out_dir args) w0) in
  let outcomes := item_outcomes env args meta order w1 in
  (forallb ended_well outcomes = false ->
   exit_status (run_downloads env args srr_ids table_read order w0) = 1%nat) /\
  (forallb ended_well outcomes = true ->
   exists_dir (fs (after_items w1 outcomes)) (args_out_dir args) = true ->
   exit_status (run_downloads env args srr_ids table_read order w0) = 0%nat).
Proof.
  intros Hne Hmax meta w1 outcomes.
  assert (0 < length srr_ids)%nat as Hpos by (destruct srr_ids; [done|simpl; lia]).
  assert ((args_max_concurrent args <=? 0)%Z = false) as Hpool by lia.
  assert (run_downloads env args srr_ids table_read order w0 =
          (c ← as_completed_loop env args meta (length srr_ids) order
                 (mkCounters 0 0 0 0);
           write_file (args_out_dir args, "download_summary.txt")
             (summary_file (length srr_ids) c);;
           if (0 <? failed c)%nat then mret 1%nat else mret 0%nat) w1) as ->.
  { unfold run_downloads.
    rewrite (bind_Done _ _ _ tt w1) by apply os_makedirs_returns.
    rewrite (bind_Done _ _ _ true w1)
      by apply fix_directory_permissions_returns, os_makedirs_exists.
    rewrite Hpool.
    rewrite (bind_Done _ _ _ tt w1) by reflexivity.
    rewrite (bind_Done _ _ _ tt w1) by by apply display_returns.
    reflexivity. }
  pose proof (loop_spec env args meta (length srr_ids) order (mkCounters 0 0 0 0) w1 Hpos)
    as Hloop.
  cbv zeta in Hloop. fold outcomes in Hloop.
  split.
  - intros Hbad. destruct (forallb ordinary outcomes).
    + rewrite (bind_Done _ _ _ _ _ Hloop).
      pose proof (tally_failed_bad outcomes (mkCounters 0 0 0 0) Hbad) as Hf.
      apply Nat.ltb_lt in Hf. rewrite Hf.
      unfold mbind, M_bind.
      by destruct (write_file _ _ _).
    + destruct Hloop as (e & w' & Hloop & _). by rewrite (bind_Raised _ _ _ _ _ Hloop).
  - intros Hwell Hdir.
    assert (forallb ordinary outcomes = true) as Hord.
    { clear -Hwell. induction outcomes as [|o outcomes IH]; [done|].
      cbn [forallb] in *. apply andb_true_iff in Hwell as [Ho Hrest].
      rewrite IH by done. destruct o; [done|discriminate]. }
    rewrite Hord in Hloop. rewrite (bind_Done _ _ _ _ _ Hloop).
    rewrite (tally_failed_well outcomes _ Hwell). cbn [failed Nat.ltb Nat.leb].
    unfold mbind, M_bind, write_file. cbn [fst snd].
    unfold exists_dir in Hdir. apply bool_decide_eq_true_1 in Hdir as [d Hd].
    rewrite Hd. reflexivity.
Qed.

Lemma run_downloads_no_pool env args srr_ids table_read order w0 :
  (args_max_concurrent args <= 0)%Z ->
  run_downloads env args srr_ids table_read order w0
  = Raised ValueError (world_of (os_makedirs (args_out_dir args) w0)).
Proof.
  intros Hmax.
  assert ((args_max_concurrent args <=? 0)%Z = true) as Hpool by lia.
  unfold run_downloads.
  rewrite (bind_Done _ _ _ tt (world_of (os_makedirs (args_out_dir args) w0)))
    by apply os_makedirs_returns.
  rewrite (bind_Done _ _ _ true (world_of (os_makedirs (args_out_dir args) w0)))
    by apply fix_directory_permissions_returns, os_makedirs_exists.
  by rewrite Hpool.
Qed.

Lemma os_makedirs_trace d w : trace (world_of (os_makedirs d w)) = trace w.
Proof. unfold os_makedirs. by destruct (fs w !! d). Qed.

(** C9, amended: outside test mode, [main] exits with status 1 when the
    ID list or the metadata file is missing, having done the start-up
    checks and nothing else; with both present it exits with status 1,
    before any item is started, when the pool size is not positive; with
    a positive pool size and a non-empty ID list it exits with status 1
    when some item does not end [skipped] or [success], and with status 0
    when every item does, the start-up checks return and the output root
    is there for the summary. *)
Theorem C9_exit_status env args inp order w :
  args_test args = false ->
  let w0 := world_of (startup env w) in
  ((id_list_file inp = None \/ metadata_file inp = None) ->
     exit_status (main env args inp order w) = 1%nat /\
     world_of (main env args inp order w) = w0) /\
  (forall srr_ids table_read,
     id_list_file inp = Some srr_ids ->
     metadata_file inp = Some table_read ->
     ((args_max_concurrent args <= 0)%Z ->
      exit_status (main env args inp order w) = 1%nat /\
      trace (world_of (main env args inp order w)) = trace w0) /\
     ((0 < args_max_concurrent args)%Z ->
      srr_ids <> [] ->
      Permutation order srr_ids ->
      let meta := mkMeta (args_metadata args) table_read in
      let w1 := world_of (os_makedirs (args_out_dir args) w0) in
      let outcomes := item_outcomes env args meta order w1 in
      (forallb ended_well outcomes = false ->
       exit_status (main env args inp order w) = 1%nat) /\
      (forallb ended_well outcomes = true ->
       (exists u, startup env w = Done u w0) ->
       exists_dir (fs (after_items w1 outcomes)) (args_out_dir args) = true ->
       exit_status (main env args inp order w) = 0%nat))).
Proof.
  intros Htest w0. rewrite main_after_startup, Htest. split.
  - intros Hmissing. subst w0. destruct (startup env w) as [u w0|e w0]; [|done].
    destruct Hmissing as [-> | Hm]; [done|]. rewrite Hm. by destruct (id_list_file inp).
  - intros srr_ids table_read -> ->. split.
    + intros Hmax. subst w0. destruct (startup env w) as [u w0|e w0]; [|done].
      rewrite (run_downloads_no_pool env args srr_ids table_read order w0 Hmax).
      split; [done|]. cbn [world_of]. apply os_makedirs_trace.
    + intros Hmax Hne Hperm meta w1 outcomes.
      subst w1 outcomes w0. destruct (startup env w) as [u w0|e w0]; cbn [world_of].
      * destruct (run_downloads_spec env args srr_ids table_read order w0 Hne Hmax)
          as [Hbad Hok].
        split; [exact Hbad|]. intros Hwell _ Hdir. by apply Hok.
      * split; [done|]. intros _ [u [=]].
Qed.

Lemma C9_exit_status_witness :
  exit_status (main Samples.no_tools (Samples.run_args false false)
                 (mkInputs (Some ["SRR1"]) (Some (Ok Samples.single_table)))
                 ["SRR1"] Samples.single_world) = 0%nat /\
  exit_status (main Samples.no_tools (Samples.run_args false false)
                 (mkInputs (Some ["SRR1"]) (Some (Ok Samples.single_table)))
                 ["SRR1"] Samples.empty_world) = 1%nat /\
  exit_status (main Samples.no_tools (Samples.run_args false false)
                 (mkInputs None (Some (Ok Samples.single_table)))
                 [] Samples.single_world) = 1%nat /\
  exit_status (main Samples.no_tools
                 (mkArgs "ids.txt" "out" 2 0 "meta.tsv" false "amalgkit" false)
                 (mkInputs (Some ["SRR1"]) (Some (Ok Samples.single_table)))
                 ["SRR1"] Samples.single_world) = 1%nat.
Proof.
  split; [|split; [|split]].
  - destruct (C9_exit_status Samples.no_tools (Samples.run_args false false)
                (mkInputs (Some ["SRR1"]) (Some (Ok Samples.single_table)))
                ["SRR1"] Samples.single_world eq_refl) as [_ Hrun].
    destruct (Hrun ["SRR1"] (Ok Samples.single_table) eq_refl eq_refl) as [_ Hpool].
    destruct Hpool as [_ Hok]; [reflexivity | discriminate | apply Permutation_refl |].
    apply Hok; [vm_compute; reflexivity | eexists; vm_compute; reflexivity
               | vm_compute; reflexivity].
  - destruct (C9_exit_status Samples.no_tools (Samples.run_args false false)
                (mkInputs (Some ["SRR1"]) (Some (Ok Samples.single_table)))
                ["SRR1"] Samples.empty_world eq_refl) as [_ Hrun].
    destruct (Hrun ["SRR1"] (Ok Samples.single_table) eq_refl eq_refl) as [_ Hpool].
    destruct Hpool as [Hbad _]; [reflexivity | discriminate | apply Permutation_refl |].
    apply Hbad. vm_compute. reflexivity.
  - destruct (C9_exit_status Samples.no_tools (Samples.run_args false false)
                (mkInputs None (Some (Ok Samples.single_table)))
                [] Samples.single_world eq_refl) as [Hmissing _].
    apply Hmissing. left. reflexivity.
  - destruct (C9_exit_status Samples.no_tools
                (mkArgs "ids.txt" "out" 2 0 "meta.tsv" false "amalgkit" false)
                (mkInputs (Some ["SRR1"]) (Some (Ok Samples.single_table)))
                ["SRR1"] Samples.single_world eq_refl) as [_ Hrun].
    destruct (Hrun ["SRR1"] (Ok Samples.single_table) eq_refl eq_refl) as [Hnone _].
    apply Hnone. vm_compute. discriminate.
Defined.

(** C9, as stated, fails three times.  In test mode [main] returns
    before it looks for its inputs, and the process ends with status 0
    although both the ID list and the metadata file are missing.  Outside
    test mode a missing ID list ends the process with status 1, but not
    before any work: the start-up has by then looked for the toolkit, for
    [conda] and [apt-get], and probed the four servers.  And with a pool
    size of 0 the process ends with status 1 although the one item of the
    list is there and valid, and its worker would end [skipped]. *)
Lemma C9_test_mode_counterexample :
  (exit_status (main Samples.no_tools (Samples.run_args false true)
                  (mkInputs None None) [] Samples.empty_world) = 0%nat /\
   exit_status (main Samples.no_tools (Samples.run_args false true)
                  (mkInputs None None) [] Samples.empty_world) <> 1%nat) /\
  (exit_status (main Samples.no_tools (Samples.run_args false false)
                  (mkInputs None None) [] Samples.empty_world) = 1%nat /\
   trace (world_of (main Samples.no_tools (Samples.run_args false false)
                      (mkInputs None None) [] Samples.empty_world))
   = [ ["which"; "prefetch"]; ["which"; "conda"]; ["which"; "apt-get"] ]
     ++ map (fun url => ["curl"; "-I"; "-s"; "--connect-timeout"; "10"; url])
          urls_to_check) /\
  (forallb ended_well
     (item_outcomes Samples.no_tools
        (mkArgs "ids.txt" "out" 2 0 "meta.tsv" false "amalgkit" false)
        (Samples.meta_of Samples.single_table) ["SRR1"] Samples.single_world)
   = true /\
   exit_status (main Samples.no_tools
                  (mkArgs "ids.txt" "out" 2 0 "meta.tsv" false "amalgkit" false)
                  (mkInputs (Some ["SRR1"]) (Some (Ok Samples.single_table)))
                  ["SRR1"] Samples.single_world) = 1%nat).
Proof. vm_compute. repeat split; try reflexivity. discriminate. Qed.

(** With an ID list that holds no ID the first progress bar divides by
    zero: the exception leaves [main] before the summary is written. *)
Lemma empty_id_list_raises env args table_read order w u w0 :
  args_test args = false ->
  (0 < args_max_concurrent args)%Z ->
  startup env w = Done u w0 ->
  main env args (mkInputs (Some []) (Some table_read)) order w
  = Raised ZeroDivisionError (world_of (os_makedirs (args_out_dir args) w0)).
Proof.
  intros Htest Hmax Hstart.
  assert ((args_max_concurrent args <=? 0)%Z = false) as Hpool by lia.
  rewrite main_after_startup, Hstart, Htest. cbn [id_list_file metadata_file].
  unfold run_downloads.
  rewrite (bind_Done _ _ _ tt (world_of (os_makedirs (args_out_dir args) w0)))
    by apply os_makedirs_returns.
  rewrite (bind_Done _ _ _ true (world_of (os_makedirs (args_out_dir args) w0)))
    by apply fix_directory_permissions_returns, os_makedirs_exists.
  rewrite Hpool.
  reflexivity.
Qed.

(** ** The probe starts no program *)

Lemma quiet_ret {A} (a : A) : quiet (mret a).
Proof. by intros w. Qed.

Lemma quiet_bind {A B} (m : M A) (k : A -> M B) :
  quiet m -> (forall a, quiet (k a)) -> quiet (m ≫= k).
Proof.
  intros Hm Hk w. unfold mbind, M_bind. specialize (Hm w).
  destruct (m w) as [a w'|e w']; cbn [world_of] in *; [|done].
  by rewrite Hk.
Qed.

Lemma quiet_try_except {A} (m : M A) cs (h : pyclass -> M A) :
  quiet m -> (forall e, quiet (h e)) -> quiet (try_except m cs h).
Proof.
  intros Hm Hh w. unfold try_except. specialize (Hm w).
  destruct (m w) as [a w'|e w']; cbn [world_of] in *; [done|].
  destruct (caught_by cs e); [|done]. by rewrite Hh.
Qed.

Lemma quiet_observe {A} (r : filesystem -> result A) : quiet (observe r).
Proof. intros w. unfold observe. by destruct (r (fs w)). Qed.

Lemma quiet_and_then a b : quiet a -> quiet b -> quiet (and_then a b).
Proof.
  intros Ha Hb. apply quiet_bind; [done|]. intros []; [done|apply quiet_ret].
Qed.

Lemma quiet_os_remove p : quiet (os_remove p).
Proof.
  intros w. unfold os_remove. destruct (fs w !! p.1) as [d|]; [|done].
  by destruct (d !! p.2).
Qed.

Lemma quiet_write_file p f : quiet (write_file p f).
Proof. intros w. unfold write_file. by destruct (fs w !! p.1). Qed.

Lemma quiet_os_makedirs d : quiet (os_makedirs d).
Proof. intros w. unfold os_makedirs. by destruct (fs w !! d). Qed.

Ltac quiet_step :=
  first
    [ apply quiet_ret
    | apply quiet_observe
    | apply quiet_os_remove
    | apply quiet_write_file
    | apply quiet_os_makedirs
    | apply quiet_bind; [|intros ?]
    | apply quiet_and_then
    | apply quiet_try_except; [|intros ?]
    | match goal with |- quiet (if ?b then _ else _) => destruct b end
    | match goal with |- quiet (match ?x with _ => _ end) => destruct x end ].

Lemma quiet_remove_logged p : quiet (remove_logged p).
Proof. unfold remove_logged. repeat quiet_step. Qed.

Lemma quiet_remove_quiet p : quiet (remove_quiet p).
Proof. unfold remove_quiet, try_bare. repeat quiet_step. Qed.

Lemma quiet_is_valid p : quiet (is_valid p).
Proof. apply quiet_observe. Qed.

Lemma quiet_exists_nonempty p : quiet (exists_nonempty p).
Proof. unfold exists_nonempty, os_path_exists, os_path_getsize. repeat quiet_step. Qed.

Lemma quiet_verify_pairs fastq_dir file_pairs : quiet (verify_pairs fastq_dir file_pairs).
Proof.
  induction file_pairs as [|file_pair rest IH]; cbn [verify_pairs]; [apply quiet_ret|].
  unfold os_path_exists, is_valid.
  repeat first [ exact IH | apply quiet_remove_logged | quiet_step ].
Qed.

Lemma quiet_verify_singles fastq_dir single_files :
  quiet (verify_singles fastq_dir single_files).
Proof.
  induction single_files as [|file_name rest IH]; cbn [verify_singles]; [apply quiet_ret|].
  unfold os_path_exists, is_valid.
  repeat first [ exact IH | apply quiet_remove_logged | quiet_step ].
Qed.

Lemma quiet_verify_and_clean_downloads fastq_dir srr_id is_paired :
  quiet (verify_and_clean_downloads fastq_dir srr_id is_paired).
Proof.
  unfold verify_and_clean_downloads, os_path_exists.
  repeat first [ apply quiet_verify_pairs | apply quiet_verify_singles
               | apply quiet_remove_logged | quiet_step ].
Qed.

Lemma quiet_probe_pairs fastq_dir marker_file patterns :
  quiet (probe_pairs fastq_dir marker_file patterns).
Proof.
  induction patterns as [|pattern_pair rest IH]; cbn [probe_pairs]; [apply quiet_ret|].
  unfold is_valid.
  repeat first [ exact IH | apply quiet_remove_quiet | apply quiet_exists_nonempty
               | quiet_step ].
Qed.

Lemma quiet_probe_singles fastq_dir marker_file patterns :
  quiet (probe_singles fastq_dir marker_file patterns).
Proof.
  induction patterns as [|pattern rest IH]; cbn [probe_singles]; [apply quiet_ret|].
  unfold is_valid.
  repeat first [ exact IH | apply quiet_remove_quiet | apply quiet_exists_nonempty
               | quiet_step ].
Qed.

Lemma quiet_check_existing_files srr_id out_dir paired :
  quiet (check_existing_files srr_id out_dir paired).
Proof.
  unfold check_existing_files, os_path_exists, os_path_exists_dir.
  repeat first [ apply quiet_verify_and_clean_downloads | apply quiet_remove_quiet
               | apply quiet_probe_pairs | apply quiet_probe_singles | quiet_step ].
Qed.

(** Whatever the item and its layout: once the probe inside
    [download_single_sra] finds valid output, a forced worker returns
    [success] with no program started. *)
Lemma forced_worker_still_probes env srr_id out_dir threads amalgkit_path meta
  layout w w' :
  get_layout_from_metadata (metadata_read meta) srr_id = Ok layout ->
  check_existing_files srr_id out_dir layout
    (world_of (os_makedirs (Py.path_join out_dir srr_id) w)) = Done true w' ->
  download_worker env srr_id out_dir threads amalgkit_path meta true w
    = Done (srr_id, "success") w' /\
  trace w' = trace w.
Proof.
  intros Hlayout Hprobe. split.
  - unfold download_worker, and_then. cbn [negb].
    rewrite (bind_Done _ _ _ false w) by reflexivity.
    rewrite (bind_Done _ _ _ true w'); [reflexivity|].
    unfold download_single_sra.
    set (w1 := world_of (os_makedirs (Py.path_join out_dir srr_id) w)) in *.
    rewrite (bind_Done _ _ _ tt w1) by apply os_makedirs_returns.
    rewrite (bind_Done _ _ _ true w1)
      by apply fix_directory_permissions_returns, os_makedirs_exists.
    rewrite (bind_Done _ _ _ layout w1) by (unfold observe; by rewrite Hlayout).
    by rewrite (bind_Done _ _ _ true w').
  - pose proof (quiet_check_existing_files srr_id out_dir layout
                  (world_of (os_makedirs (Py.path_join out_dir srr_id) w))) as Hq.
    rewrite Hprobe in Hq. cbn [world_of] in Hq. rewrite Hq.
    apply quiet_os_makedirs.
Qed.

(** * Further properties *)

Lemma lookup_path_remove_eq (fs : filesystem) (p : path) (dir : directory) :
  lookup_path (<[p.1 := delete p.2 dir]> fs) p = None.
Proof.
  unfold lookup_path. rewrite lookup_insert_eq. cbn. apply lookup_delete_eq.
Qed.

Lemma lookup_path_remove_ne (fs : filesystem) (p q : path) (dir : directory) :
  fs !! p.1 = Some dir -> q <> p ->
  lookup_path (<[p.1 := delete p.2 dir]> fs) q = lookup_path fs q.
Proof.
  intros Hd Hne. unfold lookup_path. destruct (decide (q.1 = p.1)) as [Heq|Hdir].
  - rewrite Heq, lookup_insert_eq, Hd. cbn. apply lookup_delete_ne.
    intros Hn. apply Hne. destruct p, q; cbn in *; congruence.
  - by rewrite lookup_insert_ne.
Qed.

Lemma lookup_path_write_eq (fs : filesystem) (p : path) (dir : directory) f :
  lookup_path (<[p.1 := <[p.2 := f]> dir]> fs) p = Some f.
Proof.
  unfold lookup_path. rewrite lookup_insert_eq. cbn. apply lookup_insert_eq.
Qed.

Lemma lookup_path_write_ne (fs : filesystem) (p q : path) (dir : directory) f :
  fs !! p.1 = Some dir -> q <> p ->
  lookup_path (<[p.1 := <[p.2 := f]> dir]> fs) q = lookup_path fs q.
Proof.
  intros Hd Hne. unfold lookup_path. destruct (decide (q.1 = p.1)) as [Heq|Hdir].
  - rewrite Heq, lookup_insert_eq, Hd. cbn. apply lookup_insert_ne.
    intros Hn. apply Hne. destruct p, q; cbn in *; congruence.
  - by rewrite lookup_insert_ne.
Qed.

(** The verdict on a path depends on the file at that path alone. *)
Lemma validate_frame fs fs' p :
  lookup_path fs p = lookup_path fs' p -> validate fs p = validate fs' p.
Proof. intros H. unfold validate, getsize. by rewrite H. Qed.

Lemma is_valid_frame fs fs' p :
  lookup_path fs p = lookup_path fs' p ->
  is_valid_fastq_file fs p = is_valid_fastq_file fs' p.
Proof. intros H. unfold is_valid_fastq_file. by rewrite (validate_frame fs fs' p H). Qed.

Lemma is_valid_missing fs p :
  lookup_path fs p = None -> is_valid_fastq_file fs p = Ok false.
Proof. intros H. unfold is_valid_fastq_file, validate, getsize. by rewrite H. Qed.

Lemma is_valid_marker fs p :
  lookup_path fs p = Some completion_marker ->
  is_valid_fastq_file fs p = Ok false.
Proof.
  intros H. unfold is_valid_fastq_file.
  rewrite (validate_unfold fs p completion_marker H).
  destruct (Py.endswith p.2 ".gz"); vm_compute; reflexivity.
Qed.

Section Steps.

Context (R W : path -> Prop).

Lemma fs_step_frame fs fs' p :
  fs_step R W fs fs' -> ~ R p -> ~ W p -> lookup_path fs' p = lookup_path fs p.
Proof.
  intros [fs0 q dir f Hq Hd Hn | fs0 q dir Hq Hd] HR HW.
  - apply lookup_path_remove_ne; [done|]. by intros ->.
  - apply lookup_path_write_ne; [done|]. by intros ->.
Qed.

Lemma fs_step_no_new fs fs' p :
  fs_step R W fs fs' -> ~ W p -> lookup_path fs p = None -> lookup_path fs' p = None.
Proof.
  intros [fs0 q dir f Hq Hd Hn | fs0 q dir Hq Hd] HW Hp.
  - destruct (decide (p = q)) as [->|Hne]; [apply lookup_path_remove_eq|].
    by rewrite lookup_path_remove_ne.
  - rewrite lookup_path_write_ne; [done..|]. by intros ->.
Qed.

Lemma fs_step_dirs fs fs' d :
  fs_step R W fs fs' -> is_Some (fs' !! d) <-> is_Some (fs !! d).
Proof.
  intros [fs0 q dir f Hq Hd Hn | fs0 q dir Hq Hd];
    (destruct (decide (d = q.1)) as [->|Hne];
     [rewrite lookup_insert_eq, Hd; split; eauto | by rewrite lookup_insert_ne]).
Qed.

Lemma fs_step_calm fs fs' : fs_step R W fs fs' -> calm fs -> calm fs'.
Proof.
  intros [fs0 q dir f Hq Hd Hn | fs0 q dir Hq Hd] Hcalm p.
  - destruct (decide (p = q)) as [->|Hne].
    + exists false. apply is_valid_missing, lookup_path_remove_eq.
    + destruct (Hcalm p) as [b Hb]. exists b. rewrite <- Hb.
      apply is_valid_frame. by apply lookup_path_remove_ne.
  - destruct (decide (p = q)) as [->|Hne].
    + exists false. apply is_valid_marker, lookup_path_write_eq.
    + destruct (Hcalm p) as [b Hb]. exists b. rewrite <- Hb.
      apply is_valid_frame. by apply lookup_path_write_ne.
Qed.

Lemma steps_frame fs fs' p :
  rtc (fs_step R W) fs fs' -> ~ R p -> ~ W p -> lookup_path fs' p = lookup_path fs p.
Proof.
  induction 1 as [|fs1 fs2 fs3 Hstep _ IH]; intros HR HW; [done|].
  rewrite IH by done. by eapply fs_step_frame.
Qed.

Lemma steps_no_new fs fs' p :
  rtc (fs_step R W) fs fs' -> ~ W p -> lookup_path fs p = None -> lookup_path fs' p = None.
Proof.
  induction 1 as [|fs1 fs2 fs3 Hstep _ IH]; intros HW Hp; [done|].
  apply IH; [done|]. by eapply fs_step_no_new.
Qed.

Lemma steps_dirs fs fs' d :
  rtc (fs_step R W) fs fs' -> is_Some (fs' !! d) <-> is_Some (fs !! d).
Proof.
  induction 1 as [|fs1 fs2 fs3 Hstep _ IH]; [done|].
  rewrite IH. by eapply fs_step_dirs.
Qed.

Lemma steps_calm fs fs' : rtc (fs_step R W) fs fs' -> calm fs -> calm fs'.
Proof.
  induction 1 as [|fs1 fs2 fs3 Hstep _ IH]; [done|].
  intros Hc. apply IH. by eapply fs_step_calm.
Qed.

Lemma tidies_ret {A} (a : A) : tidies R W (mret a).
Proof. intros w. apply rtc_refl. Qed.

Lemma tidies_bind {A B} (m : M A) (k : A -> M B) :
  tidies R W m -> (forall a, tidies R W (k a)) -> tidies R W (m ≫= k).
Proof.
  intros Hm Hk w. unfold mbind, M_bind. specialize (Hm w).
  destruct (m w) as [a w'|e w']; cbn [world_of] in *; [|done].
  etrans; [exact Hm|apply Hk].
Qed.

Lemma tidies_try_except {A} (m : M A) cs (h : pyclass -> M A) :
  tidies R W m -> (forall e, tidies R W (h e)) -> tidies R W (try_except m cs h).
Proof.
  intros Hm Hh w. unfold try_except. specialize (Hm w).
  destruct (m w) as [a w'|e w']; cbn [world_of] in *; [done|].
  destruct (caught_by cs e); [|done]. etrans; [exact Hm|apply Hh].
Qed.

Lemma tidies_observe {A} (r : filesystem -> result A) : tidies R W (observe r).
Proof. intros w. unfold observe. destruct (r (fs w)); apply rtc_refl. Qed.

Lemma tidies_and_then a b : tidies R W a -> tidies R W b -> tidies R W (and_then a b).
Proof.
  intros Ha Hb. apply tidies_bind; [done|]. intros []; [done|apply tidies_ret].
Qed.

Lemma tidies_os_remove p : R p -> tidies R W (os_remove p).
Proof.
  intros Hp w. unfold os_remove. destruct (fs w !! p.1) as [d|] eqn:Hd; [|apply rtc_refl].
  destruct (d !! p.2) as [f|] eqn:Hf; [|apply rtc_refl].
  apply rtc_once. by eapply step_remove.
Qed.

Lemma tidies_write_marker p : W p -> tidies R W (write_file p completion_marker).
Proof.
  intros Hp w. unfold write_file. destruct (fs w !! p.1) as [d|] eqn:Hd; [|apply rtc_refl].
  apply rtc_once. by eapply step_mark.
Qed.

End Steps.

Lemma fs_step_weaken (R W R' W' : path -> Prop) fs fs' :
  (forall p, R p -> R' p) -> (forall p, W p -> W' p) ->
  fs_step R W fs fs' -> fs_step R' W' fs fs'.
Proof.
  intros HR HW [fs0 q dir f Hq Hd Hn | fs0 q dir Hq Hd].
  - eapply step_remove; eauto.
  - eapply step_mark; eauto.
Qed.

Lemma tidies_weaken {A} (R W R' W' : path -> Prop) (m : M A) :
  (forall p, R p -> R' p) -> (forall p, W p -> W' p) ->
  tidies R W m -> tidies R' W' m.
Proof.
  intros HR HW Hm w. eapply rtc_subrel; [|apply Hm].
  intros x y. by apply fs_step_weaken.
Qed.

Lemma bind_inv {A B} (m : M A) (k : A -> M B) w b w' :
  (m ≫= k) w = Done b w' -> exists a w1, m w = Done a w1 /\ k a w1 = Done b w'.
Proof.
  unfold mbind, M_bind. destruct (m w) as [a w1|e w1]; [|done]. eauto.
Qed.

Lemma observe_inv {A} (r : filesystem -> result A) w a w' :
  observe r w = Done a w' -> w' = w /\ r (fs w) = Ok a.
Proof. unfold observe. destruct (r (fs w)); [|done]. by intros [= <- <-]. Qed.

Lemma ret_inv {A} (a b : A) w w' : (mret a : M A) w = Done b w' -> b = a /\ w' = w.
Proof. by intros [= <- <-]. Qed.

Lemma and_then_inv a b w x w' :
  and_then a b w = Done x w' ->
  (exists w1, a w = Done true w1 /\ b w1 = Done x w') \/
  (x = false /\ a w = Done false w').
Proof.
  unfold and_then. intros (y & w1 & Ha & Hk)%bind_inv. destruct y.
  - left. eauto.
  - right. by apply ret_inv in Hk as [-> ->].
Qed.

Lemma os_path_exists_inv p w b w' :
  os_path_exists p w = Done b w' -> w' = w /\ b = exists_file (fs w) p.
Proof. unfold os_path_exists. intros [-> [= <-]]%observe_inv. done. Qed.

Lemma is_valid_inv p w b w' :
  is_valid p w = Done b w' -> w' = w /\ is_valid_fastq_file (fs w) p = Ok b.
Proof. unfold is_valid. by intros [-> H]%observe_inv. Qed.

Lemma exists_file_false fs p : exists_file fs p = false <-> lookup_path fs p = None.
Proof.
  unfold exists_file. rewrite bool_decide_eq_false, <- eq_None_not_Some. done.
Qed.

Lemma exists_file_true fs p : exists_file fs p = true <-> is_Some (lookup_path fs p).
Proof. unfold exists_file. by rewrite bool_decide_eq_true. Qed.

Lemma is_valid_present fs p :
  is_valid_fastq_file fs p = Ok true -> is_Some (lookup_path fs p).
Proof.
  intros H. destruct (lookup_path fs p) eqn:Hp; [eauto|].
  by rewrite is_valid_missing in H.
Qed.

Lemma lookup_path_dir fs p : is_Some (lookup_path fs p) -> is_Some (fs !! p.1).
Proof. unfold lookup_path. destruct (fs !! p.1); [eauto|]. by intros [? [=]]. Qed.

(** After [os.remove] the path is gone, whether the call succeeded or
    raised. *)
Lemma os_remove_gone p w :
  lookup_path (fs (world_of (os_remove p w))) p = None.
Proof.
  unfold os_remove, lookup_path.
  destruct (fs w !! p.1) as [d|] eqn:Hd; cbn [world_of fs].
  - destruct (d !! p.2) eqn:Hn; cbn [world_of fs].
    + rewrite lookup_insert_eq. cbn. apply lookup_delete_eq.
    + rewrite Hd. cbn. done.
  - by rewrite Hd.
Qed.

Lemma remove_logged_gone p w u w' :
  remove_logged p w = Done u w' -> lookup_path (fs w') p = None.
Proof.
  unfold remove_logged, try_except. pose proof (os_remove_gone p w) as Hg.
  destruct (os_remove p w) as [[] w1|e w1]; cbn [world_of] in Hg.
  - by intros [= <- <-].
  - destruct (caught_by _ e); [|done]. by intros [= <- <-].
Qed.

Lemma remove_quiet_gone p w u w' :
  remove_quiet p w = Done u w' -> lookup_path (fs w') p = None.
Proof.
  unfold remove_quiet, try_bare, try_except. pose proof (os_remove_gone p w) as Hg.
  destruct (os_remove p w) as [[] w1|e w1]; cbn [world_of] in Hg.
  - by intros [= <- <-].
  - destruct (caught_by _ e); [|done]. by intros [= <- <-].
Qed.

Lemma remove_quiet_returns p w : exists w', remove_quiet p w = Done tt w'.
Proof.
  unfold remove_quiet, try_bare, try_except.
  destruct (os_remove p w) as [[] w1|e w1]; [eauto|].
  assert (caught_by [BaseException] e = true) as -> by by destruct e.
  eauto.
Qed.

Section Tidy.

Context (R W : path -> Prop).

Lemma tidies_remove_logged p : R p -> tidies R W (remove_logged p).
Proof.
  intros Hp. unfold remove_logged. apply tidies_try_except; [by apply tidies_os_remove|].
  intros e. apply tidies_ret.
Qed.

Lemma tidies_remove_quiet p : R p -> tidies R W (remove_quiet p).
Proof.
  intros Hp. unfold remove_quiet, try_bare.
  apply tidies_try_except; [by apply tidies_os_remove|]. intros e. apply tidies_ret.
Qed.

Lemma tidies_exists_nonempty p : tidies R W (exists_nonempty p).
Proof.
  unfold exists_nonempty, os_path_exists, os_path_getsize.
  apply tidies_and_then; [apply tidies_observe|].
  apply tidies_bind; [apply tidies_observe|]. intros ?. apply tidies_ret.
Qed.

End Tidy.

Ltac tidy_step :=
  first
    [ apply tidies_ret
    | apply tidies_observe
    | apply tidies_exists_nonempty
    | apply tidies_bind; [|intros ?]
    | apply tidies_and_then
    | apply tidies_try_except; [|intros ?]
    | match goal with |- tidies _ _ (if ?b then _ else _) => destruct b end ].

Lemma tidies_verify_singles R W fastq_dir single_files :
  (forall n, n ∈ single_files -> R (fastq_dir, n)) ->
  tidies R W (verify_singles fastq_dir single_files).
Proof.
  induction single_files as [|file_name rest IH]; intros HR; cbn [verify_singles];
    [apply tidies_ret|].
  unfold os_path_exists, is_valid.
  repeat first [ apply IH; intros; apply HR, elem_of_cons; by right
               | apply tidies_remove_logged; apply HR, elem_of_cons; by left
               | tidy_step ].
Qed.

Lemma tidies_verify_pairs R W fastq_dir file_pairs :
  (forall q, q ∈ file_pairs -> R (fastq_dir, q.1) /\ R (fastq_dir, q.2)) ->
  tidies R W (verify_pairs fastq_dir file_pairs).
Proof.
  induction file_pairs as [|file_pair rest IH]; intros HR; cbn [verify_pairs];
    [apply tidies_ret|].
  assert (R (fastq_dir, file_pair.1) /\ R (fastq_dir, file_pair.2)) as [H1 H2]
    by (apply HR, elem_of_cons; by left).
  assert (tidies R W (verify_pairs fastq_dir rest)) as Hrest
    by (apply IH; intros; apply HR, elem_of_cons; by right).
  unfold os_path_exists, is_valid.
  repeat first [ exact Hrest | by apply tidies_remove_logged | tidy_step ].
Qed.

Lemma tidies_probe_singles R W fastq_dir marker_file patterns :
  W marker_file ->
  (forall n, n ∈ patterns -> R (fastq_dir, n)) ->
  tidies R W (probe_singles fastq_dir marker_file patterns).
Proof.
  intros HW. induction patterns as [|pattern rest IH]; intros HR; cbn [probe_singles];
    [apply tidies_ret|].
  assert (tidies R W (probe_singles fastq_dir marker_file rest)) as Hrest
    by (apply IH; intros; apply HR, elem_of_cons; by right).
  assert (R (fastq_dir, pattern)) as H1 by (apply HR, elem_of_cons; by left).
  unfold is_valid.
  repeat first [ exact Hrest | by apply tidies_remove_quiet
               | by apply tidies_write_marker | tidy_step ].
Qed.

Lemma tidies_probe_pairs R W fastq_dir marker_file patterns :
  W marker_file ->
  (forall q, q ∈ patterns -> R (fastq_dir, q.1) /\ R (fastq_dir, q.2)) ->
  tidies R W (probe_pairs fastq_dir marker_file patterns).
Proof.
  intros HW. induction patterns as [|pattern_pair rest IH]; intros HR; cbn [probe_pairs];
    [apply tidies_ret|].
  assert (R (fastq_dir, pattern_pair.1) /\ R (fastq_dir, pattern_pair.2)) as [H1 H2]
    by (apply HR, elem_of_cons; by left).
  assert (tidies R W (probe_pairs fastq_dir marker_file rest)) as Hrest
    by (apply IH; intros; apply HR, elem_of_cons; by right).
  unfold is_valid.
  repeat first [ exact Hrest | by apply tidies_remove_quiet
               | by apply tidies_write_marker | tidy_step ].
Qed.

Lemma paired_names_in srr_id q :
  q ∈ paired_patterns srr_id ->
  q.1 ∈ item_names srr_id (Some true) /\ q.2 ∈ item_names srr_id (Some true).
Proof.
  intros Hq. unfold item_names. cbn [truthy].
  split; apply list_elem_of_In, in_flat_map; exists q;
    (split; [by apply list_elem_of_In|]); cbn; auto.
Qed.

Lemma tidies_verify_and_clean_downloads R W fastq_dir srr_id is_paired :
  R (marker_path fastq_dir srr_id) ->
  (forall n, n ∈ item_names srr_id is_paired -> R (fastq_dir, n)) ->
  tidies R W (verify_and_clean_downloads fastq_dir srr_id is_paired).
Proof.
  intros Hm HR. unfold verify_and_clean_downloads, os_path_exists.
  apply tidies_bind.
  - unfold item_names in HR. destruct (truthy is_paired) eqn:Hp.
    + apply tidies_verify_pairs. intros q Hq.
      assert (is_paired = Some true) as -> by by destruct is_paired as [[]|].
      destruct (paired_names_in srr_id q Hq). split; apply HR; done.
    + by apply tidies_verify_singles.
  - intros v. repeat first [ by apply tidies_remove_logged | tidy_step ].
Qed.

(** The probe removes only data files of the item and its marker, and
    writes only the marker. *)
Lemma tidies_check_existing_files srr_id out_dir paired :
  tidies (fun p => item_data srr_id out_dir paired p \/ p = item_marker srr_id out_dir)
         (fun p => p = item_marker srr_id out_dir)
         (check_existing_files srr_id out_dir paired).
Proof.
  unfold check_existing_files, os_path_exists, os_path_exists_dir.
  fold (item_marker srr_id out_dir).
  assert (forall n, n ∈ item_names srr_id paired ->
            item_data srr_id out_dir paired (Py.path_join out_dir srr_id, n)) as Hdata
    by (intros n Hn; by split).
  apply tidies_bind; [apply tidies_observe|]. intros marked. destruct marked.
  - apply tidies_bind.
    + apply tidies_verify_and_clean_downloads; [by right|]. intros n Hn. left. by apply Hdata.
    + intros v. repeat first [ apply tidies_remove_quiet; by right | tidy_step ].
  - apply tidies_bind; [apply tidies_observe|]. intros present.
    destruct present; [|apply tidies_ret].
    unfold item_names in Hdata. destruct (truthy paired) eqn:Hp.
    + apply tidies_probe_pairs; [done|]. intros q Hq.
      assert (paired = Some true) as -> by by destruct paired as [[]|].
      destruct (paired_names_in srr_id q Hq) as [H1 H2].
      split; left; split; done.
    + apply tidies_probe_singles; [done|]. intros n Hn. left. by apply Hdata.
Qed.

Lemma marker_not_data srr_id paired n :
  n ∈ item_names srr_id paired -> n <> srr_id +:+ ".completed".
Proof.
  intros Hn ->. unfold item_names in Hn. destruct (truthy paired); cbn in Hn;
    repeat (apply elem_of_cons in Hn as [Hn|Hn];
            [apply (inj (String.app srr_id)) in Hn; discriminate|]);
    by apply elem_of_nil in Hn.
Qed.

Lemma tidies_nothing_written {A} (R : path -> Prop) (m : M A) w p :
  tidies R (fun _ => False) m ->
  lookup_path (fs w) p = None -> lookup_path (fs (world_of (m w))) p = None.
Proof. intros Hm Hp. eapply steps_no_new; [apply Hm| |done]. tauto. Qed.

(** *** What the clean-up loops return *)

Lemma verify_singles_true fastq_dir single_files w w' :
  verify_singles fastq_dir single_files w = Done true w' ->
  exists n, n ∈ single_files /\ is_valid_fastq_file (fs w') (fastq_dir, n) = Ok true.
Proof.
  revert w. induction single_files as [|file_name rest IH]; intros w; cbn [verify_singles].
  - by intros [[=] _]%ret_inv.
  - intros (present & w1 & [-> ->]%os_path_exists_inv & Hk)%bind_inv.
    destruct (exists_file (fs w) (fastq_dir, file_name)).
    + apply bind_inv in Hk as (valid & w2 & [-> Hv]%is_valid_inv & Hk). destruct valid.
      * apply ret_inv in Hk as [_ ->]. exists file_name. split; [by left|done].
      * apply bind_inv in Hk as (u & w3 & _ & Hk).
        destruct (IH _ Hk) as (n & Hn & Hvalid). exists n. split; [by right|done].
    + destruct (IH _ Hk) as (n & Hn & Hvalid). exists n. split; [by right|done].
Qed.

Lemma verify_singles_false fastq_dir single_files w w' :
  verify_singles fastq_dir single_files w = Done false w' ->
  forall n, n ∈ single_files -> lookup_path (fs w') (fastq_dir, n) = None.
Proof.
  revert w. induction single_files as [|file_name rest IH]; intros w; cbn [verify_singles].
  - intros _ n Hn. by apply elem_of_nil in Hn.
  - intros (present & w1 & [-> ->]%os_path_exists_inv & Hk)%bind_inv n Hn.
    assert (forall w0, lookup_path (fs w0) (fastq_dir, file_name) = None ->
              verify_singles fastq_dir rest w0 = Done false w' ->
              lookup_path (fs w') (fastq_dir, n) = None) as Hrest.
    { intros w0 Hgone Hrec. apply elem_of_cons in Hn as [->|Hn]; [|by eapply IH].
      pose proof (tidies_nothing_written (fun _ => True)
                    (verify_singles fastq_dir rest) w0 _
                    (tidies_verify_singles _ _ _ _ (fun _ _ => I)) Hgone) as Hnone.
      by rewrite Hrec in Hnone. }
    destruct (exists_file (fs w) (fastq_dir, file_name)) eqn:Hex.
    + apply bind_inv in Hk as (valid & w2 & [-> Hv]%is_valid_inv & Hk). destruct valid.
      * by apply ret_inv in Hk as [[=] _].
      * apply bind_inv in Hk as (u & w3 & Hrm%remove_logged_gone & Hk). by eapply Hrest.
    + apply exists_file_false in Hex. by eapply Hrest.
Qed.

Lemma pair_present_inv p1 p2 w b w' :
  and_then (os_path_exists p1) (os_path_exists p2) w = Done b w' ->
  w' = w /\ b = exists_file (fs w) p1 && exists_file (fs w) p2.
Proof.
  intros [(w1 & [-> H1]%os_path_exists_inv & [-> ->]%os_path_exists_inv)
         | (-> & [-> H1]%os_path_exists_inv)]%and_then_inv.
  - by rewrite <- H1.
  - by rewrite <- H1.
Qed.

Lemma verify_pairs_true fastq_dir file_pairs w w' :
  verify_pairs fastq_dir file_pairs w = Done true w' ->
  exists q, q ∈ file_pairs /\
            is_valid_fastq_file (fs w') (fastq_dir, q.1) = Ok true /\
            is_valid_fastq_file (fs w') (fastq_dir, q.2) = Ok true.
Proof.
  revert w. induction file_pairs as [|file_pair rest IH]; intros w; cbn [verify_pairs].
  - by intros [[=] _]%ret_inv.
  - intros (present & w1 & [-> ->]%pair_present_inv & Hk)%bind_inv.
    assert (forall w0, verify_pairs fastq_dir rest w0 = Done true w' ->
              exists q, q ∈ file_pair :: rest /\
                is_valid_fastq_file (fs w') (fastq_dir, q.1) = Ok true /\
                is_valid_fastq_file (fs w') (fastq_dir, q.2) = Ok true) as Hrest.
    { intros w0 Hrec. destruct (IH _ Hrec) as (q & Hq & Hv). exists q.
      split; [by right|done]. }
    destruct (_ && _).
    + apply bind_inv in Hk as (valid1 & w2 & [-> Hv1]%is_valid_inv & Hk).
      apply bind_inv in Hk as (valid2 & w3 & [-> Hv2]%is_valid_inv & Hk).
      destruct valid1, valid2; cbn [andb negb] in Hk.
      * apply ret_inv in Hk as [_ ->]. exists file_pair. split; [by left|done].
      * apply bind_inv in Hk as (u & w4 & _ & Hk). by eapply Hrest.
      * apply bind_inv in Hk as (u & w4 & _ & Hk). by eapply Hrest.
      * apply bind_inv in Hk as (u & w4 & _ & Hk). by eapply Hrest.
    + by eapply Hrest.
Qed.

Lemma verify_pairs_false fastq_dir file_pairs w w' :
  verify_pairs fastq_dir file_pairs w = Done false w' ->
  forall q, q ∈ file_pairs ->
    lookup_path (fs w') (fastq_dir, q.1) = None \/
    lookup_path (fs w') (fastq_dir, q.2) = None.
Proof.
  revert w. induction file_pairs as [|file_pair rest IH]; intros w; cbn [verify_pairs].
  - intros _ q Hq. by apply elem_of_nil in Hq.
  - intros (present & w1 & [-> ->]%pair_present_inv & Hk)%bind_inv q Hq.
    assert (forall w0,
              lookup_path (fs w0) (fastq_dir, file_pair.1) = None \/
              lookup_path (fs w0) (fastq_dir, file_pair.2) = None ->
              verify_pairs fastq_dir rest w0 = Done false w' ->
              lookup_path (fs w') (fastq_dir, q.1) = None \/
              lookup_path (fs w') (fastq_dir, q.2) = None) as Hrest.
    { intros w0 Hgone Hrec. apply elem_of_cons in Hq as [->|Hq]; [|by eapply IH].
      assert (forall p, lookup_path (fs w0) p = None -> lookup_path (fs w') p = None)
        as Hkeep.
      { intros p Hp.
        pose proof (tidies_nothing_written (fun _ => True)
                      (verify_pairs fastq_dir rest) w0 p
                      (tidies_verify_pairs _ _ _ _ (fun _ _ => conj I I)) Hp) as Hnone.
        by rewrite Hrec in Hnone. }
      destruct Hgone as [H|H]; [left|right]; by apply Hkeep. }
    destruct (exists_file (fs w) (fastq_dir, file_pair.1)) eqn:Hex1;
      [destruct (exists_file (fs w) (fastq_dir, file_pair.2)) eqn:Hex2|];
      cbn [andb] in Hk.
    + apply bind_inv in Hk as (valid1 & w2 & [-> Hv1]%is_valid_inv & Hk).
      apply bind_inv in Hk as (valid2 & w3 & [-> Hv2]%is_valid_inv & Hk).
      destruct valid1, valid2; cbn [andb negb] in Hk.
      * by apply ret_inv in Hk as [[=] _].
      * apply bind_inv in Hk as (u & w4 & Hrm%remove_logged_gone & Hk).
        eapply Hrest; [|done]. by right.
      * apply bind_inv in Hk as (u & w4 & Hrm%remove_logged_gone & Hk).
        eapply Hrest; [|done]. by left.
      * apply bind_inv in Hk as (u & w4 & Hrm%remove_logged_gone & Hk).
        eapply Hrest; [|done]. by left.
    + apply exists_file_false in Hex2. eapply Hrest; [|done]. by right.
    + apply exists_file_false in Hex1. eapply Hrest; [|done]. by left.
Qed.

(** *** [verify_and_clean_downloads] *)

Lemma verify_and_clean_true fastq_dir srr_id is_paired w w' :
  verify_and_clean_downloads fastq_dir srr_id is_paired w = Done true w' ->
  valid_set (fs w') fastq_dir srr_id is_paired /\
  lookup_path (fs w') (marker_path fastq_dir srr_id)
    = lookup_path (fs w) (marker_path fastq_dir srr_id).
Proof.
  unfold verify_and_clean_downloads.
  intros (v & w1 & Hloop & Hk)%bind_inv.
  apply bind_inv in Hk as (u & w2 & Hclean & [<- ->]%ret_inv).
  cbn [negb] in Hclean. apply ret_inv in Hclean as [_ ->]. split.
  - unfold valid_set. destruct (truthy is_paired).
    + by apply verify_pairs_true in Hloop.
    + by apply verify_singles_true in Hloop.
  - assert (tidies (fun p => p.1 = fastq_dir /\ p.2 ∈ item_names srr_id is_paired)
              (fun _ => False)
              (if truthy is_paired
               then verify_pairs fastq_dir (paired_patterns srr_id)
               else verify_singles fastq_dir (single_patterns srr_id))) as Htidy.
    { unfold item_names. destruct (truthy is_paired) eqn:Hp.
      - apply tidies_verify_pairs. intros q Hq.
        destruct (paired_names_in srr_id q Hq) as [H1 H2]. by repeat split.
      - apply tidies_verify_singles. intros n Hn. by split. }
    specialize (Htidy w). rewrite Hloop in Htidy. cbn [world_of] in Htidy.
    eapply steps_frame; [exact Htidy| |tauto].
    intros [_ Hn]. by apply marker_not_data in Hn.
Qed.

Lemma verify_and_clean_false fastq_dir srr_id is_paired w w' :
  verify_and_clean_downloads fastq_dir srr_id is_paired w = Done false w' ->
  lookup_path (fs w') (marker_path fastq_dir srr_id) = None /\
  no_set_left (fs w') fastq_dir srr_id is_paired.
Proof.
  unfold verify_and_clean_downloads.
  intros (v & w1 & Hloop & Hk)%bind_inv.
  apply bind_inv in Hk as (u & w2 & Hclean & [<- <-]%ret_inv).
  cbn [negb] in Hclean.
  apply bind_inv in Hclean as (present & w3 & [-> ->]%os_path_exists_inv & Hclean).
  assert (lookup_path (fs w') (marker_path fastq_dir srr_id) = None /\
          forall p, lookup_path (fs w1) p = None -> lookup_path (fs w') p = None)
    as [Hmarker Hkeep].
  { destruct (exists_file (fs w1) (marker_path fastq_dir srr_id)) eqn:Hex.
    - split; [by eapply remove_logged_gone|]. intros p Hp.
      pose proof (tidies_nothing_written (fun _ => True)
                    (remove_logged (marker_path fastq_dir srr_id)) w1 p
                    (tidies_remove_logged _ _ _ I) Hp) as Hnone.
      by rewrite Hclean in Hnone.
    - apply ret_inv in Hclean as [_ <-]. split; [by apply exists_file_false|done]. }
  split; [done|]. unfold no_set_left. destruct (truthy is_paired).
  - intros q Hq. destruct (verify_pairs_false _ _ _ _ Hloop q Hq) as [H|H];
      [left|right]; by apply Hkeep.
  - intros n Hn. apply Hkeep. by eapply verify_singles_false.
Qed.

Lemma exists_nonempty_inv p w b w' :
  exists_nonempty p w = Done b w' ->
  w' = w /\
  b = match lookup_path (fs w) p with
      | Some f => (0 <? st_size f)%nat
      | None => false
      end.
Proof.
  unfold exists_nonempty.
  intros [(w1 & [-> H1]%os_path_exists_inv & Hk) | (-> & [-> H1]%os_path_exists_inv)]
    %and_then_inv.
  - apply bind_inv in Hk as (size & w2 & Hsize & [-> ->]%ret_inv).
    unfold os_path_getsize in Hsize. apply observe_inv in Hsize as [-> Hsize].
    unfold getsize in Hsize. destruct (lookup_path (fs w) p); [|done].
    by injection Hsize as <-.
  - split; [done|]. symmetry in H1. apply exists_file_false in H1. by rewrite H1.
Qed.

Lemma exists_nonempty_returns p w :
  exists_nonempty p w =
  Done (match lookup_path (fs w) p with
        | Some f => (0 <? st_size f)%nat
        | None => false
        end) w.
Proof.
  unfold exists_nonempty, and_then, os_path_exists, os_path_getsize, observe, getsize,
    exists_file, mbind, M_bind.
  destruct (lookup_path (fs w) p) as [f|] eqn:Hp.
  - rewrite bool_decide_eq_true_2 by eauto. cbn. by rewrite Hp.
  - rewrite bool_decide_eq_false_2; [done|]. by intros [? [=]].
Qed.

Lemma blank_not_nonempty fs p :
  blank fs p ->
  match lookup_path fs p with
  | Some f => (0 <? st_size f)%nat
  | None => false
  end = false.
Proof. unfold blank. destruct (lookup_path fs p); [|done]. by intros ->. Qed.

Lemma write_file_inv p f w u w' :
  write_file p f w = Done u w' ->
  exists dir, fs w !! p.1 = Some dir /\ fs w' = <[p.1 := <[p.2 := f]> dir]> (fs w).
Proof.
  unfold write_file. destruct (fs w !! p.1) as [dir|]; [|done].
  intros [= _ <-]. eauto.
Qed.

Lemma remove_quiet_frame p q w u w' :
  remove_quiet p w = Done u w' -> q <> p ->
  lookup_path (fs w') q = lookup_path (fs w) q.
Proof.
  intros Hrm Hne.
  pose proof (tidies_remove_quiet (fun x => x = p) (fun _ => False) p eq_refl w) as Ht.
  rewrite Hrm in Ht. cbn [world_of] in Ht. eapply steps_frame; [exact Ht|done|tauto].
Qed.

Lemma remove_logged_frame p q w u w' :
  remove_logged p w = Done u w' -> q <> p ->
  lookup_path (fs w') q = lookup_path (fs w) q.
Proof.
  intros Hrm Hne.
  pose proof (tidies_remove_logged (fun x => x = p) (fun _ => False) p eq_refl w) as Ht.
  rewrite Hrm in Ht. cbn [world_of] in Ht. eapply steps_frame; [exact Ht|done|tauto].
Qed.

Lemma remove_logged_returns p w : exists w', remove_logged p w = Done tt w'.
Proof.
  unfold remove_logged, try_except, os_remove.
  destruct (fs w !! p.1) as [d|]; [destruct (d !! p.2)|]; cbn; eauto.
Qed.

(** *** What the probe loops return *)

Lemma probe_singles_inv fastq_dir marker_file patterns w b w' :
  (forall n, n ∈ patterns -> (fastq_dir, n) <> marker_file) ->
  probe_singles fastq_dir marker_file patterns w = Done b w' ->
  if b
  then lookup_path (fs w') marker_file = Some completion_marker /\
       exists n, n ∈ patterns /\ is_valid_fastq_file (fs w') (fastq_dir, n) = Ok true
  else lookup_path (fs w') marker_file = lookup_path (fs w) marker_file.
Proof.
  revert w. induction patterns as [|pattern rest IH]; intros w Hne; cbn [probe_singles].
  - by intros [-> ->]%ret_inv.
  - assert (forall w0, lookup_path (fs w0) marker_file = lookup_path (fs w) marker_file ->
              probe_singles fastq_dir marker_file rest w0 = Done b w' ->
              if b
              then lookup_path (fs w') marker_file = Some completion_marker /\
                   exists n, n ∈ pattern :: rest /\
                             is_valid_fastq_file (fs w') (fastq_dir, n) = Ok true
              else lookup_path (fs w') marker_file = lookup_path (fs w) marker_file)
      as Hrest.
    { intros w0 Hm Hrec. apply IH in Hrec; [|intros; apply Hne; by right].
      destruct b; [|by rewrite Hrec].
      destruct Hrec as (? & n & Hn & Hv). split; [done|]. exists n.
      split; [by right|done]. }
    intros (present & w1 & [-> ->]%exists_nonempty_inv & Hk)%bind_inv.
    destruct (match lookup_path _ _ with Some _ => _ | None => _ end); [|by eapply Hrest].
    apply bind_inv in Hk as (valid & w2 & [-> Hv]%is_valid_inv & Hk). destruct valid.
    + apply bind_inv in Hk as (u & w3 & Hw & Hk).
      apply write_file_inv in Hw as (dir & Hdir & Hfs).
      apply ret_inv in Hk as [-> <-].
      rewrite Hfs. split; [apply lookup_path_write_eq|].
      exists pattern. split; [by left|]. rewrite <- Hv. apply is_valid_frame.
      apply lookup_path_write_ne; [done|]. apply Hne. by left.
    + apply bind_inv in Hk as (u & w3 & Hrm & Hk). eapply Hrest; [|done].
      eapply remove_quiet_frame; [done|]. intros Heq. eapply Hne; [by left|done].
Qed.

Lemma probe_pairs_inv fastq_dir marker_file patterns w b w' :
  (forall q, q ∈ patterns ->
     (fastq_dir, q.1) <> marker_file /\ (fastq_dir, q.2) <> marker_file) ->
  probe_pairs fastq_dir marker_file patterns w = Done b w' ->
  if b
  then lookup_path (fs w') marker_file = Some completion_marker /\
       exists q, q ∈ patterns /\
                 is_valid_fastq_file (fs w') (fastq_dir, q.1) = Ok true /\
                 is_valid_fastq_file (fs w') (fastq_dir, q.2) = Ok true
  else lookup_path (fs w') marker_file = lookup_path (fs w) marker_file.
Proof.
  revert w. induction patterns as [|pattern_pair rest IH]; intros w Hne;
    cbn [probe_pairs].
  - by intros [-> ->]%ret_inv.
  - assert (forall w0, lookup_path (fs w0) marker_file = lookup_path (fs w) marker_file ->
              probe_pairs fastq_dir marker_file rest w0 = Done b w' ->
              if b
              then lookup_path (fs w') marker_file = Some completion_marker /\
                   exists q, q ∈ pattern_pair :: rest /\
                     is_valid_fastq_file (fs w') (fastq_dir, q.1) = Ok true /\
                     is_valid_fastq_file (fs w') (fastq_dir, q.2) = Ok true
              else lookup_path (fs w') marker_file = lookup_path (fs w) marker_file)
      as Hrest.
    { intros w0 Hm Hrec. apply IH in Hrec; [|intros; apply Hne; by right].
      destruct b; [|by rewrite Hrec].
      destruct Hrec as (? & q & Hq & Hv). split; [done|]. exists q.
      split; [by right|done]. }
    destruct (Hne pattern_pair) as [Hne1 Hne2]; [by left|].
    intros (present & w1 & Hpresent & Hk)%bind_inv.
    assert (w1 = w) as ->.
    { apply and_then_inv in Hpresent
        as [(w2 & [-> _]%exists_nonempty_inv & [-> _]%exists_nonempty_inv)
           | (_ & [-> _]%exists_nonempty_inv)]; done. }
    destruct present; [|by eapply Hrest].
    apply bind_inv in Hk as (valid & w2 & Hvalid & Hk).
    destruct valid.
    + apply and_then_inv in Hvalid
        as [(w3 & [-> Hv1]%is_valid_inv & [-> Hv2]%is_valid_inv) | ([=] & _)].
      apply bind_inv in Hk as (u & w3 & Hw & Hk).
      apply write_file_inv in Hw as (dir & Hdir & Hfs).
      apply ret_inv in Hk as [-> <-].
      rewrite Hfs. split; [apply lookup_path_write_eq|].
      exists pattern_pair. split; [by left|].
      split; [rewrite <- Hv1|rewrite <- Hv2]; apply is_valid_frame;
        by apply lookup_path_write_ne.
    + assert (w2 = w) as ->.
      { apply and_then_inv in Hvalid
          as [(w3 & [-> _]%is_valid_inv & [-> _]%is_valid_inv)
             | (_ & [-> _]%is_valid_inv)]; done. }
      apply bind_inv in Hk as (valid1 & w3 & [-> _]%is_valid_inv & Hk).
      apply bind_inv in Hk as (u1 & w3 & Hrm1 & Hk).
      apply bind_inv in Hk as (valid2 & w4 & [-> _]%is_valid_inv & Hk).
      apply bind_inv in Hk as (u2 & w5 & Hrm2 & Hk).
      eapply Hrest; [|done].
      assert (lookup_path (fs w3) marker_file = lookup_path (fs w) marker_file) as H3.
      { destruct valid1; cbn [negb] in Hrm1.
        - by apply ret_inv in Hrm1 as [_ ->].
        - by eapply remove_quiet_frame. }
      rewrite <- H3. destruct valid2; cbn [negb] in Hrm2.
      * by apply ret_inv in Hrm2 as [_ ->].
      * by eapply remove_quiet_frame.
Qed.

Lemma data_is_not_marker srr_id fastq_dir paired n :
  n ∈ item_names srr_id paired -> (fastq_dir, n) <> marker_path fastq_dir srr_id.
Proof. intros Hn [= ->]. by eapply marker_not_data. Qed.

(** *** [check_existing_files]: result, marker and files *)

Lemma probe_marker_after srr_id out_dir paired w b w' :
  check_existing_files srr_id out_dir paired w = Done b w' ->
  exists_file (fs w') (item_marker srr_id out_dir) = b.
Proof.
  unfold check_existing_files. fold (item_marker srr_id out_dir).
  intros (marked & w1 & [-> ->]%os_path_exists_inv & Hk)%bind_inv.
  destruct (exists_file (fs w) (item_marker srr_id out_dir)) eqn:Hmarked.
  - apply bind_inv in Hk as (verified & w2 & Hv & Hk). destruct verified.
    + apply ret_inv in Hk as [-> <-].
      apply verify_and_clean_true in Hv as [_ Hm]. unfold exists_file, item_marker.
      rewrite Hm. exact Hmarked.
    + apply bind_inv in Hk as (u & w3 & Hrm%remove_quiet_gone & [-> <-]%ret_inv).
      by apply exists_file_false.
  - apply bind_inv in Hk as (present & w2 & Hp & Hk).
    unfold os_path_exists_dir in Hp. apply observe_inv in Hp as [-> _].
    destruct present; [|by apply ret_inv in Hk as [-> <-]].
    assert (if b
            then lookup_path (fs w') (item_marker srr_id out_dir) = Some completion_marker
            else lookup_path (fs w') (item_marker srr_id out_dir)
                 = lookup_path (fs w) (item_marker srr_id out_dir)) as Hres.
    { destruct (truthy paired) eqn:Hpaired.
      - apply probe_pairs_inv in Hk.
        + destruct b; [by destruct Hk|done].
        + intros q Hq. assert (paired = Some true) as Hpd by by destruct paired as [[]|].
          destruct (paired_names_in srr_id q Hq) as [H1 H2].
          split; by eapply data_is_not_marker.
      - apply probe_singles_inv in Hk.
        + destruct b; [by destruct Hk|done].
        + intros n Hn. eapply (data_is_not_marker _ _ paired).
          unfold item_names. by rewrite Hpaired. }
    destruct b.
    + apply exists_file_true. rewrite Hres. eauto.
    + apply exists_file_false. rewrite Hres. by apply exists_file_false.
Qed.

Lemma probe_true_valid_set srr_id out_dir paired w w' :
  check_existing_files srr_id out_dir paired w = Done true w' ->
  valid_set (fs w') (Py.path_join out_dir srr_id) srr_id paired.
Proof.
  unfold check_existing_files. fold (item_marker srr_id out_dir).
  intros (marked & w1 & [-> ->]%os_path_exists_inv & Hk)%bind_inv.
  destruct (exists_file (fs w) (item_marker srr_id out_dir)) eqn:Hmarked.
  - apply bind_inv in Hk as (verified & w2 & Hv & Hk). destruct verified.
    + apply ret_inv in Hk as [_ <-]. by apply verify_and_clean_true in Hv as [Hset _].
    + by apply bind_inv in Hk as (u & w3 & _ & [[=] _]%ret_inv).
  - apply bind_inv in Hk as (present & w2 & Hp & Hk).
    unfold os_path_exists_dir in Hp. apply observe_inv in Hp as [-> _].
    destruct present; [|by apply ret_inv in Hk as [[=] _]].
    unfold valid_set. destruct (truthy paired) eqn:Hpaired.
    + apply probe_pairs_inv in Hk; [by destruct Hk|].
      intros q Hq. destruct (paired_names_in srr_id q Hq) as [H1 H2].
      split; by eapply data_is_not_marker.
    + apply probe_singles_inv in Hk; [by destruct Hk|].
      intros n Hn. eapply (data_is_not_marker _ _ paired).
      unfold item_names. by rewrite Hpaired.
Qed.

(** *** Nothing to probe *)

Lemma probe_singles_blank fastq_dir marker_file patterns w :
  (forall n, n ∈ patterns -> blank (fs w) (fastq_dir, n)) ->
  probe_singles fastq_dir marker_file patterns w = Done false w.
Proof.
  induction patterns as [|pattern rest IH]; intros Hblank; cbn [probe_singles]; [done|].
  rewrite (bind_Done _ _ _ _ _ (exists_nonempty_returns _ _)).
  rewrite blank_not_nonempty by (apply Hblank; by left).
  apply IH. intros n Hn. apply Hblank. by right.
Qed.

Lemma probe_pairs_blank fastq_dir marker_file patterns w :
  (forall q, q ∈ patterns ->
     blank (fs w) (fastq_dir, q.1) \/ blank (fs w) (fastq_dir, q.2)) ->
  probe_pairs fastq_dir marker_file patterns w = Done false w.
Proof.
  induction patterns as [|pattern_pair rest IH]; intros Hblank; cbn [probe_pairs]; [done|].
  assert (and_then (exists_nonempty (fastq_dir, pattern_pair.1))
            (exists_nonempty (fastq_dir, pattern_pair.2)) w = Done false w) as Hnone.
  { unfold and_then. rewrite (bind_Done _ _ _ _ _ (exists_nonempty_returns _ _)).
    destruct (Hblank pattern_pair) as [H1|H2]; [by left| |].
    - by rewrite blank_not_nonempty.
    - destruct (match lookup_path _ (fastq_dir, pattern_pair.1) with
                | Some _ => _ | None => _ end); [|done].
      rewrite exists_nonempty_returns. by rewrite blank_not_nonempty. }
  rewrite (bind_Done _ _ _ _ _ Hnone). apply IH. intros q Hq. apply Hblank. by right.
Qed.

(** X5: With no marker and no non-empty candidate file of the layout,
    check_existing_files returns False and changes nothing. *)
Theorem probe_nothing_there srr_id out_dir paired w :
  lookup_path (fs w) (item_marker srr_id out_dir) = None ->
  nothing_to_probe (fs w) (Py.path_join out_dir srr_id) srr_id paired ->
  check_existing_files srr_id out_dir paired w = Done false w.
Proof.
  intros Hmarker Hblank. unfold check_existing_files. fold (item_marker srr_id out_dir).
  apply exists_file_false in Hmarker.
  rewrite (bind_Done _ _ _ false w) by (unfold os_path_exists, observe; by rewrite Hmarker).
  rewrite (bind_Done _ _ _ (exists_dir (fs w) (Py.path_join out_dir srr_id)) w)
    by reflexivity.
  destruct (exists_dir _ _); [|done].
  unfold nothing_to_probe in Hblank. destruct (truthy paired).
  - by apply probe_pairs_blank.
  - by apply probe_singles_blank.
Qed.

(** *** The probe, run again *)

Lemma is_valid_returns p w b :
  is_valid_fastq_file (fs w) p = Ok b -> is_valid p w = Done b w.
Proof. intros H. unfold is_valid, observe. by rewrite H. Qed.

Lemma os_path_exists_returns p w :
  os_path_exists p w = Done (exists_file (fs w) p) w.
Proof. reflexivity. Qed.

Lemma remove_logged_calm p w : calm (fs w) -> calm (fs (world_of (remove_logged p w))).
Proof.
  apply steps_calm with (R := fun _ => True) (W := fun _ => False).
  by apply tidies_remove_logged.
Qed.

Lemma verify_singles_finds fastq_dir single_files w n :
  calm (fs w) -> n ∈ single_files ->
  is_valid_fastq_file (fs w) (fastq_dir, n) = Ok true ->
  exists w', verify_singles fastq_dir single_files w = Done true w'.
Proof.
  revert w. induction single_files as [|file_name rest IH]; intros w Hcalm Hn Hvalid.
  - by apply elem_of_nil in Hn.
  - cbn [verify_singles]. rewrite (bind_Done _ _ _ _ _ (os_path_exists_returns _ _)).
    destruct (exists_file (fs w) (fastq_dir, file_name)) eqn:Hex.
    + destruct (Hcalm (fastq_dir, file_name)) as [b Hb].
      rewrite (bind_Done _ _ _ _ _ (is_valid_returns _ _ _ Hb)). destruct b; [eauto|].
      assert (n <> file_name) as Hne by (intros ->; congruence).
      destruct (remove_logged_returns (fastq_dir, file_name) w) as [w1 Hrm].
      rewrite (bind_Done _ _ _ _ _ Hrm). apply IH.
      * pose proof (remove_logged_calm (fastq_dir, file_name) w Hcalm) as Hc.
        by rewrite Hrm in Hc.
      * by apply elem_of_cons in Hn as [->|Hn].
      * rewrite <- Hvalid. apply is_valid_frame.
        eapply remove_logged_frame; [done|]. by intros [= ->].
    + assert (n <> file_name) as Hne.
      { intros ->. apply is_valid_present in Hvalid. apply exists_file_false in Hex.
        rewrite Hex in Hvalid. by destruct Hvalid. }
      apply IH; [done| |done]. by apply elem_of_cons in Hn as [->|Hn].
Qed.

Lemma verify_pairs_finds fastq_dir file_pairs w q0 :
  calm (fs w) -> q0 ∈ file_pairs ->
  is_valid_fastq_file (fs w) (fastq_dir, q0.1) = Ok true ->
  is_valid_fastq_file (fs w) (fastq_dir, q0.2) = Ok true ->
  exists w', verify_pairs fastq_dir file_pairs w = Done true w'.
Proof.
  revert w. induction file_pairs as [|file_pair rest IH]; intros w Hcalm Hq Hv1 Hv2.
  - by apply elem_of_nil in Hq.
  - cbn [verify_pairs].
    assert (and_then (os_path_exists (fastq_dir, file_pair.1))
              (os_path_exists (fastq_dir, file_pair.2)) w
            = Done (exists_file (fs w) (fastq_dir, file_pair.1)
                    && exists_file (fs w) (fastq_dir, file_pair.2)) w) as Hpresent.
    { unfold and_then. rewrite (bind_Done _ _ _ _ _ (os_path_exists_returns _ _)).
      by destruct (exists_file (fs w) (fastq_dir, file_pair.1)). }
    rewrite (bind_Done _ _ _ _ _ Hpresent).
    assert (forall p w1 u,
              is_valid_fastq_file (fs w) p = Ok false ->
              remove_logged p w = Done u w1 ->
              q0 ∈ rest ->
              exists w', verify_pairs fastq_dir rest w1 = Done true w') as Hafter.
    { intros p w1 u Hbad Hrm Hrest.
      assert (forall x, is_valid_fastq_file (fs w) x = Ok true ->
                is_valid_fastq_file (fs w1) x = Ok true) as Hkeep.
      { intros x Hx. rewrite <- Hx. apply is_valid_frame.
        eapply remove_logged_frame; [done|]. intros ->. congruence. }
      apply IH; [|done|by apply Hkeep..].
      pose proof (remove_logged_calm p w Hcalm) as Hc. by rewrite Hrm in Hc. }
    destruct (exists_file (fs w) (fastq_dir, file_pair.1)
              && exists_file (fs w) (fastq_dir, file_pair.2)) eqn:Hex.
    + destruct (Hcalm (fastq_dir, file_pair.1)) as [b1 Hb1].
      destruct (Hcalm (fastq_dir, file_pair.2)) as [b2 Hb2].
      rewrite (bind_Done _ _ _ _ _ (is_valid_returns _ _ _ Hb1)).
      rewrite (bind_Done _ _ _ _ _ (is_valid_returns _ _ _ Hb2)).
      destruct b1, b2; cbn [andb negb]; [eauto|..].
      * destruct (remove_logged_returns (fastq_dir, file_pair.2) w) as [w1 Hrm].
        rewrite (bind_Done _ _ _ _ _ Hrm). apply (Hafter _ _ _ Hb2 Hrm).
        apply elem_of_cons in Hq as [->|Hq]; [congruence|done].
      * destruct (remove_logged_returns (fastq_dir, file_pair.1) w) as [w1 Hrm].
        rewrite (bind_Done _ _ _ _ _ Hrm). apply (Hafter _ _ _ Hb1 Hrm).
        apply elem_of_cons in Hq as [->|Hq]; [congruence|done].
      * destruct (remove_logged_returns (fastq_dir, file_pair.1) w) as [w1 Hrm].
        rewrite (bind_Done _ _ _ _ _ Hrm). apply (Hafter _ _ _ Hb1 Hrm).
        apply elem_of_cons in Hq as [->|Hq]; [congruence|done].
    + apply IH; [done| |done..].
      apply elem_of_cons in Hq as [->|Hq]; [|done].
      apply is_valid_present, exists_file_true in Hv1.
      apply is_valid_present, exists_file_true in Hv2.
      rewrite Hv1, Hv2 in Hex. done.
Qed.

(** X4: In a file system where the validator raises on no path, a probe that
    answered True answers True again when it is repeated on the world it
    left. *)
Theorem probe_again_succeeds srr_id out_dir paired w w' :
  calm (fs w) ->
  check_existing_files srr_id out_dir paired w = Done true w' ->
  exists w'', check_existing_files srr_id out_dir paired w' = Done true w''.
Proof.
  intros Hcalm Hprobe.
  pose proof (probe_marker_after _ _ _ _ _ _ Hprobe) as Hmarker.
  pose proof (probe_true_valid_set _ _ _ _ _ Hprobe) as Hset.
  assert (calm (fs w')) as Hcalm'.
  { pose proof (tidies_check_existing_files srr_id out_dir paired w) as Ht.
    rewrite Hprobe in Ht. by eapply steps_calm. }
  unfold check_existing_files. fold (item_marker srr_id out_dir).
  rewrite (bind_Done _ _ _ true w')
    by (unfold os_path_exists, observe; by rewrite Hmarker).
  assert (exists w'', verify_and_clean_downloads (Py.path_join out_dir srr_id) srr_id
                        paired w' = Done true w'') as [w'' Hv].
  { unfold verify_and_clean_downloads. unfold valid_set in Hset.
    destruct (truthy paired).
    - destruct Hset as (q & Hq & H1 & H2).
      destruct (verify_pairs_finds _ _ _ _ Hcalm' Hq H1 H2) as [w'' Hloop].
      exists w''. by rewrite (bind_Done _ _ _ _ _ Hloop).
    - destruct Hset as (n & Hn & H1).
      destruct (verify_singles_finds _ _ _ _ Hcalm' Hn H1) as [w'' Hloop].
      exists w''. by rewrite (bind_Done _ _ _ _ _ Hloop). }
  exists w''. by rewrite (bind_Done _ _ _ _ _ Hv).
Qed.

(** *** What the probe leaves alone *)

(** X1: Whatever check_existing_files finds, it starts no program, creates
    and removes no directory, leaves every file other than the item's
    own data files and marker as it was, and creates no file except the
    item's completion marker. *)
Theorem probe_touches_only_the_item srr_id out_dir paired w :
  let w' := world_of (check_existing_files srr_id out_dir paired w) in
  trace w' = trace w /\
  (forall d, is_Some (fs w' !! d) <-> is_Some (fs w !! d)) /\
  (forall p, ~ item_data srr_id out_dir paired p -> p <> item_marker srr_id out_dir ->
             lookup_path (fs w') p = lookup_path (fs w) p) /\
  (forall p, p <> item_marker srr_id out_dir ->
             lookup_path (fs w) p = None -> lookup_path (fs w') p = None).
Proof.
  intros w'. subst w'.
  pose proof (tidies_check_existing_files srr_id out_dir paired w) as Ht.
  split; [apply quiet_check_existing_files|]. split; [|split].
  - intros d. by eapply steps_dirs.
  - intros p Hdata Hmarker. eapply steps_frame; [exact Ht|tauto|done].
  - intros p Hmarker Hnone. by eapply steps_no_new.
Qed.

Lemma try_finally_inv {A} (m : M A) (f : M unit) w a w' :
  try_finally m f w = Done a w' ->
  exists w1 u, m w = Done a w1 /\ f w1 = Done u w'.
Proof.
  unfold try_finally. destruct (m w) as [a1 w1|e w1].
  - destruct (f w1) as [u w2|e w2] eqn:Hf; [|done]. intros [= <- <-]. eauto.
  - by destruct (f w1).
Qed.

(** *** The worker's outcome *)

(** X7: When download_worker returns, it returns the ID it was given
    together with one of the three tags skipped, success and failed. *)
Theorem worker_outcome_tags env srr_id out_dir threads amalgkit_path meta force
  w id tag w' :
  download_worker env srr_id out_dir threads amalgkit_path meta force w
    = Done (id, tag) w' ->
  id = srr_id /\ (tag = "skipped" \/ tag = "success" \/ tag = "failed").
Proof.
  unfold download_worker.
  intros (existing & w1 & _ & Hk)%bind_inv. destruct existing.
  - apply ret_inv in Hk as [[= -> ->] _]. auto.
  - apply bind_inv in Hk as (success & w2 & _ & Hk).
    destruct success; apply ret_inv in Hk as [[= -> ->] _]; auto.
Qed.

(** X8: A worker that reports skipped ran without the force flag, started no
    program, and leaves the completion marker on disk beside a single-
    end file that passes the validator. *)
Theorem skipped_is_verified env srr_id out_dir threads amalgkit_path meta force
  w id w' :
  download_worker env srr_id out_dir threads amalgkit_path meta force w
    = Done (id, "skipped") w' ->
  force = false /\
  trace w' = trace w /\
  exists_file (fs w') (item_marker srr_id out_dir) = true /\
  valid_set (fs w') (Py.path_join out_dir srr_id) srr_id (Some false).
Proof.
  unfold download_worker.
  intros (existing & w1 & Hprobe & Hk)%bind_inv. destruct existing.
  - apply ret_inv in Hk as [_ <-].
    apply and_then_inv in Hprobe as [(w2 & [Hforce ->]%ret_inv & Hprobe) | ([=] & _)].
    split; [by destruct force|]. split; [|split].
    + pose proof (quiet_check_existing_files srr_id out_dir (Some false) w) as Hq.
      by rewrite Hprobe in Hq.
    + by eapply probe_marker_after.
    + by eapply probe_true_valid_set.
  - apply bind_inv in Hk as (success & w2 & _ & Hk).
    destruct success; by apply ret_inv in Hk as [[=] _].
Qed.

(** *** The scratch ID file *)

(** X10: When download_single_sra returns False, the scratch file
    <srr_id>.id it wrote for amalgkit getfastq is no longer in the item
    directory. *)
Theorem failed_download_leaves_no_id_file env srr_id out_dir threads amalgkit_path
  meta w w' :
  download_single_sra env srr_id out_dir threads amalgkit_path meta w = Done false w' ->
  lookup_path (fs w') (Py.path_join out_dir srr_id, srr_id +:+ ".id") = None.
Proof.
  unfold download_single_sra.
  intros (u1 & w1 & _ & Hk)%bind_inv.
  apply bind_inv in Hk as (u2 & w2 & _ & Hk).
  apply bind_inv in Hk as (is_paired & w3 & _ & Hk).
  apply bind_inv in Hk as (found & w4 & _ & Hk).
  destruct found; [by apply ret_inv in Hk as [[=] _]|].
  apply bind_inv in Hk as (direct & w5 & _ & Hk).
  destruct direct; [by apply ret_inv in Hk as [[=] _]|].
  apply bind_inv in Hk as (ebi & w6 & _ & Hk).
  destruct ebi; [by apply ret_inv in Hk as [[=] _]|].
  apply bind_inv in Hk as (ncbi & w7 & _ & Hk).
  destruct ncbi; [by apply ret_inv in Hk as [[=] _]|].
  apply bind_inv in Hk as (u3 & w8 & _ & Hk).
  apply try_finally_inv in Hk as (w9 & u4 & _ & Hclean).
  apply bind_inv in Hclean as (present & w10 & [-> ->]%os_path_exists_inv & Hclean).
  destruct (exists_file (fs w9) _) eqn:Hex.
  - by eapply remove_quiet_gone.
  - apply ret_inv in Hclean as [_ ->]. by apply exists_file_false.
Qed.

Section Raising.

Context (P : pyclass -> Prop).

Lemma raises_only_ret {A} (a : A) : raises_only P (mret a).
Proof. by intros w e w'. Qed.

Lemma raises_only_bind {A B} (m : M A) (k : A -> M B) :
  raises_only P m -> (forall a, raises_only P (k a)) -> raises_only P (m ≫= k).
Proof.
  intros Hm Hk w e w'. unfold mbind, M_bind.
  destruct (m w) as [a w1|e1 w1] eqn:Hmw.
  - apply Hk.
  - intros [= <- <-]. by eapply Hm.
Qed.

Lemma raises_only_try_except {A} (m : M A) cs (h : pyclass -> M A) :
  raises_only P m -> (forall e, raises_only P (h e)) ->
  raises_only P (try_except m cs h).
Proof.
  intros Hm Hh w e w'. unfold try_except.
  destruct (m w) as [a w1|e1 w1] eqn:Hmw; [done|].
  destruct (caught_by cs e1).
  - apply Hh.
  - intros [= <- <-]. by eapply Hm.
Qed.

Lemma raises_only_os_makedirs d : raises_only P (os_makedirs d).
Proof. intros w e w'. unfold os_makedirs. by destruct (fs w !! d). Qed.

Lemma raises_only_fix_directory_permissions d :
  raises_only P (fix_directory_permissions d).
Proof.
  unfold fix_directory_permissions. apply raises_only_try_except.
  - apply raises_only_bind; [apply raises_only_os_makedirs|]. intros ?.
    apply raises_only_ret.
  - intros ?. apply raises_only_ret.
Qed.

Hypothesis from_run : forall e, run_failure e -> P e.

Lemma raises_only_subprocess_run env text cmd :
  raises_only P (subprocess_run env text cmd).
Proof.
  intros w e w'. unfold subprocess_run.
  destruct (subprocess env cmd w) as [x|rc fs'|rc fs']; [|done|].
  - intros [= <- <-]. apply from_run. left. by exists x.
  - destruct text; [|done]. intros [= <- <-]. apply from_run. by right.
Qed.

Lemma raises_only_not_found : P FileNotFoundError.
Proof. apply from_run. left. by exists NotFound. Qed.

Lemma raises_only_os_listdir d : raises_only P (os_listdir d).
Proof.
  intros w e w'. unfold os_listdir, observe.
  destruct (fs w !! d); [done|]. intros [= <- <-]. apply raises_only_not_found.
Qed.

Lemma raises_only_write_file p f : raises_only P (write_file p f).
Proof.
  intros w e w'. unfold write_file.
  destruct (fs w !! p.1); [done|]. intros [= <- <-]. apply raises_only_not_found.
Qed.

End Raising.

Lemma run_failure_Exception e : run_failure e -> isinstance e Exception = true.
Proof. intros [[[] ->] | ->]; reflexivity. Qed.

(** A catch-all [except Exception] around statements that raise what
    [subprocess.run] raises at worst always returns. *)
Lemma guarded_returns {A} (m : M A) (b : A) w :
  raises_only run_failure m ->
  exists a w', try_except m [Exception] (fun _ => mret b) w = Done a w'.
Proof.
  intros Hm. unfold try_except. destruct (m w) as [a w1|e w1] eqn:Hmw; [eauto|].
  rewrite caught_by_Exception, (run_failure_Exception e (Hm _ _ _ Hmw)). eauto.
Qed.

(** *** The legacy dump tool *)

Lemma fastq_dump_body_raises env srr_id out_dir :
  raises_only run_failure
    (let fastq_dir := Py.path_join out_dir srr_id in
     os_makedirs fastq_dir;;
     fix_directory_permissions fastq_dir;;
     split ← subprocess_run env true
       ["fastq-dump"; srr_id; "--outdir"; fastq_dir; "--gzip"; "--split-files"];
     returncode ←
       (if negb (bool_decide (split = 0%Z))
        then subprocess_run env true
               ["fastq-dump"; srr_id; "--outdir"; fastq_dir; "--gzip"]
        else mret split);
     if bool_decide (returncode = 0%Z) then
       listing ← os_listdir fastq_dir;
       let files := List.filter (fun f => Py.endswith f ".fastq.gz"
                                         || Py.endswith f ".fastq") listing in
       match files with
       | _ :: _ =>
           write_file (marker_path fastq_dir srr_id) completion_marker;;
           mret true
       | [] => mret false
       end
     else mret false).
Proof.
  cbv zeta.
  repeat first
    [ apply raises_only_ret
    | apply raises_only_os_makedirs
    | apply raises_only_fix_directory_permissions
    | by apply raises_only_subprocess_run
    | by apply raises_only_os_listdir
    | by apply raises_only_write_file
    | apply raises_only_bind; [|intros ?]
    | match goal with |- raises_only _ (if ?b then _ else _) => destruct b end
    | match goal with |- raises_only _ (match ?x with _ => _ end) => destruct x end ].
Qed.

(** X11: No exception leaves download_with_fastq_dump: whatever the programs
    and the files do, it returns True or False. *)
Theorem fastq_dump_always_returns env srr_id out_dir threads w :
  exists b w', download_with_fastq_dump env srr_id out_dir threads w = Done b w'.
Proof.
  unfold download_with_fastq_dump. apply guarded_returns. apply fastq_dump_body_raises.
Qed.

Lemma try_except_inv {A} (m : M A) cs (h : pyclass -> M A) w a w' :
  try_except m cs h w = Done a w' ->
  m w = Done a w' \/
  exists e w1, m w = Raised e w1 /\ caught_by cs e = true /\ h e w1 = Done a w'.
Proof.
  unfold try_except. destruct (m w) as [a1 w1|e w1]; [by left|].
  destruct (caught_by cs e) eqn:Hc; [|done]. right. eauto.
Qed.

Lemma subprocess_run_inv env text cmd w rc w' :
  subprocess_run env text cmd w = Done rc w' ->
  trace w' = trace w ++ [cmd].
Proof.
  unfold subprocess_run. destruct (subprocess env cmd w) as [x|rc1 fs1|rc1 fs1]; [done| |].
  - by intros [= <- <-].
  - destruct text; [done|]. by intros [= <- <-].
Qed.

Lemma os_listdir_inv d w names w' :
  os_listdir d w = Done names w' ->
  w' = w /\ exists dir, fs w !! d = Some dir /\
                        forall n, n ∈ names <-> is_Some (dir !! n).
Proof.
  unfold os_listdir. intros [-> Hl]%observe_inv. split; [done|].
  destruct (fs w !! d) as [dir|]; [|done]. injection Hl as <-. exists dir.
  split; [done|]. intros n. rewrite list_elem_of_fmap. split.
  - intros ([n' f] & -> & Hin). apply elem_of_map_to_list in Hin. eauto.
  - intros [f Hf]. exists (n, f). split; [done|]. by apply elem_of_map_to_list.
Qed.

Lemma os_makedirs_inv d w u w' :
  os_makedirs d w = Done u w' -> trace w' = trace w.
Proof.
  intros H. pose proof (quiet_os_makedirs d w) as Hq. by rewrite H in Hq.
Qed.

Lemma fix_directory_permissions_inv d w b w' :
  fix_directory_permissions d w = Done b w' -> trace w' = trace w.
Proof.
  intros H.
  assert (quiet (fix_directory_permissions d)) as Hq.
  { unfold fix_directory_permissions. repeat quiet_step. }
  specialize (Hq w). by rewrite H in Hq.
Qed.

(** X12: download_with_fastq_dump returns True only after writing the
    completion marker beside at least one file named *.fastq.gz or
    *.fastq, having started fastq-dump with --split-files and at most
    once more without it, and nothing else. *)
Theorem fastq_dump_true env srr_id out_dir threads w w' :
  download_with_fastq_dump env srr_id out_dir threads w = Done true w' ->
  let fastq_dir := Py.path_join out_dir srr_id in
  lookup_path (fs w') (marker_path fastq_dir srr_id) = Some completion_marker /\
  (exists name,
     (Py.endswith name ".fastq.gz" || Py.endswith name ".fastq") = true /\
     is_Some (lookup_path (fs w') (fastq_dir, name))) /\
  (trace w' = trace w ++ [dump_split_cmd srr_id fastq_dir] \/
   trace w' = trace w ++ [dump_split_cmd srr_id fastq_dir;
                          dump_plain_cmd srr_id fastq_dir]).
Proof.
  unfold download_with_fastq_dump.
  intros [Hbody | (e & w1 & _ & _ & [[=] _]%ret_inv)]%try_except_inv.
  cbv zeta in *. set (fastq_dir := Py.path_join out_dir srr_id) in *.
  apply bind_inv in Hbody as (u1 & w1 & Ht1%os_makedirs_inv & Hk).
  apply bind_inv in Hk as (u2 & w2 & Ht2%fix_directory_permissions_inv & Hk).
  apply bind_inv in Hk as (split & w3 & Ht3%subprocess_run_inv & Hk).
  apply bind_inv in Hk as (returncode & w4 & Hsecond & Hk).
  assert (trace w4 = trace w ++ [dump_split_cmd srr_id fastq_dir] \/
          trace w4 = trace w ++ [dump_split_cmd srr_id fastq_dir;
                                 dump_plain_cmd srr_id fastq_dir]) as Htrace.
  { destruct (negb (bool_decide (split = 0%Z))).
    - apply subprocess_run_inv in Hsecond as Ht4. right.
      rewrite Ht4, Ht3, Ht2, Ht1, <- app_assoc. done.
    - apply ret_inv in Hsecond as [_ ->]. left. by rewrite Ht3, Ht2, Ht1. }
  destruct (bool_decide (returncode = 0%Z)); [|by apply ret_inv in Hk as [[=] _]].
  apply bind_inv in Hk as (listing & w5 & [-> (dir & Hdir & Hnames)]%os_listdir_inv & Hk).
  destruct (List.filter _ listing) as [|name files] eqn:Hfiles;
    [by apply ret_inv in Hk as [[=] _]|].
  apply bind_inv in Hk as (u3 & w6 & Hw & [_ <-]%ret_inv).
  assert (trace w' = trace w4) as Htw.
  { pose proof (quiet_write_file (marker_path fastq_dir srr_id) completion_marker w4)
      as Hq. by rewrite Hw in Hq. }
  apply write_file_inv in Hw as (dir' & Hdir' & Hfs). cbn [fst snd marker_path] in *.
  rewrite Hdir in Hdir'. injection Hdir' as <-.
  assert (In name (List.filter (fun f => Py.endswith f ".fastq.gz"
                                         || Py.endswith f ".fastq") listing)) as Hin
    by (rewrite Hfiles; by left).
  apply filter_In in Hin as [Hlisted Hname].
  apply list_elem_of_In, Hnames in Hlisted as [f Hf].
  split; [|split].
  - rewrite Hfs. unfold lookup_path. cbn. rewrite lookup_insert_eq. cbn.
    apply lookup_insert_eq.
  - exists name. split; [done|]. rewrite Hfs. unfold lookup_path. cbn.
    rewrite lookup_insert_eq. cbn.
    destruct (decide (name = srr_id +:+ ".completed")) as [->|Hne].
    + rewrite lookup_insert_eq. eauto.
    + rewrite lookup_insert_ne by done. eauto.
  - by rewrite Htw.
Qed.

(** *** Start-up *)



Lemma raises_only_weaken {A} (P Q : pyclass -> Prop) (m : M A) :
  (forall e, P e -> Q e) -> raises_only P m -> raises_only Q m.
Proof. intros HPQ Hm w e w' H. apply HPQ. by eapply Hm. Qed.




(** *** Test mode *)

(** X18: With --test, main does nothing beyond its start-up checks: the
    world it leaves is the one the start-up leaves, and when the start-
    up returns main returns with status 0, whatever the input files are. *)
Theorem test_mode_downloads_nothing env args inp order w :
  args_test args = true ->
  world_of (main env args inp order w) = world_of (startup env w) /\
  (forall u w0, startup env w = Done u w0 -> main env args inp order w = Done 0%nat w0).
Proof.
  intros Htest. rewrite main_after_startup, Htest.
  destruct (startup env w) as [u w0|e w0]; split; try done.
  by intros ? ? [= <- <-].
Qed.

(** *** The counters, by outcome *)

Lemma tally_counts outcomes c :
  successful (tally c outcomes) = (successful c + count_tag "success" outcomes)%nat /\
  skipped (tally c outcomes) = (skipped c + count_tag "skipped" outcomes)%nat /\
  failed (tally c outcomes) = (failed c + count_failed outcomes)%nat.
Proof.
  revert c. induction outcomes as [|o outcomes IH]; intros c.
  - cbn. lia.
  - rewrite tally_cons. destruct (IH (count_outcome c o)) as (H1 & H2 & H3).
    rewrite H1, H2, H3. unfold count_tag, count_failed. cbn [List.filter].
    destruct o as [[id tag] w|e w]; cbn [count_outcome ended_well negb].
    + unfold count_result. repeat case_bool_decide; subst; try done; cbn; lia.
    + cbn. lia.
Qed.

(** X20: With at least one ID in the list and workers that raise nothing
    outside Exception, the result loop of main ends with successful and
    skipped equal to the number of workers that returned these tags,
    failed equal to the number of all other workers, and completed equal
    to the number of workers. *)
Theorem loop_counts_by_outcome env args meta total order w :
  (0 < total)%nat ->
  let outcomes := item_outcomes env args meta order w in
  forallb ordinary outcomes = true ->
  exists c w',
    as_completed_loop env args meta total order (mkCounters 0 0 0 0) w = Done c w' /\
    successful c = count_tag "success" outcomes /\
    skipped c = count_tag "skipped" outcomes /\
    failed c = count_failed outcomes /\
    completed c = length order.
Proof.
  intros Hpos outcomes Hord.
  pose proof (loop_spec env args meta total order (mkCounters 0 0 0 0) w Hpos) as Hloop.
  cbv zeta in Hloop. fold outcomes in Hloop. rewrite Hord in Hloop.
  eexists _, _. split; [exact Hloop|].
  destruct (tally_counts outcomes (mkCounters 0 0 0 0)) as (H1 & H2 & H3).
  rewrite H1, H2, H3, tally_completed. unfold outcomes.
  rewrite item_outcomes_length. done.
Qed.

(** *** The validator returns *)

Lemma rcatch_Exception_returns {A} (r : result A) (a : A) :
  (forall e, r = Exc e -> isinstance e Exception = true) ->
  exists x, rcatch r [Exception] (fun _ => Ok a) = Ok x.
Proof.
  intros He. destruct r as [x|e]; cbn [rcatch]; [eauto|].
  rewrite caught_by_Exception, (He e eq_refl). eauto.
Qed.

Lemma validate_returns fs p :
  (forall f, lookup_path fs p = Some f -> ordinary_io f) ->
  exists r, validate fs p = Ok r /\ is_valid_fastq_file fs p = Ok (accepted r).
Proof.
  intros Hio.
  assert (exists r, validate fs p = Ok r) as [r Hr].
  { destruct (lookup_path fs p) as [f|] eqn:Hf.
    - destruct (Hio f eq_refl) as (Hhead & Hopen & Hread).
      rewrite (validate_unfold fs p f Hf). apply rcatch_Exception_returns.
      intros e He.
      assert (forall cs, exists r0,
                rcatch (read_record f) cs (fun _ => Ok StreamUnreadable) = r0 /\
                forall e0, r0 = Exc e0 -> isinstance e0 Exception = true)
        as Hrecord.
      { intros cs. eexists. split; [reflexivity|]. intros e0. unfold read_record.
        destruct (text_open f) as [eo|] eqn:Ho.
        - cbn [rcatch]. destruct (caught_by cs eo); [done|].
          intros [= <-]. by apply Hopen.
        - destruct (read_lines 4 (text f) []) as [lines|er] eqn:Hl; [done|].
          destruct (isinstance er Exception) eqn:Her; [done|].
          cbn [rcatch]. rewrite (Hread er eq_refl) in Her. done. }
      destruct (st_size f <? 1024)%nat.
      + unfold sniff_header in He.
        destruct (file_header f) as [h|eh] eqn:Hh; cbn [rbind rcatch] in He.
        * destruct (has_error_marker _); cbn [rbind rcatch] in He; [done|].
          destruct (Py.endswith p.2 ".gz");
            [destruct (Hrecord [BadGzipFile; IOError; UnicodeDecodeError]) as (r0 & <- & H0)
            |destruct (Hrecord [IOError; UnicodeDecodeError]) as (r0 & <- & H0)];
            by apply H0.
        * rewrite caught_by_Exception, (Hhead eh eq_refl) in He. done.
      + cbn [rbind] in He.
        destruct (Py.endswith p.2 ".gz");
          [destruct (Hrecord [BadGzipFile; IOError; UnicodeDecodeError]) as (r0 & <- & H0)
          |destruct (Hrecord [IOError; UnicodeDecodeError]) as (r0 & <- & H0)];
          by apply H0.
    - exists ValidationFault. unfold validate, getsize. by rewrite Hf. }
  exists r. split; [done|]. unfold is_valid_fastq_file. by rewrite Hr.
Qed.

Lemma ordinary_files_calm fs :
  (forall p f, lookup_path fs p = Some f -> ordinary_io f) -> calm fs.
Proof.
  intros Hio p. destruct (validate_returns fs p (Hio p)) as (r & _ & Hv). eauto.
Qed.

(** *** What an accepted file looks like *)

Lemma read_lines_full stream lines :
  read_lines 4 stream [] = inl lines -> (4 <= length lines)%nat ->
  exists l1 l2 l3 l4 rest,
    stream = Line l1 :: Line l2 :: Line l3 :: Line l4 :: rest /\
    lines = [l1; l2; l3; l4] /\
    l1 <> EmptyString /\ l2 <> EmptyString /\ l3 <> EmptyString /\ l4 <> EmptyString.
Proof.
  intros Hread Hlen.
  destruct stream as [|[[|a1 s1]|e1] stream]; cbn in Hread;
    try (injection Hread as <-; cbn in Hlen; lia); try done.
  destruct stream as [|[[|a2 s2]|e2] stream]; cbn in Hread;
    try (injection Hread as <-; cbn in Hlen; lia); try done.
  destruct stream as [|[[|a3 s3]|e3] stream]; cbn in Hread;
    try (injection Hread as <-; cbn in Hlen; lia); try done.
  destruct stream as [|[[|a4 s4]|e4] stream]; cbn in Hread;
    try (injection Hread as <-; cbn in Hlen; lia); try done.
  injection Hread as <-. eexists _, _, _, _, _. repeat split; done.
Qed.

(** X22: A path is_valid_fastq_file accepts holds a file that opens as text
    and has four non-empty first lines, the first starting with @ and
    the third with +; when it is smaller than 1 KB its header is
    readable and shows no error marker. *)
Theorem accepted_file_shape fs p :
  is_valid_fastq_file fs p = Ok true ->
  exists f l1 l2 l3 l4 rest,
    lookup_path fs p = Some f /\
    text_open f = None /\
    text f = Line l1 :: Line l2 :: Line l3 :: Line l4 :: rest /\
    l1 <> EmptyString /\ l2 <> EmptyString /\ l3 <> EmptyString /\ l4 <> EmptyString /\
    Py.startswith l1 "@" = true /\
    Py.startswith l3 "+" = true /\
    reaches_structural_check f.
Proof.
  intros Hvalid.
  destruct (lookup_path fs p) as [f|] eqn:Hf; [|by rewrite is_valid_missing in Hvalid].
  unfold is_valid_fastq_file in Hvalid.
  rewrite (validate_unfold fs p f Hf) in Hvalid.
  assert (forall (r : result reason) cs x,
            rbind (rcatch r cs (fun _ => Ok x)) (fun r0 => Ok (accepted r0)) = Ok true ->
            x <> WellFormed -> r = Ok WellFormed) as Hcatch.
  { intros [r0|e] cs x; cbn [rcatch rbind].
    - unfold accepted. intros [= Hb%bool_decide_eq_true_1]. by subst.
    - destruct (caught_by cs e); cbn [rbind]; [|done].
      unfold accepted. intros [= Hb%bool_decide_eq_true_1]. done. }
  apply Hcatch in Hvalid; [|done].
  assert ((if (st_size f <? 1024)%nat then sniff_header f else Ok None) = Ok None /\
          read_record f = Ok WellFormed) as [Hsniff Hrecord].
  { destruct (if (st_size f <? 1024)%nat then sniff_header f else Ok None)
      as [[r|]|e] eqn:Hs; cbn [rbind] in Hvalid; [| |done].
    - exfalso. injection Hvalid as ->.
      destruct (st_size f <? 1024)%nat; [|done]. unfold sniff_header in Hs.
      destruct (file_header f) as [h|eh]; cbn [rbind rcatch] in Hs.
      + destruct (has_error_marker _); cbn [rcatch] in Hs; done.
      + destruct (caught_by _ eh); done.
    - split; [done|].
      assert (forall cs, rcatch (read_record f) cs (fun _ => Ok StreamUnreadable)
                         = Ok WellFormed -> read_record f = Ok WellFormed) as Hrec.
      { intros cs. destruct (read_record f) as [r|e]; cbn [rcatch]; [done|].
        by destruct (caught_by cs e). }
      destruct (Py.endswith p.2 ".gz"); by eapply Hrec. }
  unfold read_record in Hrecord.
  destruct (text_open f) as [eo|] eqn:Hopen; [done|].
  destruct (read_lines 4 (text f) []) as [lines|er] eqn:Hlines;
    [|by destruct (isinstance er Exception)].
  injection Hrecord as Hcheck. unfold check_lines in Hcheck.
  destruct (length lines <? 4)%nat eqn:Hlen; [done|]. apply Nat.ltb_ge in Hlen.
  destruct (read_lines_full _ _ Hlines Hlen)
    as (l1 & l2 & l3 & l4 & rest & Htext & -> & H1 & H2 & H3 & H4).
  cbn [nth] in Hcheck.
  destruct (Py.startswith l1 "@") eqn:Hat; [|done].
  destruct (Py.startswith l3 "+") eqn:Hplus; [|done].
  exists f, l1, l2, l3, l4, rest. repeat split; try done.
  intros Hsize. apply Nat.ltb_lt in Hsize. rewrite Hsize in Hsniff.
  unfold sniff_header in Hsniff.
  destruct (file_header f) as [h|eh]; cbn [rbind rcatch] in Hsniff.
  - exists h. split; [done|]. by destruct (has_error_marker _).
  - by destruct (caught_by _ eh).
Qed.

(** *** The layout resolver *)

(** X23: When reading the metadata table raises nothing outside Exception,
    get_layout_from_metadata returns a layout (paired, single or
    unknown): no exception leaves it. *)
Theorem resolver_returns metadata_file srr_id :
  (forall e, metadata_file = Exc e -> isinstance e Exception = true) ->
  exists layout, get_layout_from_metadata metadata_file srr_id = Ok layout.
Proof.
  intros He. unfold get_layout_from_metadata. apply rcatch_Exception_returns.
  intros e. destruct metadata_file as [t|e0]; cbn [rbind].
  - assert (forall c (r : result (option bool)),
              rbind (is_paired_layout c) (fun b => Ok (Some b)) = Exc e ->
              isinstance e Exception = true) as Hcell.
    { intros [s|] r; cbn; [done|]. by intros [= <-]. }
    destruct (negb (has_column t "run_accession")).
    + destruct (has_column t "run"); [|done].
      destruct (select t "run" srr_id) as [|row rest]; [done|].
      destruct (has_column t "lib_layout"); [|done]. apply (Hcell _ (Ok None)).
    + destruct (select t "run_accession" srr_id) as [|row rest]; [done|].
      destruct (has_column t "library_layout"); [|done]. apply (Hcell _ (Ok None)).
  - intros [= <-]. by apply He.
Qed.

(** X24: When the key column and its layout column are present and a row
    matches the ID, the layout is read from the first matching row only:
    paired exactly when its text, lower-cased, is paired. *)
Theorem resolver_reads_first_row t srr_id row rest s :
  has_column t (key_column t) = true ->
  has_column t (layout_column t) = true ->
  select t (key_column t) srr_id = row :: rest ->
  cell_at t row (layout_column t) = Str s ->
  get_layout_from_metadata (Ok t) srr_id
    = Ok (Some (bool_decide (Py.lower s = "paired"))).
Proof.
  unfold key_column, layout_column, get_layout_from_metadata. cbn [rbind].
  destruct (has_column t "run_accession") eqn:Hacc; cbn [negb].
  - intros _ -> -> ->. reflexivity.
  - intros -> -> -> ->. reflexivity.
Qed.

Lemma valid_set_frame fs fs' fastq_dir srr_id paired :
  (forall n, n ∈ item_names srr_id paired ->
     lookup_path fs' (fastq_dir, n) = lookup_path fs (fastq_dir, n)) ->
  valid_set fs fastq_dir srr_id paired -> valid_set fs' fastq_dir srr_id paired.
Proof.
  intros Hsame. unfold valid_set. destruct (truthy paired) eqn:Hp.
  - assert (paired = Some true) as -> by by destruct paired as [[]|].
    intros (q & Hq & H1 & H2). exists q. split; [done|].
    destruct (paired_names_in srr_id q Hq) as [Hn1 Hn2].
    split; [rewrite <- H1|rewrite <- H2]; apply is_valid_frame; by apply Hsame.
  - intros (n & Hn & H1). exists n. split; [done|]. rewrite <- H1.
    apply is_valid_frame, Hsame. unfold item_names. by rewrite Hp.
Qed.

Lemma write_marker_keeps_set fastq_dir srr_id paired w u w' :
  write_file (marker_path fastq_dir srr_id) completion_marker w = Done u w' ->
  lookup_path (fs w') (marker_path fastq_dir srr_id) = Some completion_marker /\
  (valid_set (fs w) fastq_dir srr_id paired -> valid_set (fs w') fastq_dir srr_id paired).
Proof.
  intros (dir & Hdir & Hfs)%write_file_inv. rewrite Hfs. split.
  - apply lookup_path_write_eq.
  - apply valid_set_frame. intros n Hn. apply lookup_path_write_ne; [done|].
    by eapply data_is_not_marker.
Qed.

(** *** The direct toolkit strategy *)

(** X13: When download_sra_directly returns True, a complete file set
    (single-end, or paired when two split files were found) is on disk
    and passes the validator. *)
Theorem direct_success_is_validated env srr_id out_dir threads w w' :
  download_sra_directly env srr_id out_dir threads w = Done true w' ->
  exists is_paired,
    valid_set (fs w') (Py.path_join out_dir srr_id) srr_id (Some is_paired).
Proof.
  unfold download_sra_directly.
  intros [Hbody | (e & w1 & _ & _ & [[=] _]%ret_inv)]%try_except_inv.
  cbv zeta in Hbody.
  apply bind_inv in Hbody as (u1 & w1 & _ & Hk).
  apply bind_inv in Hk as (u2 & w2 & _ & Hk).
  apply bind_inv in Hk as (prefetch & w3 & _ & Hk).
  destruct (negb (bool_decide (prefetch = 0%Z))); [by apply ret_inv in Hk as [[=] _]|].
  apply bind_inv in Hk as (fasterq & w4 & _ & Hk).
  destruct (negb (bool_decide (fasterq = 0%Z))); [by apply ret_inv in Hk as [[=] _]|].
  apply bind_inv in Hk as (files & w5 & _ & Hk).
  apply bind_inv in Hk as (u3 & w6 & _ & Hk).
  apply bind_inv in Hk as (files' & w7 & _ & Hk).
  apply bind_inv in Hk as (verified & w8 & Hv & Hk).
  destruct verified; [|by apply ret_inv in Hk as [[=] _]].
  apply ret_inv in Hk as [_ <-]. eexists. by apply verify_and_clean_true in Hv as [Hset _].
Qed.

(** *** The EBI mirrors *)

Lemma curl_fetch_true env url_path fastq_dir file_names downloaded w dl w' :
  curl_fetch env url_path fastq_dir file_names downloaded w = Done (true, dl) w' ->
  forall n, last file_names = Some n ->
    is_valid_fastq_file (fs w') (fastq_dir, n) = Ok true.
Proof.
  revert downloaded w. induction file_names as [|file_name rest IH];
    intros downloaded w; cbn [curl_fetch]; [by intros _ n [=]|].
  intros (rc & w1 & _ & Hk)%bind_inv n Hlast.
  apply bind_inv in Hk as (arrived & w2 & Harr & Hk).
  assert (w2 = w1) as ->.
  { apply and_then_inv in Harr as [(w3 & [-> _]%os_path_exists_inv & Hsize)
                                  | (_ & [-> _]%os_path_exists_inv)]; [|done].
    apply bind_inv in Hsize as (size & w4 & Hsize & [_ ->]%ret_inv).
    unfold os_path_getsize in Hsize. by apply observe_inv in Hsize as [-> _]. }
  destruct (negb (bool_decide (rc = 0%Z)) || negb arrived);
    [by apply ret_inv in Hk as [[=] _]|].
  apply bind_inv in Hk as (valid & w3 & [-> Hv]%is_valid_inv & Hk).
  destruct valid; cbn [negb] in Hk; [|by apply ret_inv in Hk as [[=] _]].
  destruct rest as [|next rest].
  - cbn in Hlast. injection Hlast as <-. cbn [curl_fetch] in Hk.
    by apply ret_inv in Hk as [_ ->].
  - by eapply IH.
Qed.

Lemma curl_name_not_marker srr_id is_paired :
  last_curl_file srr_id is_paired <> srr_id +:+ ".completed".
Proof.
  unfold last_curl_file. destruct (truthy is_paired);
    intros H; apply (inj (String.app srr_id)) in H; discriminate.
Qed.

Lemma curl_layout_true env url_path fastq_dir srr_id is_paired w w' :
  curl_layout env url_path fastq_dir srr_id is_paired w = Done true w' ->
  lookup_path (fs w') (marker_path fastq_dir srr_id) = Some completion_marker /\
  is_valid_fastq_file (fs w') (fastq_dir, last_curl_file srr_id is_paired) = Ok true.
Proof.
  unfold curl_layout.
  intros ([curl_success downloaded_files] & w1 & Hfetch & Hk)%bind_inv.
  destruct curl_success.
  - apply bind_inv in Hk as (u & w2 & Hw & [_ <-]%ret_inv).
    apply write_file_inv in Hw as (dir & Hdir & Hfs). rewrite Hfs.
    split; [apply lookup_path_write_eq|].
    erewrite is_valid_frame.
    + eapply curl_fetch_true; [exact Hfetch|].
      unfold curl_file_names, last_curl_file. by destruct (truthy is_paired).
    + apply lookup_path_write_ne; [done|]. intros [= H]. by eapply curl_name_not_marker.
  - by apply bind_inv in Hk as (u & w2 & _ & [[=] _]%ret_inv).
Qed.

(** X14: When try_download_with_curl returns True, the completion marker is
    on disk and the file fetched last for the layout passes the
    validator. *)
Theorem ebi_success_is_validated env srr_id out_dir threads is_paired w w' :
  try_download_with_curl env srr_id out_dir threads is_paired w = Done true w' ->
  let fastq_dir := Py.path_join out_dir srr_id in
  lookup_path (fs w') (marker_path fastq_dir srr_id) = Some completion_marker /\
  is_valid_fastq_file (fs w') (fastq_dir, last_curl_file srr_id is_paired) = Ok true.
Proof.
  unfold try_download_with_curl.
  intros [Hbody | (e & w1 & _ & _ & [[=] _]%ret_inv)]%try_except_inv.
  cbv zeta in *.
  assert (forall (m : M bool) w0,
            try_except m [Exception] (fun _ => mret false) w0 = Done true w' ->
            m w0 = Done true w') as Htry.
  { intros m w0 [H | (e & w1 & _ & _ & [[=] _]%ret_inv)]%try_except_inv. done. }
  apply bind_inv in Hbody as (u1 & w1 & _ & Hk).
  apply bind_inv in Hk as (u2 & w2 & _ & Hk).
  apply bind_inv in Hk as (done1 & w3 & H1 & Hk). destruct done1.
  { apply ret_inv in Hk as [_ <-]. apply Htry in H1. by eapply curl_layout_true. }
  apply bind_inv in Hk as (done2 & w4 & H2 & Hk). destruct done2.
  { apply ret_inv in Hk as [_ <-]. apply Htry in H2. by eapply curl_layout_true. }
  apply bind_inv in Hk as (done3 & w5 & H3 & Hk). destruct done3.
  { apply ret_inv in Hk as [_ <-]. apply Htry in H3.
    destruct (Py.startswith srr_id "ERR"); [by eapply curl_layout_true|].
    by apply ret_inv in H3 as [[=] _]. }
  by apply ret_inv in Hk as [[=] _].
Qed.

(** *** The NCBI endpoints *)

Lemma sra_name_not_data srr_id paired n :
  n ∈ item_names srr_id paired -> n <> srr_id +:+ ".sra".
Proof.
  intros Hn ->. unfold item_names in Hn. destruct (truthy paired); cbn in Hn;
    repeat (apply elem_of_cons in Hn as [Hn|Hn];
            [apply (inj (String.app srr_id)) in Hn; discriminate|]);
    by apply elem_of_nil in Hn.
Qed.

Lemma remove_if_exists_frame p q w u w' :
  remove_if_exists p w = Done u w' -> q <> p ->
  lookup_path (fs w') q = lookup_path (fs w) q.
Proof.
  unfold remove_if_exists.
  intros (present & w1 & [-> ->]%os_path_exists_inv & Hk)%bind_inv Hne.
  destruct (exists_file (fs w) p).
  - pose proof (tidies_os_remove (fun x => x = p) (fun _ => False) p eq_refl w) as Ht.
    rewrite Hk in Ht. cbn [world_of] in Ht. eapply steps_frame; [exact Ht|done|tauto].
  - by apply ret_inv in Hk as [_ ->].
Qed.

Lemma ncbi_pattern_1_true env srr_id fastq_dir is_paired w w' :
  ncbi_pattern_1 env srr_id fastq_dir is_paired w = Done (Some true) w' ->
  lookup_path (fs w') (marker_path fastq_dir srr_id) = Some completion_marker /\
  valid_set (fs w') fastq_dir srr_id is_paired.
Proof.
  unfold ncbi_pattern_1.
  intros [Hbody | (e & w1 & _ & _ & [[=] _]%ret_inv)]%try_except_inv.
  cbv zeta in Hbody.
  apply bind_inv in Hbody as (rc & w1 & _ & Hk).
  apply bind_inv in Hk as (ok & w2 & _ & Hk).
  destruct ok; [|by apply bind_inv in Hk as (u & w3 & _ & [[=] _]%ret_inv)].
  apply bind_inv in Hk as (zipped & w3 & _ & Hk).
  apply bind_inv in Hk as (extract_success & w4 & _ & Hk).
  apply bind_inv in Hk as (step & w5 & Hstep & Hk).
  destruct step as [b|extracted].
  - apply ret_inv in Hk as [[= <-] _]. exfalso.
    destruct (negb extract_success); [|by apply ret_inv in Hstep as [[=] _]].
    apply bind_inv in Hstep as (valid & w6 & _ & Hstep). destruct valid.
    + destruct (truthy is_paired).
      * by apply bind_inv in Hstep as (u & w7 & _ & [[=] _]%ret_inv).
      * apply bind_inv in Hstep as (u & w7 & _ & Hstep).
        by apply bind_inv in Hstep as (u' & w8 & _ & [[=] _]%ret_inv).
    + by apply bind_inv in Hstep as (u & w7 & _ & [[=] _]%ret_inv).
  - apply bind_inv in Hk as (u & w6 & _ & Hk).
    apply bind_inv in Hk as (verified & w7 & Hv & Hk).
    destruct verified; [|by apply ret_inv in Hk as [[=] _]].
    apply bind_inv in Hk as (u' & w8 & Hw & [_ <-]%ret_inv).
    apply and_then_inv in Hv as [(w9 & _ & Hv) | ([=] & _)].
    apply verify_and_clean_true in Hv as [Hset _].
    destruct (write_marker_keeps_set _ _ is_paired _ _ _ Hw) as [Hm Hkeep]. auto.
Qed.

Lemma ncbi_pattern_2_true env srr_id fastq_dir is_paired w w' :
  ncbi_pattern_2 env srr_id fastq_dir is_paired w = Done true w' ->
  lookup_path (fs w') (marker_path fastq_dir srr_id) = Some completion_marker /\
  valid_set (fs w') fastq_dir srr_id is_paired.
Proof.
  unfold ncbi_pattern_2.
  intros [Hbody | (e & w1 & _ & _ & [[=] _]%ret_inv)]%try_except_inv.
  cbv zeta in Hbody.
  apply bind_inv in Hbody as (rc & w1 & _ & Hk).
  apply bind_inv in Hk as (ok & w2 & _ & Hk).
  destruct ok; [|by apply bind_inv in Hk as (u & w3 & _ & [[=] _]%ret_inv)].
  apply bind_inv in Hk as (converted & w3 & Hconv & Hk).
  destruct converted; [|by apply bind_inv in Hk as (u & w4 & _ & [[=] _]%ret_inv)].
  apply ret_inv in Hk as [_ <-].
  apply try_except_inv in Hconv as [Hconv | (e & w4 & _ & _ & [[=] _]%ret_inv)].
  apply bind_inv in Hconv as (u & w4 & _ & Hconv).
  apply bind_inv in Hconv as (extracted & w5 & _ & Hconv).
  destruct (bool_decide (extracted = 0%Z)); [|by apply ret_inv in Hconv as [[=] _]].
  apply bind_inv in Hconv as (verified & w6 & Hv & Hconv).
  destruct verified; [|by apply ret_inv in Hconv as [[=] _]].
  apply bind_inv in Hconv as (u1 & w7 & Hw & Hconv).
  apply bind_inv in Hconv as (u2 & w8 & Hrm & [_ <-]%ret_inv).
  apply verify_and_clean_true in Hv as [Hset _].
  destruct (write_marker_keeps_set _ _ is_paired _ _ _ Hw) as [Hm Hkeep].
  split.
  - rewrite <- Hm. eapply remove_if_exists_frame; [done|].
    intros [= H]. apply (inj (String.app srr_id)) in H. discriminate.
  - eapply valid_set_frame; [|by apply Hkeep]. intros n Hn.
    eapply remove_if_exists_frame; [done|]. intros [= ->]. by eapply sra_name_not_data.
Qed.

(** X15: When try_ncbi_download returns True, the completion marker is on
    disk and a complete file set of the layout passes the validator. *)
Theorem ncbi_success_is_validated env srr_id out_dir threads is_paired w w' :
  try_ncbi_download env srr_id out_dir threads is_paired w = Done true w' ->
  let fastq_dir := Py.path_join out_dir srr_id in
  lookup_path (fs w') (marker_path fastq_dir srr_id) = Some completion_marker /\
  valid_set (fs w') fastq_dir srr_id is_paired.
Proof.
  unfold try_ncbi_download. cbv zeta.
  intros [Hbody | (e & w1 & _ & _ & Hh)]%try_except_inv.
  - apply bind_inv in Hbody as (u1 & w1 & _ & Hk).
    apply bind_inv in Hk as (u2 & w2 & _ & Hk).
    apply bind_inv in Hk as (first & w3 & H1 & Hk).
    destruct first as [b|].
    + apply ret_inv in Hk as [<- <-]. by eapply ncbi_pattern_1_true.
    + apply bind_inv in Hk as (second & w4 & H2 & Hk).
      destruct second; [|by apply ret_inv in Hk as [[=] _]].
      apply ret_inv in Hk as [_ <-]. by eapply ncbi_pattern_2_true.
  - by apply bind_inv in Hh as (u & w2 & _ & [[=] _]%ret_inv).
Qed.

Lemma occurrences_cons x y l :
  occurrences x (y :: l) = ((if bool_decide (y = x) then 1 else 0) + occurrences x l)%nat.
Proof. unfold occurrences. cbn. by destruct (bool_decide (y = x)). Qed.

Lemma occurrences_pos x l : (0 < occurrences x l)%nat <-> x ∈ l.
Proof.
  induction l as [|y l IH].
  - cbn. split; [lia|by intros ?%elem_of_nil].
  - rewrite occurrences_cons, elem_of_cons. case_bool_decide; subst.
    + split; [by left|lia].
    + rewrite <- IH. split; [by right|]. intros [?|?]; [congruence|lia].
Qed.

Lemma seen_twice_spec seq seen twice x :
  x ∈ Sanity.seen_twice seq seen twice <->
  x ∈ twice \/ (x ∈ seen /\ x ∈ seq) \/ (2 <= occurrences x seq)%nat.
Proof.
  revert seen twice. induction seq as [|y seq IH]; intros seen twice;
    cbn [Sanity.seen_twice].
  - cbn. split; [by left|]. intros [?|[[_ ?%elem_of_nil]|?]]; [done..|lia].
  - rewrite occurrences_cons. pose proof (occurrences_pos x seq) as Hpos.
    case_bool_decide as Hseen; rewrite IH; clear IH;
      rewrite elem_of_union, elem_of_singleton, elem_of_cons;
      (destruct (decide (y = x)) as [->|Hne];
       [rewrite bool_decide_eq_true_2 by done
       |rewrite bool_decide_eq_false_2 by done]);
      cbn [Nat.add]; rewrite <- ?Hpos; intuition (try congruence; try lia).
Qed.

(** X25: list_duplicates returns exactly the elements that occur at least
    twice in the sequence, each once; the result is empty exactly when
    the sequence has no repeated element. *)
Theorem list_duplicates_spec seq :
  NoDup (Sanity.list_duplicates seq) /\
  (forall x, x ∈ Sanity.list_duplicates seq <-> (2 <= occurrences x seq)%nat) /\
  (Sanity.list_duplicates seq = [] <-> NoDup seq).
Proof.
  assert (forall x, x ∈ Sanity.list_duplicates seq <-> (2 <= occurrences x seq)%nat)
    as Hmem.
  { intros x. unfold Sanity.list_duplicates. rewrite elem_of_elements, seen_twice_spec.
    split; [|by right; right]. intros [?%elem_of_empty|[[?%elem_of_empty _]|?]]; done. }
  split; [unfold Sanity.list_duplicates; apply NoDup_elements|]. split; [done|].
  split.
  - intros Hnil. induction seq as [|y seq IH]; [constructor|].
    assert (forall x, (occurrences x (y :: seq) < 2)%nat) as Hlt.
    { intros x. destruct (le_lt_dec 2 (occurrences x (y :: seq))) as [Hge|]; [|done].
      apply Hmem in Hge. rewrite Hnil in Hge. by apply elem_of_nil in Hge. }
    clear Hnil Hmem IH. revert y Hlt. induction seq as [|z seq IH]; intros y Hlt.
    + apply NoDup_singleton.
    + apply NoDup_cons. split.
      * intros Hin. apply occurrences_pos in Hin. specialize (Hlt y).
        rewrite occurrences_cons, bool_decide_eq_true_2 in Hlt by done. lia.
      * apply IH. intros x. specialize (Hlt x). rewrite occurrences_cons in Hlt.
        destruct (bool_decide (y = x)); lia.
  - intros Hnd. destruct (Sanity.list_duplicates seq) as [|x l] eqn:Hl; [done|].
    exfalso. assert (2 <= occurrences x seq)%nat as Hx by (apply Hmem; by left).
    clear -Hnd Hx. induction Hnd as [|y seq Hy Hnd IH]; [cbn in Hx; lia|].
    rewrite occurrences_cons in Hx. case_bool_decide; subst; [|by apply IH].
    assert (occurrences x seq = 0)%nat; [|lia].
    destruct (occurrences x seq) eqn:Ho; [done|].
    exfalso. apply Hy, occurrences_pos. lia.
Qed.

Lemma remove_dups_submseteq (l : list string) : remove_dups l ⊆+ l.
Proof.
  induction l as [|x l IH]; cbn; [done|].
  case_decide; [by apply submseteq_cons|by apply submseteq_skip].
Qed.

Lemma remove_dups_NoDup (l : list string) : NoDup l -> remove_dups l = l.
Proof.
  induction 1 as [|x l Hx Hnd IH]; cbn; [done|].
  case_decide; [done|]. by rewrite IH.
Qed.

Lemma remove_dups_shorter (l : list string) :
  (length (remove_dups l) < length l)%nat <-> ~ NoDup l.
Proof.
  pose proof (submseteq_length _ _ (remove_dups_submseteq l)) as Hle. split.
  - intros Hlt Hnd. rewrite remove_dups_NoDup in Hlt by done. lia.
  - intros Hdup. destruct (decide (length l <= length (remove_dups l))%nat) as [Hge|]; [|lia].
    exfalso. apply Hdup.
    rewrite <- (submseteq_length_Permutation _ _ (remove_dups_submseteq l) Hge).
    apply NoDup_remove_dups.
Qed.

#[local] Instance Text_inj : Inj (=) (=) Sanity.Text.
Proof. by intros ?? [=]. Qed.

(** The three kinds of column [np.unique] tells apart. *)
Lemma column_kind (l : list Sanity.value) :
((Sanity.NaN ∉ l) /\ l = Sanity.Text <$> omap Sanity.text_of l) \/
  (l <> [] /\ omap Sanity.text_of l = [] /\ l = replicate (length l) Sanity.NaN) \/
  (mixed l /\ omap Sanity.text_of l <> [] /\
   (length (omap Sanity.text_of l) < length l)%nat).
Proof.
  induction l as [|v l IH]; [left; split; [apply not_elem_of_nil|done]|].
  destruct v as [s|]; cbn [omap list_omap Sanity.text_of].
  - destruct IH as [[Hno Hl] | [(Hne & Htexts & Hl) | (Hmix & Hne & Hlen)]].
    + left. split; [|cbn; by rewrite <- Hl].
      rewrite elem_of_cons. by intros [?|?].
    + right. right. split; [|split; [done|cbn; rewrite Htexts; destruct l; [done|cbn; lia]]].
      split; [|exists s; by left]. right. rewrite Hl.
      destruct l; [done|]. by left.
    + right. right. split; [|split; [done|cbn; lia]].
      destruct Hmix as [Hnan [s' Hs']]. split; [by right|]. exists s'. by right.
  - destruct IH as [[Hno Hl] | [(Hne & Htexts & Hl) | (Hmix & Hne & Hlen)]].
    + destruct (omap Sanity.text_of l) as [|s texts] eqn:Htexts.
      * right. left. split; [done|]. split; [done|]. cbn. by rewrite Hl.
      * right. right. split; [|split; [done|]].
        -- split; [by left|]. exists s. right. rewrite Hl. by left.
        -- pose proof (f_equal length Hl) as Hlen. rewrite length_fmap in Hlen.
           rewrite ?Htexts in Hlen. cbn in *. lia.
    + right. left. split; [done|]. split; [done|]. cbn. by rewrite <- Hl.
    + right. right. split; [|split; [done|cbn; lia]].
      destruct Hmix as [Hnan [s' Hs']]. split; [by left|]. exists s'. by right.
Qed.

Lemma not_mixed_texts (l : list Sanity.value) : Sanity.NaN ∉ l -> ~ mixed l.
Proof. by intros Hno [Hnan _]. Qed.

Lemma not_mixed_missing (l : list Sanity.value) :
  omap Sanity.text_of l = [] -> ~ mixed l.
Proof.
  intros Htexts [_ [s Hs]].
  assert (s ∈ omap Sanity.text_of l) as Hin
    by (apply list_elem_of_omap; by exists (Sanity.Text s)).
  rewrite Htexts in Hin. by apply elem_of_nil in Hin.
Qed.

Lemma NoDup_replicate_NaN n :
  NoDup (replicate n Sanity.NaN) <-> (n <= 1)%nat.
Proof.
  destruct n as [|[|n]]; cbn.
  - split; [lia|constructor].
  - split; [lia|]. intros _. apply NoDup_singleton.
  - split; [|lia]. intros [Hin _]%NoDup_cons. exfalso. apply Hin. by left.
Qed.

(** What [np.unique] gives for each kind of column. *)
Lemma np_unique_texts equal_nan (l : list Sanity.value) :
  Sanity.NaN ∉ l ->
  Sanity.np_unique equal_nan l
  = Ok (Sanity.Text <$> merge_sort String.le (remove_dups (omap Sanity.text_of l))).
Proof.
  intros Hno. unfold Sanity.np_unique.
  destruct (column_kind l) as [[_ Hl] | [(Hne & Htexts & Hl) | (Hmix & _)]].
  - assert (length (omap Sanity.text_of l) = length l) as ->
      by (rewrite Hl at 2; by rewrite length_fmap).
    by rewrite Nat.eqb_refl.
  - exfalso. apply Hno. rewrite Hl. destruct l; [done|]. by left.
  - exfalso. apply Hno. by destruct Hmix.
Qed.

Lemma np_unique_missing equal_nan (l : list Sanity.value) :
  l <> [] -> omap Sanity.text_of l = [] ->
  Sanity.np_unique equal_nan l = Ok (if equal_nan then [Sanity.NaN] else l).
Proof.
  intros Hne Htexts. unfold Sanity.np_unique. rewrite Htexts. cbn [length].
  destruct l; [done|]. reflexivity.
Qed.

Lemma np_unique_mixed equal_nan (l : list Sanity.value) :
  mixed l -> Sanity.np_unique equal_nan l = Exc TypeError.
Proof.
  intros Hmix. unfold Sanity.np_unique.
  destruct (column_kind l) as [[Hno _] | [(_ & Htexts & _) | (_ & Hne & Hlen)]].
  - by apply not_mixed_texts in Hno.
  - by apply not_mixed_missing in Htexts.
  - assert ((length (omap Sanity.text_of l) =? length l)%nat = false) as ->
      by (apply Nat.eqb_neq; lia).
    assert ((length (omap Sanity.text_of l) =? 0)%nat = false) as ->
      by (apply Nat.eqb_neq; destruct (omap Sanity.text_of l); [done|cbn; lia]).
    done.
Qed.

Lemma omap_Text (k : list string) : omap Sanity.text_of (Sanity.Text <$> k) = k.
Proof. induction k as [|? ? IH]; [done|]. cbn. by rewrite IH. Qed.

Lemma np_unique_Ok equal_nan (l uni : list Sanity.value) :
  Sanity.np_unique equal_nan l = Ok uni ->
  ~ mixed l /\
  (length uni = 0%nat <-> l = []) /\
  ((length uni < length l)%nat <-> repeated equal_nan l) /\
  (forall v, v ∈ uni <-> v ∈ l) /\
  (Sanity.NaN ∉ l -> NoDup uni /\ Sorted String.le (omap Sanity.text_of uni)).
Proof.
  intros Huni.
  destruct (column_kind l) as [[Hno Hl] | [(Hne & Htexts & Hl) | (Hmix & _)]].
  - rewrite np_unique_texts in Huni by done. injection Huni as <-.
    split; [by apply not_mixed_texts|]. clear Hno.
    destruct (ex_intro (fun k => l = Sanity.Text <$> k) _ Hl) as (texts & ->).
    clear Hl. rewrite omap_Text.
    split; [|split; [|split]].
    + rewrite length_fmap, merge_sort_Permutation. split.
      * destruct texts as [|s texts']; [done|]. intros Hlen. exfalso.
        assert (s ∈ remove_dups (s :: texts')) as Hin
          by (apply elem_of_remove_dups; by left).
        destruct (remove_dups (s :: texts')); [by apply elem_of_nil in Hin|done].
      * by destruct texts.
    + rewrite !length_fmap, merge_sort_Permutation, remove_dups_shorter.
      unfold repeated. rewrite (NoDup_fmap Sanity.Text).
      split; [intros Hdup; split; [done|]|by intros [Hdup _]].
      intros (s & Hs & _)%list_elem_of_fmap. discriminate Hs.
    + intros v. rewrite !list_elem_of_fmap.
      split; intros (s & -> & Hs); exists s; split; try reflexivity.
      * by rewrite merge_sort_Permutation, elem_of_remove_dups in Hs.
      * by rewrite merge_sort_Permutation, elem_of_remove_dups.
    + intros _. split.
      * apply NoDup_fmap; [apply _|]. rewrite merge_sort_Permutation.
        apply NoDup_remove_dups.
      * rewrite omap_Text. apply Sorted_merge_sort, _.
  - rewrite np_unique_missing in Huni by done. injection Huni as <-.
    assert (Sanity.NaN ∈ l) as Hnan by (rewrite Hl; destruct l; [done|]; by left).
    split; [by apply not_mixed_missing|]. split; [|split; [|split]].
    + split; [|by intros ->]. by destruct equal_nan, l.
    + unfold repeated.
      assert (NoDup l <-> (length l <= 1)%nat) as ->
        by (rewrite Hl at 1; apply NoDup_replicate_NaN).
      destruct equal_nan; cbn [length].
      * split; [intros ?; split; [lia|done]|]. intros [? _]. lia.
      * split; [lia|]. intros [_ Hc]. by specialize (Hc Hnan).
    + intros v. destruct equal_nan; [|done]. rewrite list_elem_of_singleton.
      split; [by intros ->|]. rewrite Hl. by intros [-> _]%elem_of_replicate.
    + by intros Hno.
  - by rewrite np_unique_mixed in Huni.
Qed.

(** X26: parse_metadata returns exactly when both columns have rows,
    neither holds text beside a missing value, and np.unique finds no run
    twice; it then returns the runs as they are and the distinct species,
    sorted when they are text. It raises TypeError when a column mixes text
    with a missing value, and ValueError in every other case. *)
Theorem parse_metadata_spec equal_nan species sra_ids :
  match Sanity.parse_metadata equal_nan species sra_ids with
  | Ok (uni_species, ids) =>
      species <> [] /\ sra_ids <> [] /\
      ~ mixed species /\ ~ mixed sra_ids /\ ~ repeated equal_nan sra_ids /\
      ids = sra_ids /\
      (forall v, v ∈ uni_species <-> v ∈ species) /\
      (Sanity.NaN ∉ species ->
       NoDup uni_species /\ Sorted String.le (omap Sanity.text_of uni_species))
  | Exc e =>
      (e = TypeError /\ (mixed species \/ (species <> [] /\ mixed sra_ids))) \/
      (e = ValueError /\ ~ mixed species /\
       (species = [] \/ sra_ids = [] \/
        (~ mixed sra_ids /\ repeated equal_nan sra_ids)))
  end.
Proof.
  unfold Sanity.parse_metadata.
  destruct (Sanity.np_unique equal_nan species) as [uni|e] eqn:Hsp; cbn [rbind].
  2:{ left. destruct (column_kind species) as [[Hno _] | [(Hne & Ht & _) | (Hmix & _)]].
      - by rewrite np_unique_texts in Hsp.
      - by rewrite np_unique_missing in Hsp.
      - rewrite np_unique_mixed in Hsp by done. injection Hsp as <-. split; [done|by left]. }
  destruct (np_unique_Ok _ _ _ Hsp) as (Hnm & Hempty & _ & Helems & Hsorted).
  destruct (length uni =? 0)%nat eqn:Hlen; cbn [negb].
  { apply Nat.eqb_eq, Hempty in Hlen. right. split; [done|]. split; [done|by left]. }
  apply Nat.eqb_neq in Hlen. rewrite Hempty in Hlen.
  destruct (length sra_ids =? 0)%nat eqn:Hid; cbn [negb].
  { apply Nat.eqb_eq in Hid. destruct sra_ids; [|done].
    right. split; [done|]. split; [done|]. right. by left. }
  apply Nat.eqb_neq in Hid.
  destruct (Sanity.np_unique equal_nan sra_ids) as [uni_ids|e] eqn:Hids; cbn [rbind].
  2:{ left. destruct (column_kind sra_ids) as [[Hno _] | [(Hne & Ht & _) | (Hmix & _)]].
      - by rewrite np_unique_texts in Hids.
      - by rewrite np_unique_missing in Hids.
      - rewrite np_unique_mixed in Hids by done. injection Hids as <-.
        split; [done|]. right. done. }
  destruct (np_unique_Ok _ _ _ Hids) as (Hnm' & _ & Hrep & _).
  destruct (length uni_ids <? length sra_ids)%nat eqn:Hdup.
  { apply Nat.ltb_lt, Hrep in Hdup. right. split; [done|]. split; [done|].
    right. right. done. }
  apply Nat.ltb_ge in Hdup.
  split; [done|]. split; [by intros ->|]. split; [done|]. split; [done|].
  split; [rewrite <- Hrep; lia|]. done.
Qed.



(** ** Summary statements and sample runs *)

(** X2: When check_existing_files returns, its answer says whether the
    item's completion marker is on disk afterwards: True leaves the
    marker in place, False leaves none. *)
Theorem probe_result_is_marker srr_id out_dir paired w b w' :
  check_existing_files srr_id out_dir paired w = Done b w' ->
  exists_file (fs w') (item_marker srr_id out_dir) = b.
Proof. apply probe_marker_after. Qed.

Lemma probe_result_is_marker_witness :
  exists w',
    check_existing_files "SRR1" "out" (Some true) Samples.bad_pair_world
      = Done false w' /\
    exists_file (fs w') (item_marker "SRR1" "out") = false.
Proof.
  pose (o := check_existing_files "SRR1" "out" (Some true) Samples.bad_pair_world).
  assert (o = Done false (world_of o)) as H by (vm_compute; reflexivity).
  exists (world_of o). split; [exact H|].
  exact (probe_result_is_marker "SRR1" "out" (Some true) Samples.bad_pair_world
           false (world_of o) H).
Defined.

(** X3: When check_existing_files answers True, a complete file set for the
    layout is on disk and passes the validator: one single-end file, or
    both halves of one paired naming convention. *)
Theorem probe_true_is_validated srr_id out_dir paired w w' :
  check_existing_files srr_id out_dir paired w = Done true w' ->
  valid_set (fs w') (Py.path_join out_dir srr_id) srr_id paired.
Proof. apply probe_true_valid_set. Qed.

Lemma probe_true_is_validated_witness :
  exists w',
    check_existing_files "SRR1" "out" (Some true) Samples.paired_unmarked
      = Done true w' /\
    valid_set (fs w') (Py.path_join "out" "SRR1") "SRR1" (Some true).
Proof.
  pose (o := check_existing_files "SRR1" "out" (Some true) Samples.paired_unmarked).
  assert (o = Done true (world_of o)) as H by (vm_compute; reflexivity).
  exists (world_of o). split; [exact H|].
  exact (probe_true_is_validated "SRR1" "out" (Some true) Samples.paired_unmarked
           (world_of o) H).
Defined.

Lemma probe_nothing_there_witness :
  check_existing_files "SRR1" "out" (Some false) Runs.bare_world
    = Done false Runs.bare_world.
Proof.
  apply (probe_nothing_there "SRR1" "out" (Some false) Runs.bare_world).
  - vm_compute. reflexivity.
  - unfold nothing_to_probe. cbn [truthy]. apply Forall_forall.
    unfold single_patterns. repeat (constructor; [vm_compute; exact I|]). constructor.
Defined.

Lemma single_world_calm : calm (fs Samples.single_world).
Proof.
  apply ordinary_files_calm. intros p f Hf. unfold lookup_path in Hf.
  apply bind_Some in Hf as (d & Hd & Hf).
  unfold Samples.single_world, Samples.one_dir in Hd. cbn [fs] in Hd.
  apply lookup_singleton_Some in Hd as [_ <-].
  apply lookup_singleton_Some in Hf as [_ <-].
  repeat split; intros e He; vm_compute in He; discriminate.
Qed.

Lemma probe_again_succeeds_witness :
  exists w' w'',
    check_existing_files "SRR1" "out" (Some false) Samples.single_world
      = Done true w' /\
    check_existing_files "SRR1" "out" (Some false) w' = Done true w''.
Proof.
  pose (o := check_existing_files "SRR1" "out" (Some false) Samples.single_world).
  assert (o = Done true (world_of o)) as H by (vm_compute; reflexivity).
  destruct (probe_again_succeeds "SRR1" "out" (Some false) Samples.single_world
              (world_of o) single_world_calm H) as [w'' Hagain].
  exists (world_of o), w''. split; [exact H|exact Hagain].
Defined.

(** X6: When verify_and_clean_downloads returns True, a complete valid file
    set of the layout is on disk and the marker is as it was; when it
    returns False, neither the marker nor a complete file set of the
    layout is left. *)
Theorem verify_and_clean_verdict fastq_dir srr_id is_paired w b w' :
  verify_and_clean_downloads fastq_dir srr_id is_paired w = Done b w' ->
  if b
  then valid_set (fs w') fastq_dir srr_id is_paired /\
       lookup_path (fs w') (marker_path fastq_dir srr_id)
         = lookup_path (fs w) (marker_path fastq_dir srr_id)
  else lookup_path (fs w') (marker_path fastq_dir srr_id) = None /\
       no_set_left (fs w') fastq_dir srr_id is_paired.
Proof.
  destruct b; [apply verify_and_clean_true|apply verify_and_clean_false].
Qed.

Lemma verify_and_clean_verdict_witness :
  exists w',
    verify_and_clean_downloads Samples.item_dir "SRR1" (Some true)
      Samples.bad_pair_world = Done false w' /\
    lookup_path (fs w') (marker_path Samples.item_dir "SRR1") = None /\
    no_set_left (fs w') Samples.item_dir "SRR1" (Some true).
Proof.
  pose (o := verify_and_clean_downloads Samples.item_dir "SRR1" (Some true)
               Samples.bad_pair_world).
  assert (o = Done false (world_of o)) as H by (vm_compute; reflexivity).
  exists (world_of o). split; [exact H|].
  exact (verify_and_clean_verdict Samples.item_dir "SRR1" (Some true)
           Samples.bad_pair_world false (world_of o) H).
Defined.

Lemma worker_outcome_tags_witness :
  exists w',
    download_worker Samples.no_tools "SRR1" "out" 2 "amalgkit"
      (Samples.meta_of Samples.single_table) false Samples.empty_world
      = Done ("SRR1", "failed") w' /\
    "SRR1" = "SRR1" /\
    ("failed" = "skipped" \/ "failed" = "success" \/ "failed" = "failed").
Proof.
  pose (o := download_worker Samples.no_tools "SRR1" "out" 2 "amalgkit"
               (Samples.meta_of Samples.single_table) false Samples.empty_world).
  assert (o = Done ("SRR1", "failed") (world_of o)) as H by (vm_compute; reflexivity).
  exists (world_of o). split; [exact H|].
  exact (worker_outcome_tags Samples.no_tools "SRR1" "out" 2 "amalgkit"
           (Samples.meta_of Samples.single_table) false Samples.empty_world
           "SRR1" "failed" (world_of o) H).
Defined.

Lemma skipped_is_verified_witness :
  exists w',
    download_worker Samples.no_tools "SRR1" "out" 2 "amalgkit"
      (Samples.meta_of Samples.single_table) false Samples.single_world
      = Done ("SRR1", "skipped") w' /\
    trace w' = trace Samples.single_world /\
    exists_file (fs w') (item_marker "SRR1" "out") = true /\
    valid_set (fs w') (Py.path_join "out" "SRR1") "SRR1" (Some false).
Proof.
  pose (o := download_worker Samples.no_tools "SRR1" "out" 2 "amalgkit"
               (Samples.meta_of Samples.single_table) false Samples.single_world).
  assert (o = Done ("SRR1", "skipped") (world_of o)) as H by (vm_compute; reflexivity).
  exists (world_of o). split; [exact H|].
  exact (proj2 (skipped_is_verified Samples.no_tools "SRR1" "out" 2 "amalgkit"
                  (Samples.meta_of Samples.single_table) false Samples.single_world
                  "SRR1" (world_of o) H)).
Defined.

(** X9: The force flag stops at the worker: whatever the item, its layout
    and the programs, once the probe inside download_single_sra finds
    valid output a forced worker returns success with no program
    started, the marker on disk and the file set it found valid. *)
Theorem forced_worker_returns_at_probe env srr_id out_dir threads amalgkit_path meta
  layout w w' :
  get_layout_from_metadata (metadata_read meta) srr_id = Ok layout ->
  check_existing_files srr_id out_dir layout
    (world_of (os_makedirs (Py.path_join out_dir srr_id) w)) = Done true w' ->
  download_worker env srr_id out_dir threads amalgkit_path meta true w
    = Done (srr_id, "success") w' /\
  trace w' = trace w /\
  exists_file (fs w') (item_marker srr_id out_dir) = true /\
  valid_set (fs w') (Py.path_join out_dir srr_id) srr_id layout.
Proof.
  intros Hlayout Hprobe.
  destruct (forced_worker_still_probes env srr_id out_dir threads amalgkit_path meta
              layout w w' Hlayout Hprobe) as [Hrun Htrace].
  split; [done|]. split; [done|]. split.
  - by eapply probe_marker_after.
  - by eapply probe_true_valid_set.
Qed.

Lemma forced_worker_returns_at_probe_witness :
  exists w',
    download_worker Samples.no_tools "SRR1" "out" 2 "amalgkit"
      (Samples.meta_of Samples.single_table) true Samples.single_world
      = Done ("SRR1", "success") w' /\
    trace w' = trace Samples.single_world /\
    exists_file (fs w') (item_marker "SRR1" "out") = true /\
    valid_set (fs w') (Py.path_join "out" "SRR1") "SRR1" (Some false).
Proof.
  pose (o := check_existing_files "SRR1" "out" (Some false)
               (world_of (os_makedirs (Py.path_join "out" "SRR1") Samples.single_world))).
  assert (o = Done true (world_of o)) as H by (vm_compute; reflexivity).
  exists (world_of o).
  apply (forced_worker_returns_at_probe Samples.no_tools "SRR1" "out" 2 "amalgkit"
           (Samples.meta_of Samples.single_table) (Some false) Samples.single_world
           (world_of o)).
  - vm_compute. reflexivity.
  - exact H.
Defined.

Lemma failed_download_leaves_no_id_file_witness :
  exists w',
    download_single_sra Samples.no_tools "SRR1" "out" 2 "amalgkit"
      (Samples.meta_of Samples.single_table) Samples.empty_world = Done false w' /\
    lookup_path (fs w') (Py.path_join "out" "SRR1", "SRR1" +:+ ".id") = None.
Proof.
  pose (o := download_single_sra Samples.no_tools "SRR1" "out" 2 "amalgkit"
               (Samples.meta_of Samples.single_table) Samples.empty_world).
  assert (o = Done false (world_of o)) as H by (vm_compute; reflexivity).
  exists (world_of o). split; [exact H|].
  exact (failed_download_leaves_no_id_file Samples.no_tools "SRR1" "out" 2 "amalgkit"
           (Samples.meta_of Samples.single_table) Samples.empty_world (world_of o) H).
Defined.

Lemma fastq_dump_true_witness :
  exists w',
    download_with_fastq_dump (Samples.dump_leaves Samples.error_page_gz)
      "SRR1" "out" 2 Samples.empty_world = Done true w' /\
    lookup_path (fs w') (marker_path (Py.path_join "out" "SRR1") "SRR1")
      = Some completion_marker.
Proof.
  pose (o := download_with_fastq_dump (Samples.dump_leaves Samples.error_page_gz)
               "SRR1" "out" 2 Samples.empty_world).
  assert (o = Done true (world_of o)) as H by (vm_compute; reflexivity).
  exists (world_of o). split; [exact H|].
  exact (proj1 (fastq_dump_true (Samples.dump_leaves Samples.error_page_gz)
                  "SRR1" "out" 2 Samples.empty_world (world_of o) H)).
Defined.

Lemma direct_success_is_validated_witness :
  exists w',
    download_sra_directly (Samples.toolkit_leaves Samples.fastq_record)
      "SRR1" "out" 2 Samples.empty_world = Done true w' /\
    exists is_paired,
      valid_set (fs w') (Py.path_join "out" "SRR1") "SRR1" (Some is_paired).
Proof.
  pose (o := download_sra_directly (Samples.toolkit_leaves Samples.fastq_record)
               "SRR1" "out" 2 Samples.empty_world).
  assert (o = Done true (world_of o)) as H by (vm_compute; reflexivity).
  exists (world_of o). split; [exact H|].
  exact (direct_success_is_validated (Samples.toolkit_leaves Samples.fastq_record)
           "SRR1" "out" 2 Samples.empty_world (world_of o) H).
Defined.

Lemma ebi_success_is_validated_witness :
  exists w',
    try_download_with_curl
      (Runs.curl_leaves "SRR1.fastq.gz" Samples.fastq_record None)
      "SRR1" "out" 2 (Some false) Samples.empty_world = Done true w' /\
    lookup_path (fs w') (marker_path (Py.path_join "out" "SRR1") "SRR1")
      = Some completion_marker /\
    is_valid_fastq_file (fs w')
      (Py.path_join "out" "SRR1", last_curl_file "SRR1" (Some false)) = Ok true.
Proof.
  pose (o := try_download_with_curl
               (Runs.curl_leaves "SRR1.fastq.gz" Samples.fastq_record None)
               "SRR1" "out" 2 (Some false) Samples.empty_world).
  assert (o = Done true (world_of o)) as H by (vm_compute; reflexivity).
  exists (world_of o). split; [exact H|].
  exact (ebi_success_is_validated
           (Runs.curl_leaves "SRR1.fastq.gz" Samples.fastq_record None)
           "SRR1" "out" 2 (Some false) Samples.empty_world (world_of o) H).
Defined.

Lemma ncbi_success_is_validated_witness :
  exists w',
    try_ncbi_download
      (Runs.curl_leaves "SRR1.temp" Runs.archive_file
         (Some {[ "SRR1.fastq" := Samples.fastq_record ]}))
      "SRR1" "out" 2 (Some false) Samples.empty_world = Done true w' /\
    lookup_path (fs w') (marker_path (Py.path_join "out" "SRR1") "SRR1")
      = Some completion_marker /\
    valid_set (fs w') (Py.path_join "out" "SRR1") "SRR1" (Some false).
Proof.
  pose (o := try_ncbi_download
               (Runs.curl_leaves "SRR1.temp" Runs.archive_file
                  (Some {[ "SRR1.fastq" := Samples.fastq_record ]}))
               "SRR1" "out" 2 (Some false) Samples.empty_world).
  assert (o = Done true (world_of o)) as H by (vm_compute; reflexivity).
  exists (world_of o). split; [exact H|].
  exact (ncbi_success_is_validated
           (Runs.curl_leaves "SRR1.temp" Runs.archive_file
              (Some {[ "SRR1.fastq" := Samples.fastq_record ]}))
           "SRR1" "out" 2 (Some false) Samples.empty_world (world_of o) H).
Defined.



Lemma test_mode_downloads_nothing_witness :
  world_of (main Samples.no_tools (Samples.run_args false true)
              (mkInputs (Some ["SRR1"]) (Some (Ok Samples.single_table)))
              ["SRR1"] Samples.empty_world)
  = world_of (startup Samples.no_tools Samples.empty_world).
Proof.
  exact (proj1 (test_mode_downloads_nothing Samples.no_tools
                  (Samples.run_args false true)
                  (mkInputs (Some ["SRR1"]) (Some (Ok Samples.single_table)))
                  ["SRR1"] Samples.empty_world eq_refl)).
Defined.

Lemma os_makedirs_keeps_files d p w :
  lookup_path (fs (world_of (os_makedirs d w))) p = lookup_path (fs w) p.
Proof.
  unfold os_makedirs. destruct (fs w !! d) eqn:Hd; cbn [world_of fs]; [done|].
  unfold lookup_path. destruct (decide (p.1 = d)) as [->|Hne].
  - by rewrite lookup_insert_eq, Hd.
  - by rewrite lookup_insert_ne.
Qed.

(** X19: An ID list that holds no ID ends the run with a traceback: with a
    positive pool size the first progress bar divides by zero, otherwise
    the pool refuses its size with ValueError; either way the exit status
    is 1, no worker has been started and no summary is written. *)
Theorem empty_id_list_ends_in_error env args table_read order w u w0 :
  args_test args = false ->
  startup env w = Done u w0 ->
  exists w1,
    main env args (mkInputs (Some []) (Some table_read)) order w
      = Raised (if (args_max_concurrent args <=? 0)%Z
                then ValueError else ZeroDivisionError) w1 /\
    exit_status (main env args (mkInputs (Some []) (Some table_read)) order w)
      = 1%nat /\
    trace w1 = trace w0 /\
    lookup_path (fs w1) (args_out_dir args, "download_summary.txt")
      = lookup_path (fs w0) (args_out_dir args, "download_summary.txt").
Proof.
  intros Htest Hstart. exists (world_of (os_makedirs (args_out_dir args) w0)).
  assert (main env args (mkInputs (Some []) (Some table_read)) order w
          = Raised (if (args_max_concurrent args <=? 0)%Z
                    then ValueError else ZeroDivisionError)
              (world_of (os_makedirs (args_out_dir args) w0))) as ->.
  { destruct (args_max_concurrent args <=? 0)%Z eqn:Hpool.
    - rewrite main_after_startup, Hstart, Htest. cbn [id_list_file metadata_file].
      apply run_downloads_no_pool. lia.
    - apply (empty_id_list_raises env args table_read order w u w0 Htest); [lia|done]. }
  split; [done|]. split; [done|]. split.
  - apply quiet_os_makedirs.
  - apply os_makedirs_keeps_files.
Qed.

Lemma empty_id_list_ends_in_error_witness :
  exists w1,
    main Samples.no_tools (Samples.run_args false false)
      (mkInputs (Some []) (Some (Ok Samples.single_table))) [] Samples.empty_world
      = Raised ZeroDivisionError w1 /\
    exit_status
      (main Samples.no_tools (Samples.run_args false false)
         (mkInputs (Some []) (Some (Ok Samples.single_table))) [] Samples.empty_world)
      = 1%nat.
Proof.
  pose (o := startup Samples.no_tools Samples.empty_world).
  assert (o = Done tt (world_of o)) as H by (vm_compute; reflexivity).
  destruct (empty_id_list_ends_in_error Samples.no_tools (Samples.run_args false false)
              (Ok Samples.single_table) [] Samples.empty_world tt (world_of o)
              eq_refl H) as (w1 & Hrun & Hexit & _).
  exists w1. split; [exact Hrun|exact Hexit].
Defined.

Lemma loop_counts_by_outcome_witness :
  exists c w',
    as_completed_loop Samples.no_tools (Samples.run_args false false)
      (Samples.meta_of Samples.single_table) 2 ["SRR2"; "SRR1"]
      (mkCounters 0 0 0 0) Samples.single_world = Done c w' /\
    successful c = 0%nat /\ skipped c = 1%nat /\ failed c = 1%nat /\
    completed c = 2%nat.
Proof.
  destruct (loop_counts_by_outcome Samples.no_tools (Samples.run_args false false)
              (Samples.meta_of Samples.single_table) 2 ["SRR2"; "SRR1"]
              Samples.single_world)
    as (c & w' & Hloop & Hs & Hk & Hf & Hc).
  - lia.
  - vm_compute. reflexivity.
  - exists c, w'. split; [exact Hloop|].
    rewrite Hs, Hk, Hf, Hc. vm_compute. repeat split.
Defined.

(** X21: When reading the file raises nothing outside Exception,
    is_valid_fastq_file returns a verdict for the path: no exception
    leaves it. *)
Theorem validator_returns fs p :
  (forall f, lookup_path fs p = Some f -> ordinary_io f) ->
  exists r, validate fs p = Ok r /\ is_valid_fastq_file fs p = Ok (accepted r).
Proof. apply validate_returns. Qed.

Lemma validator_returns_witness :
  exists r,
    validate (fs Samples.corrupt_world) (Samples.item_dir, "SRR1.fastq.gz") = Ok r /\
    is_valid_fastq_file (fs Samples.corrupt_world) (Samples.item_dir, "SRR1.fastq.gz")
      = Ok (accepted r).
Proof.
  apply (validator_returns (fs Samples.corrupt_world) (Samples.item_dir, "SRR1.fastq.gz")).
  intros f Hf. vm_compute in Hf. injection Hf as <-.
  repeat split; intros e He; vm_compute in He;
    first [discriminate | injection He as <-; reflexivity].
Defined.

Lemma accepted_file_shape_witness :
  exists f l1 l2 l3 l4 rest,
    lookup_path (fs Samples.single_world) (Samples.item_dir, "SRR1.fastq") = Some f /\
    text_open f = None /\
    text f = Line l1 :: Line l2 :: Line l3 :: Line l4 :: rest /\
    l1 <> EmptyString /\ l2 <> EmptyString /\ l3 <> EmptyString /\ l4 <> EmptyString /\
    Py.startswith l1 "@" = true /\
    Py.startswith l3 "+" = true /\
    reaches_structural_check f.
Proof.
  apply (accepted_file_shape (fs Samples.single_world) (Samples.item_dir, "SRR1.fastq")).
  vm_compute. reflexivity.
Defined.

Lemma resolver_returns_witness :
  exists layout, get_layout_from_metadata (Exc ValueError) "SRR1" = Ok layout.
Proof.
  apply (resolver_returns (Exc ValueError) "SRR1").
  intros e He. injection He as <-. reflexivity.
Defined.

Lemma resolver_reads_first_row_witness :
  get_layout_from_metadata (Ok Samples.paired_table) "SRR1"
    = Ok (Some (bool_decide (Py.lower "PAIRED" = "paired"))).
Proof.
  apply (resolver_reads_first_row Samples.paired_table "SRR1"
           [Str "SRR1"; Str "PAIRED"] [] "PAIRED"); vm_compute; reflexivity.
Defined.


(** ** What the probe reads under a single-end or unknown layout *)

Section Reads.

Context (srr_id out_dir : string) (paired : option bool).

Lemma reads_only_ret {A} (a : A) : reads_only srr_id out_dir paired (mret a).
Proof. by intros w1 w2 HR. Qed.

Lemma reads_only_bind {A B} (m : M A) (k : A -> M B) :
  reads_only srr_id out_dir paired m ->
  (forall a, reads_only srr_id out_dir paired (k a)) ->
  reads_only srr_id out_dir paired (m ≫= k).
Proof.
  intros Hm Hk w1 w2 HR. destruct (Hm w1 w2 HR) as [Hans Hafter].
  unfold mbind, M_bind.
  destruct (m w1) as [a1 v1|e1 v1], (m w2) as [a2 v2|e2 v2];
    cbn [answer world_of] in *; try discriminate.
  - injection Hans as <-. by apply Hk.
  - by injection Hans as <-.
Qed.

Lemma reads_only_try_except {A} (m : M A) cs (h : pyclass -> M A) :
  reads_only srr_id out_dir paired m ->
  (forall e, reads_only srr_id out_dir paired (h e)) ->
  reads_only srr_id out_dir paired (try_except m cs h).
Proof.
  intros Hm Hh w1 w2 HR. destruct (Hm w1 w2 HR) as [Hans Hafter].
  unfold try_except.
  destruct (m w1) as [a1 v1|e1 v1], (m w2) as [a2 v2|e2 v2];
    cbn [answer world_of] in *; try discriminate.
  - done.
  - injection Hans as <-. destruct (caught_by cs e1); [by apply Hh|done].
Qed.

Lemma reads_only_and_then (a b : M bool) :
  reads_only srr_id out_dir paired a -> reads_only srr_id out_dir paired b ->
  reads_only srr_id out_dir paired (and_then a b).
Proof.
  intros Ha Hb. unfold and_then. apply reads_only_bind; [done|].
  intros []; [done|apply reads_only_ret].
Qed.

Lemma reads_only_observe {A} (r : filesystem -> result A) :
  (forall fs1 fs2, same_for_probe srr_id out_dir paired fs1 fs2 -> r fs1 = r fs2) ->
  reads_only srr_id out_dir paired (observe r).
Proof.
  intros Hr w1 w2 HR. unfold observe. rewrite (Hr _ _ HR).
  by destruct (r (fs w2)).
Qed.

Local Abbreviation watched := (watched srr_id out_dir paired).
Local Abbreviation fastq_dir := (Py.path_join out_dir srr_id).

Lemma watched_dir p : watched p -> p.1 = fastq_dir.
Proof. by intros [-> | [Hd _]]. Qed.

Lemma reads_only_os_path_exists p :
  watched p -> reads_only srr_id out_dir paired (os_path_exists p).
Proof.
  intros Hp. apply reads_only_observe. intros fs1 fs2 [_ HR].
  unfold exists_file. by rewrite (HR p Hp).
Qed.

Lemma reads_only_os_path_getsize p :
  watched p -> reads_only srr_id out_dir paired (os_path_getsize p).
Proof.
  intros Hp. apply reads_only_observe. intros fs1 fs2 [_ HR].
  unfold getsize. by rewrite (HR p Hp).
Qed.

Lemma reads_only_is_valid p :
  watched p -> reads_only srr_id out_dir paired (is_valid p).
Proof.
  intros Hp. apply reads_only_observe. intros fs1 fs2 [_ HR].
  apply is_valid_frame, HR, Hp.
Qed.

Lemma reads_only_os_path_exists_dir :
  reads_only srr_id out_dir paired (os_path_exists_dir fastq_dir).
Proof.
  apply reads_only_observe. intros fs1 fs2 [Hdir _]. f_equal.
  unfold exists_dir. apply bool_decide_ext, Hdir.
Qed.

Lemma lookup_path_is_Some (fs0 : filesystem) (p : path) f :
  lookup_path fs0 p = Some f ->
  exists dir : directory, fs0 !! p.1 = Some dir /\ dir !! p.2 = Some f.
Proof.
  unfold lookup_path. intros (dir & Hd & Hf)%bind_Some. eauto.
Qed.

Lemma lookup_path_is_None (fs0 : filesystem) (p : path) :
  lookup_path fs0 p = None ->
  fs0 !! p.1 = None \/ exists dir : directory, fs0 !! p.1 = Some dir /\ dir !! p.2 = None.
Proof.
  unfold lookup_path. destruct (fs0 !! p.1) as [dir|]; [|by left].
  cbn. right. eauto.
Qed.

Lemma reads_only_os_remove p :
  watched p -> reads_only srr_id out_dir paired (os_remove p).
Proof.
  intros Hp w1 w2 [Hdir HR]. pose proof (HR p Hp) as Hsame.
  unfold os_remove.
  destruct (lookup_path (fs w1) p) as [f|] eqn:H1; symmetry in Hsame.
  - apply lookup_path_is_Some in H1 as (d1 & Hd1 & Hf1).
    apply lookup_path_is_Some in Hsame as (d2 & Hd2 & Hf2).
    rewrite Hd1, Hf1, Hd2, Hf2. cbn [answer world_of fs]. split; [done|]. split.
    + rewrite (watched_dir p Hp), !lookup_insert_eq. split; eauto.
    + intros q Hq. destruct (decide (q = p)) as [->|Hne].
      * by rewrite !lookup_path_remove_eq.
      * rewrite !lookup_path_remove_ne by done. by apply HR.
  - assert (forall w, lookup_path (fs w) p = None ->
                      (match fs w !! p.1 with
                       | Some d =>
                           match d !! p.2 with
                           | Some _ =>
                               Done tt (mkWorld (<[p.1 := delete p.2 d]> (fs w)) (trace w))
                           | None => Raised FileNotFoundError w
                           end
                       | None => Raised FileNotFoundError w
                       end) = Raised FileNotFoundError w) as Hmiss.
    { intros w [Hn | (d & Hd & Hn)]%lookup_path_is_None; rewrite ?Hd, Hn; done. }
    rewrite (Hmiss w1 H1), (Hmiss w2 Hsame). done.
Qed.

Lemma reads_only_write_marker f :
  reads_only srr_id out_dir paired (write_file (item_marker srr_id out_dir) f).
Proof.
  intros w1 w2 HR0. pose proof HR0 as [Hdir HR].
  unfold write_file, item_marker, marker_path. cbn [fst snd].
  destruct (fs w1 !! fastq_dir) as [d1|] eqn:Hd1,
           (fs w2 !! fastq_dir) as [d2|] eqn:Hd2; cbn [answer world_of fs].
  - split; [done|]. split.
    + rewrite !lookup_insert_eq. split; eauto.
    + intros q Hq.
      destruct (decide (q = (fastq_dir, srr_id +:+ ".completed"))) as [->|Hne].
      * by rewrite (lookup_path_write_eq (fs w1) (fastq_dir, srr_id +:+ ".completed")),
          (lookup_path_write_eq (fs w2) (fastq_dir, srr_id +:+ ".completed")).
      * rewrite (lookup_path_write_ne (fs w1) (fastq_dir, srr_id +:+ ".completed") q d1),
          (lookup_path_write_ne (fs w2) (fastq_dir, srr_id +:+ ".completed") q d2)
          by done.
        by apply HR.
  - assert (is_Some (None : option directory)) as [? [=]] by (apply Hdir; eauto).
  - assert (is_Some (None : option directory)) as [? [=]] by (apply Hdir; eauto).
  - split; [done|exact HR0].
Qed.

Lemma reads_only_remove_logged p :
  watched p -> reads_only srr_id out_dir paired (remove_logged p).
Proof.
  intros Hp. unfold remove_logged. apply reads_only_try_except.
  - by apply reads_only_os_remove.
  - intros ?. apply reads_only_ret.
Qed.

Lemma reads_only_remove_quiet p :
  watched p -> reads_only srr_id out_dir paired (remove_quiet p).
Proof.
  intros Hp. unfold remove_quiet, try_bare. apply reads_only_try_except.
  - by apply reads_only_os_remove.
  - intros ?. apply reads_only_ret.
Qed.

Lemma reads_only_exists_nonempty p :
  watched p -> reads_only srr_id out_dir paired (exists_nonempty p).
Proof.
  intros Hp. unfold exists_nonempty. apply reads_only_and_then.
  - by apply reads_only_os_path_exists.
  - apply reads_only_bind; [by apply reads_only_os_path_getsize|].
    intros ?. apply reads_only_ret.
Qed.

Lemma reads_only_verify_singles names :
  (forall n, n ∈ names -> watched (fastq_dir, n)) ->
  reads_only srr_id out_dir paired (verify_singles fastq_dir names).
Proof.
  induction names as [|n names IH]; intros Hnames; cbn [verify_singles];
    [apply reads_only_ret|].
  assert (watched (fastq_dir, n)) as Hn by (apply Hnames; by left).
  assert (reads_only srr_id out_dir paired (verify_singles fastq_dir names)) as Hrest
    by (apply IH; intros ? ?; apply Hnames; by right).
  apply reads_only_bind; [by apply reads_only_os_path_exists|]. intros [|]; [|done].
  apply reads_only_bind; [by apply reads_only_is_valid|]. intros [|];
    [apply reads_only_ret|].
  apply reads_only_bind; [by apply reads_only_remove_logged|]. by intros ?.
Qed.

Lemma reads_only_probe_singles names :
  (forall n, n ∈ names -> watched (fastq_dir, n)) ->
  reads_only srr_id out_dir paired
    (probe_singles fastq_dir (item_marker srr_id out_dir) names).
Proof.
  induction names as [|n names IH]; intros Hnames; cbn [probe_singles];
    [apply reads_only_ret|].
  assert (watched (fastq_dir, n)) as Hn by (apply Hnames; by left).
  assert (reads_only srr_id out_dir paired
            (probe_singles fastq_dir (item_marker srr_id out_dir) names)) as Hrest
    by (apply IH; intros ? ?; apply Hnames; by right).
  apply reads_only_bind; [by apply reads_only_exists_nonempty|]. intros [|]; [|done].
  apply reads_only_bind; [by apply reads_only_is_valid|]. intros [|].
  - apply reads_only_bind; [apply reads_only_write_marker|]. intros ?.
    apply reads_only_ret.
  - apply reads_only_bind; [by apply reads_only_remove_quiet|]. by intros ?.
Qed.

Hypothesis single : truthy paired = false.

Lemma single_names_watched n :
  n ∈ single_patterns srr_id -> watched (fastq_dir, n).
Proof.
  intros Hn. right. split; [done|]. unfold item_names. by rewrite single.
Qed.

Lemma reads_only_check_existing_files :
  reads_only srr_id out_dir paired (check_existing_files srr_id out_dir paired).
Proof.
  unfold check_existing_files, verify_and_clean_downloads. rewrite single.
  change (marker_path fastq_dir srr_id) with (item_marker srr_id out_dir).
  assert (watched (item_marker srr_id out_dir)) as Hmarker by by left.
  apply reads_only_bind; [by apply reads_only_os_path_exists|]. intros [|].
  - apply reads_only_bind.
    + apply reads_only_bind;
        [apply reads_only_verify_singles, single_names_watched|].
      intros found. apply reads_only_bind; [|intros ?; apply reads_only_ret].
      destruct found; cbn [negb]; [apply reads_only_ret|].
      apply reads_only_bind; [by apply reads_only_os_path_exists|].
      intros [|]; [by apply reads_only_remove_logged|apply reads_only_ret].
    + intros [|]; [apply reads_only_ret|].
      apply reads_only_bind; [by apply reads_only_remove_quiet|].
      intros ?. apply reads_only_ret.
  - apply reads_only_bind; [apply reads_only_os_path_exists_dir|]. intros [|].
    + apply reads_only_probe_singles, single_names_watched.
    + apply reads_only_ret.
Qed.

End Reads.

(** ** Which programs the toolkit strategies start *)

Section Starts.

Context (P : command -> Prop).

Lemma starts_only_quiet {A} (m : M A) : quiet m -> starts_only P m.
Proof. intros Hq w. exists []. by rewrite app_nil_r, Hq. Qed.

Lemma starts_only_bind {A B} (m : M A) (k : A -> M B) :
  starts_only P m -> (forall a, starts_only P (k a)) -> starts_only P (m ≫= k).
Proof.
  intros Hm Hk w. destruct (Hm w) as (l1 & Ht1 & Hl1). unfold mbind, M_bind.
  destruct (m w) as [a w1|e w1]; cbn [world_of] in *; [|eauto].
  destruct (Hk a w1) as (l2 & Ht2 & Hl2). exists (l1 ++ l2).
  split; [by rewrite Ht2, Ht1, app_assoc|by apply Forall_app].
Qed.

Lemma starts_only_try_except {A} (m : M A) cs (h : pyclass -> M A) :
  starts_only P m -> (forall e, starts_only P (h e)) ->
  starts_only P (try_except m cs h).
Proof.
  intros Hm Hh w. destruct (Hm w) as (l1 & Ht1 & Hl1). unfold try_except.
  destruct (m w) as [a w1|e w1]; cbn [world_of] in *; [eauto|].
  destruct (caught_by cs e); cbn [world_of]; [|eauto].
  destruct (Hh e w1) as (l2 & Ht2 & Hl2). exists (l1 ++ l2).
  split; [by rewrite Ht2, Ht1, app_assoc|by apply Forall_app].
Qed.

Lemma starts_only_subprocess_run env text cmd :
  P cmd -> starts_only P (subprocess_run env text cmd).
Proof.
  intros Hcmd w. unfold subprocess_run.
  destruct (subprocess env cmd w) as [x|rc fs'|rc fs']; cbn [world_of trace].
  - exists []. by rewrite app_nil_r.
  - exists [cmd]. split; [done|by constructor].
  - exists [cmd]. destruct text; (split; [done|by constructor]).
Qed.

Lemma starts_only_gzip_each env fastq_dir files :
  (forall file, P ["gzip"; Py.path_join fastq_dir file]) ->
  starts_only P (gzip_each env fastq_dir files).
Proof.
  intros Hgzip. induction files as [|file rest IH]; cbn [gzip_each];
    [apply starts_only_quiet, quiet_ret|].
  apply starts_only_bind; [|by intros ?].
  destruct (Py.endswith file ".fastq"); [|apply starts_only_quiet, quiet_ret].
  apply starts_only_bind; [by apply starts_only_subprocess_run|].
  intros ?. apply starts_only_quiet, quiet_ret.
Qed.

End Starts.

Lemma quiet_fix_directory_permissions d : quiet (fix_directory_permissions d).
Proof. unfold fix_directory_permissions. repeat quiet_step. Qed.

Lemma quiet_os_listdir d : quiet (os_listdir d).
Proof. unfold os_listdir. apply quiet_observe. Qed.

(** Whatever the layout of the item, the direct strategy runs
    [fasterq-dump] with [--split-files] only. *)
Lemma direct_asks_split env srr_id out_dir threads :
  starts_only (fun cmd => head cmd = Some "fasterq-dump" -> asks_split cmd)
    (download_sra_directly env srr_id out_dir threads).
Proof.
  unfold download_sra_directly. cbv zeta.
  apply starts_only_try_except; [|intros ?; apply starts_only_quiet, quiet_ret].
  apply starts_only_bind; [apply starts_only_quiet, quiet_os_makedirs|]. intros ?.
  apply starts_only_bind; [apply starts_only_quiet, quiet_fix_directory_permissions|].
  intros ?.
  apply starts_only_bind; [by apply starts_only_subprocess_run|]. intros prefetch.
  destruct (negb _); [apply starts_only_quiet, quiet_ret|].
  apply starts_only_bind.
  { apply starts_only_subprocess_run. intros _. unfold asks_split.
    rewrite !elem_of_cons. tauto. }
  intros fasterq. destruct (negb _); [apply starts_only_quiet, quiet_ret|].
  apply starts_only_bind; [apply starts_only_quiet, quiet_os_listdir|]. intros files.
  apply starts_only_bind; [by apply starts_only_gzip_each|]. intros ?.
  apply starts_only_bind; [apply starts_only_quiet, quiet_os_listdir|]. intros files'.
  apply starts_only_bind;
    [apply starts_only_quiet, quiet_verify_and_clean_downloads|].
  intros [|]; apply starts_only_quiet, quiet_ret.
Qed.

Lemma try_except_ret_trace {A} (m : M A) cs (b : A) w :
  trace (world_of (try_except m cs (fun _ => mret b) w)) = trace (world_of (m w)).
Proof.
  unfold try_except. destruct (m w) as [a w1|e w1]; [done|].
  by destruct (caught_by cs e).
Qed.

(** The dump strategy runs [fastq-dump] with [--split-files] first, and
    without it only after that. *)
Lemma fastq_dump_asks_split_first env srr_id out_dir threads w :
  let fastq_dir := Py.path_join out_dir srr_id in
  exists l,
    trace (world_of (download_with_fastq_dump env srr_id out_dir threads w))
      = trace w ++ l /\
    (l = [] \/ l = [dump_split_cmd srr_id fastq_dir] \/
     l = [dump_split_cmd srr_id fastq_dir; dump_plain_cmd srr_id fastq_dir]).
Proof.
  intros fastq_dir. unfold download_with_fastq_dump. rewrite try_except_ret_trace.
  cbv zeta. fold fastq_dir.
  set (w1 := world_of (os_makedirs fastq_dir w)).
  assert (trace w1 = trace w) as Ht1 by apply quiet_os_makedirs.
  rewrite (bind_Done _ _ _ tt w1) by apply os_makedirs_returns.
  rewrite (bind_Done _ _ _ true w1)
    by apply fix_directory_permissions_returns, os_makedirs_exists.
  fold (dump_split_cmd srr_id fastq_dir). fold (dump_plain_cmd srr_id fastq_dir).
  rewrite <- Ht1. generalize w1. clear. intros w.
  unfold mbind at 1, M_bind at 1, subprocess_run at 1.
  destruct (subprocess env (dump_split_cmd srr_id fastq_dir) w) as [x|rc fs'|rc fs'];
    cbn [world_of trace].
  - exists []. split; [by rewrite app_nil_r|by left].
  - set (w2 := mkWorld fs' (trace w ++ [dump_split_cmd srr_id fastq_dir])).
    assert (forall (rest : Z -> M bool) returncode w3,
              (forall rc, quiet (rest rc)) ->
              trace w3 = trace w2 \/
              trace w3 = trace w2 ++ [dump_plain_cmd srr_id fastq_dir] ->
              exists l,
                trace (world_of (rest returncode w3)) = trace w ++ l /\
                (l = [] \/ l = [dump_split_cmd srr_id fastq_dir] \/
                 l = [dump_split_cmd srr_id fastq_dir;
                      dump_plain_cmd srr_id fastq_dir])) as Hrest.
    { intros rest returncode w3 Hq [Ht|Ht]; rewrite Hq, Ht; subst w2; cbn [trace].
      - exists [dump_split_cmd srr_id fastq_dir]. split; [done|]. right. by left.
      - exists [dump_split_cmd srr_id fastq_dir; dump_plain_cmd srr_id fastq_dir].
        split; [exact (eq_sym (app_assoc _ [_] [_]))|]. right. by right. }
    assert (forall rc0,
              quiet (fun w0 =>
                (if bool_decide (rc0 = 0%Z) then
                   listing ← os_listdir fastq_dir;
                   match List.filter (fun f => Py.endswith f ".fastq.gz"
                                           || Py.endswith f ".fastq") listing with
                   | _ :: _ =>
                       write_file (marker_path fastq_dir srr_id) completion_marker;;
                       mret true
                   | [] => mret false
                   end
                 else mret false) w0)) as Hquiet.
    { intros rc0. destruct (bool_decide (rc0 = 0%Z)); [|apply quiet_ret].
      apply quiet_bind; [apply quiet_os_listdir|]. intros listing.
      destruct (List.filter _ listing); [apply quiet_ret|].
      apply quiet_bind; [apply quiet_write_file|]. intros ?. apply quiet_ret. }
    unfold mbind at 1, M_bind at 1.
    destruct (negb (bool_decide (rc = 0%Z))).
    + unfold subprocess_run.
      destruct (subprocess env (dump_plain_cmd srr_id fastq_dir) w2)
        as [x|rc2 fs2|rc2 fs2]; cbn [world_of trace].
      * exists [dump_split_cmd srr_id fastq_dir]. split; [done|]. right. by left.
      * apply (Hrest _ rc2 _ Hquiet). right. done.
      * exists [dump_split_cmd srr_id fastq_dir; dump_plain_cmd srr_id fastq_dir].
        split; [exact (eq_sym (app_assoc _ [_] [_]))|]. right. by right.
    + apply (Hrest _ rc w2 Hquiet). by left.
  - exists [dump_split_cmd srr_id fastq_dir]. split; [done|]. right. by left.
Qed.

(** No paired file name is among the paths the probe looks at under the
    unknown layout. *)
Lemma paired_names_unwatched srr_id out_dir q n :
  q ∈ paired_patterns srr_id -> n = q.1 \/ n = q.2 ->
  ~ watched srr_id out_dir None (Py.path_join out_dir srr_id, n).
Proof.
  intros Hq Hn Hw. unfold paired_patterns in Hq.
  assert (exists suffix, n = srr_id +:+ suffix /\
                         suffix <> ".completed" /\ suffix <> ".fastq.gz" /\
                         suffix <> ".fastq" /\ suffix <> ".fq.gz" /\ suffix <> ".fq")
    as (suffix & -> & Hc & H1 & H2 & H3 & H4).
  { repeat (apply elem_of_cons in Hq as [-> | Hq]);
      [..|by apply elem_of_nil in Hq];
      destruct Hn as [-> | ->]; cbn [fst snd]; eexists; (split; [reflexivity|]);
      repeat split; discriminate. }
  destruct Hw as [Hm | [_ Hs]].
  - unfold item_marker, marker_path in Hm. injection Hm as Hm.
    by apply (inj (String.app srr_id)) in Hm.
  - cbn [snd] in Hs. unfold item_names, single_patterns in Hs. cbn [truthy] in Hs.
    repeat (apply elem_of_cons in Hs as [Hs|Hs];
            [by apply (inj (String.app srr_id)) in Hs|]).
    by apply elem_of_nil in Hs.
Qed.

(** C4, amended: when the layout cannot be read from the metadata (the
    read raises, a key or layout column is missing, no row matches, the
    layout cell is not text) the resolver returns the unknown layout and
    does not raise.  Under the unknown layout the probe and the EBI and
    NCBI strategies do exactly what they do for a single-end item: the
    answer and the effect of the probe depend on the marker and the
    single-end names only, among which no paired name is, every other
    file is left as it was, and the EBI strategy asks for the single-end
    name only.  The two toolkit
    strategies take no layout: the direct one runs [fasterq-dump] with
    [--split-files] only, the dump one runs [fastq-dump] with
    [--split-files] first and without it only after that. *)
Theorem C4_unknown_layout_is_single srr_id metadata_file :
  undetermined srr_id metadata_file ->
  get_layout_from_metadata metadata_file srr_id = Ok None /\
  (forall out_dir,
     check_existing_files srr_id out_dir None
     = check_existing_files srr_id out_dir (Some false) /\
     reads_only srr_id out_dir None (check_existing_files srr_id out_dir None) /\
     (forall w p,
        ~ watched srr_id out_dir None p ->
        lookup_path (fs (world_of (check_existing_files srr_id out_dir None w))) p
        = lookup_path (fs w) p) /\
     (forall q n, q ∈ paired_patterns srr_id -> n = q.1 \/ n = q.2 ->
                  ~ watched srr_id out_dir None (Py.path_join out_dir srr_id, n))) /\
  (forall env out_dir threads,
     try_download_with_curl env srr_id out_dir threads None
     = try_download_with_curl env srr_id out_dir threads (Some false) /\
     try_ncbi_download env srr_id out_dir threads None
     = try_ncbi_download env srr_id out_dir threads (Some false) /\
     starts_only (fun cmd => head cmd = Some "fasterq-dump" -> asks_split cmd)
       (download_sra_directly env srr_id out_dir threads) /\
     (forall w, exists l,
        trace (world_of (download_with_fastq_dump env srr_id out_dir threads w))
          = trace w ++ l /\
        (l = [] \/
         l = [dump_split_cmd srr_id (Py.path_join out_dir srr_id)] \/
         l = [dump_split_cmd srr_id (Py.path_join out_dir srr_id);
              dump_plain_cmd srr_id (Py.path_join out_dir srr_id)]))) /\
  curl_file_names srr_id None = [srr_id +:+ ".fastq.gz"].
Proof.
  intros H. split; [by apply undetermined_is_unknown|]. split; [|split; [|done]].
  - intros out_dir. split; [done|]. split; [|split].
    + by apply reads_only_check_existing_files.
    + intros w p Hp.
      eapply steps_frame; [apply (tidies_check_existing_files srr_id out_dir None w)| |].
      * intros [Hd | ->]; apply Hp; [by right|by left].
      * intros ->. apply Hp. by left.
    + apply paired_names_unwatched.
  - intros env out_dir threads. split; [done|]. split; [done|]. split.
    + apply direct_asks_split.
    + apply fastq_dump_asks_split_first.
Qed.

Lemma C4_unknown_layout_is_single_witness :
  get_layout_from_metadata (Ok Samples.other_table) "SRR1" = Ok None /\
  (forall out_dir,
     check_existing_files "SRR1" out_dir None
     = check_existing_files "SRR1" out_dir (Some false) /\
     reads_only "SRR1" out_dir None (check_existing_files "SRR1" out_dir None) /\
     (forall w p,
        ~ watched "SRR1" out_dir None p ->
        lookup_path (fs (world_of (check_existing_files "SRR1" out_dir None w))) p
        = lookup_path (fs w) p) /\
     (forall q n, q ∈ paired_patterns "SRR1" -> n = q.1 \/ n = q.2 ->
                  ~ watched "SRR1" out_dir None (Py.path_join out_dir "SRR1", n))) /\
  (forall env out_dir threads,
     try_download_with_curl env "SRR1" out_dir threads None
     = try_download_with_curl env "SRR1" out_dir threads (Some false) /\
     try_ncbi_download env "SRR1" out_dir threads None
     = try_ncbi_download env "SRR1" out_dir threads (Some false) /\
     starts_only (fun cmd => head cmd = Some "fasterq-dump" -> asks_split cmd)
       (download_sra_directly env "SRR1" out_dir threads) /\
     (forall w, exists l,
        trace (world_of (download_with_fastq_dump env "SRR1" out_dir threads w))
          = trace w ++ l /\
        (l = [] \/
         l = [dump_split_cmd "SRR1" (Py.path_join out_dir "SRR1")] \/
         l = [dump_split_cmd "SRR1" (Py.path_join out_dir "SRR1");
              dump_plain_cmd "SRR1" (Py.path_join out_dir "SRR1")]))) /\
  curl_file_names "SRR1" None = ["SRR1" +:+ ".fastq.gz"].
Proof.
  apply C4_unknown_layout_is_single.
  apply lookup_miss_run; vm_compute; reflexivity.
Defined.
